(* ===== verification/_CoqProject ===== *)
-Q . S2P
Prelude.v
Cells.v
Frame.v
Classifier.v
Pattern.v
Grouping.v
Scanner.v
Distributions.v
Describe.v
Report.v
