(* ===== verification/Prelude.v ===== *)
(** * A verification development of reportgen's analysis engine

    This library models [src/reportgen/analysis.py] of the reportgen
    repository: the heuristic engine that infers the semantic type of each
    column of a pandas DataFrame, groups numbered numeric columns into one
    multi-valued variable, and bins numeric data for the report. It is
    written as a shallow embedding: every function of the source becomes a
    Rocq definition that computes, and pandas' mutation of the caller's
    DataFrame is an explicit state passed through a small monad.

    ** The program and how its parts interact

    - [dtype_detection] (the column classifier, lines 97-210) reads one
      column of the DataFrame, rewrites its storage in place (integral
      floats to int64, low-cardinality columns to categoricals, fixed-width
      strings to timestamps, percent strings to fractions) and returns a
      record {name, vtype, ordered, categories}, or [None] for a storage
      kind it does not know. It can raise: the percent conversion and the
      structured-text probe are not guarded.
    - [type_of_var] (lines 215-246) and [var_detection] (lines 250-313)
      run the classifier over every column, in column order, on the same
      DataFrame. [var_detection] then scans the list of results for runs of
      numeric columns named [<prefix><digits>] and merges a run into one
      [group_number] variable.
    - [_freedman_diaconis_bins] and [distributions] (lines 42-94) bin a
      numeric array for the plots; [describe], [plot] and [AnalysisReport]
      (lines 315-495) format the results for the report builder.

    ** Files, in dependency order

    - [Prelude] (this file): Python exceptions ([pyexc]), the result of a
      computation that may raise ([outcome], itself a monad), the
      exception-and-state monad [PyM] over the mutated DataFrame (the state
      survives an exception, as in Python), the [reportgen_scope] notation
      scope, the [reportgen] hint databases, and the shared lemmas on
      lists and integers ([np.diff] telescoping, first-occurrence
      [unique] and its counts).
    - [Cells]: Python and numpy scalars ([cell]), their equality as pandas
      hashes them (a setoid coarser than [=], with [Proper] instances),
      truncation and the int64 wrap-around of [astype(np.int64)] and
      [.sum()], the sort order of categories, and the [PyRuntime] class:
      the interface through which the model calls the library functions it
      does not re-implement ([float()], [str()] of a float,
      [pd.to_datetime] of one string), with the executable instance
      [decimal_runtime] (module [DecimalRuntime]) used by the witnesses.
    - [Frame]: a column ([column]: name, [dtype], cells), a DataFrame as
      the ordered list of its columns ([table], [lookup_col] for [data[c]],
      [set_col] for [data[c] = x]), and the pandas operations the
      classifier uses ([count], [dropna], [unique], [value_counts],
      [astype('category')], [.str.contains]/[.str.strip], the sample [std]
      of the lengths, compared without square roots).
    - [Classifier]: [dtype_detection] as the source writes it, one
      definition per branch ([detect_number], [try_to_datetime],
      [collapse_category], [convert_percent], [final_detection],
      [structured_text]) composed in [PyM] by [detect_string] and
      [dtype_detection], with every [data[c] = ...] a write
      ([update_col]); and [classify_column], the same classifier as a
      function of one column, which the refinement theorem relates to it.
    - [Pattern]: the name pattern [(.*?)(\d+)] of [re.findall]
      ([first_match]) and its round trip with [str()]/[int()] of the
      numeric suffix.
    - [Grouping]: the run
      collection ([collect_run]), the two tests ([same_prefix],
      [consecutive] with numpy's int64/uint64/object choice for [np.diff]),
      one iteration of the [while] loop ([scan_step]), the loop as a
      fuelled function ([scan_loop]) and as a reachability relation
      ([reaches]), and the emission of the final list ([emit], [emit_all]).
    - [Scanner]: [type_of_var] and [var_detection] on the shared DataFrame,
      and [columnwise], the reference that classifies each column on its
      own, left to right. [data.loc[:,:]] in [type_of_var] is the same
      DataFrame in pandas 1.x, so [inplace=False] rewrites the caller's
      data as well.
    - [Distributions]: [utils.iqr] (from the spec: numpy's linear
      percentile), the Freedman-Diaconis count [freedman_diaconis_bins],
      [np.linspace], [np.histogram] as numpy computes equal-width bins
      ([bin_index], [bincount]), the normalisation, and [distributions]
      with scipy's [gaussian_kde] and [np.std] as Section parameters.
    - [Describe]: [describe] (lines 315-324) as the loop of [pd.concat]
      it is, an outer join on the statistic names, with pandas 1.x
      [describe] of one column (numeric or categorical, datetime with
      first/last) and the sorted [value_counts].
    - [Report]: the module setup (lines 13 and 33-40: the import of
      [collections.Iterable], [font_path], [myfont], [sns.set]) as
      [import_analysis]; [plot] (lines 327-390), every call on the figure
      and the axes in order ([draw]), with the [NameError] of an unbound
      [myfont]; and [AnalysisReport] (lines 394-495). Its state [rstate] holds what the code changes: the calls
      on the report object [p], the files of the working directory, the
      printed messages and the local [slides_data]. One definition per
      branch ([number_branch], [category_branch], [datetime_branch],
      [text_branch], [group_branch]) composed by [report_var],
      [report_vars] and [run_report]; [AnalysisReport] runs
      [var_detection] first when no [var_list] is given. The drawing
      calls, the legend handles, the word cloud, [config.font_path] and
      the font file go through the [Backend] class (the exception each
      call raises, if any); a weakest-precondition calculus [wp]
      with the tactic [wp_run] walks through a branch.

    ** What the theorems show

    Each component file ends with its theorems and concrete runs; the
    manifest lists the main ones as claims, and every claim with a
    hypothesis has a witness that applies it to a concrete input.
    - Refinement: [Classifier.dtype_detection_refines] (the stateful
      classifier is [classify_column] written back in place, on every
      branch, exceptions included), [Scanner.detect_all_columnwise] (the
      classification loop is [columnwise]) and [Scanner.type_of_var_spec]
      (for either value of [inplace]);
      [Classifier.dtype_detection_frame] (only column [c] changes).
    - The grouping loop: [Grouping.scan_terminates_iff] and
      [Scanner.var_detection_diverges_iff] (it ends exactly when it never
      reaches a rejected run, and the fuel is adequate),
      [Grouping.scan_rejected_run_diverges], [Grouping.scan_groups_sound]
      (the invariant of the loop), [Scanner.var_detection_partition] (the
      emitted entries partition the classified columns, in order).
    - The classifier's branches: [detect_number_spec],
      [detect_number_nonneg_preserves], [structured_text_spec],
      [percent_column_vtype], the error [convert_percent_value_error],
      and [dtype_detection_category_rerun] (classification is not
      idempotent).
    - Distributions: [histogram_spec] (numpy's index arithmetic implements
      the spec's equal-width binning, counts sum to the length),
      [distributions_hist_default] (1 to 50 bins, normalised counts sum to
      one), [freedman_diaconis_ceiling], [freedman_diaconis_constant] (the
      fallback is the floor of the square root) and
      [distributions_kde_linalg_error].
    - Summary statistics: [Describe.describe_outer_join] (the loop of
      concatenations is the outer join), [Describe.describe_numeric_bounds]
      (min <= quartiles <= max, mean in range) and
      [Describe.describe_categorical_mode] (top and freq).
    - The report: [Report.run_report_slides] (the returned [slides_data]
      are the slides added, in order), [Report.analysis_report_exceptions]
      and [Report.analysis_report_no_keyerror] (what can be raised; no
      [KeyError] when the columns come from [var_detection]),
      [Report.percentages_bounds], [Report.category_slide_top],
      [Report.text_branch_spec] (the word-cloud branch never raises and
      adds its slide exactly when the word cloud is made),
      [Report.plot_scatter_font] (a scatter plot raises [NameError] when
      no font is configured),
      [Report.number_branch_removes_plots],
      [Report.analysis_report_diverges_iff] (the report returns exactly
      when the grouping loop ends), the errors
      [Report.datetime_all_nat_value_error] and
      [Report.analysis_report_bad_filename]; and
      [Scanner.var_detection_entries_wf] (the shape of every entry).
    - The module setup: [Report.import_then_scatter] (after the import,
      [myfont] and seaborn's font are bound exactly when
      [config.font_path] is neither [None] nor empty, and a scatter plot
      raises [NameError] exactly when it is); the example
      [Report.import_fails_on_python_312] shows the import failing on
      Python 3.10 and later.
    - Names: [Pattern.name_suffix_roundtrip] and
      [Grouping.numbered_run_grouped] (a run [p1, ..., pk] is one group).
    - Bounds: [Frame.std_lt_tenth_small] ([std < 0.1] means constant
      length up to 100 values; [Frame.std_lt_tenth_101_not_constant]
      shows it fails from 101 on) and
      [Grouping.consecutive_span] (only the total span of the suffixes is
      checked, through int64 wrap-around).

    ** Modelling choices, bounds and what is left out

    - Floats are exact rationals ([Q]); float rounding is not modelled, and
      the arrays of [distributions] hold no NaN. int64 is modelled at its
      width: [astype(np.int64)] truncates toward zero and maps
      out-of-range values to INT64_MIN (the x86-64 result of the
      conversion), and integer [.sum()] wraps modulo 2^64.
    - [sqrt], [std] and cube roots are compared, never computed: [u < sqrt
      n] is [u*u < n], [std < 0.1] is [100 * var < 1], and
      [ceil((max - min) / h)] is the least [k] with [X <= k^3] for the
      rational [X = (max - min)^3 n / (8 iqr^3)], searched in
      [[-B, B]] with [B = |ceil X| + 1], an interval that contains it.
    - The pandas version modelled is 1.x, where [is_string_dtype] is false
      for a categorical column; numpy's [histogram] is that of numpy 1.x.
    - Python's [float()], [str()] of a float and [pd.to_datetime] are
      parameters ([PyRuntime]); every theorem holds for every instance,
      and the witnesses run on the decimal instance (ISO dates only).
    - The scan loop of [var_detection] is not structurally recursive and
      does not always terminate: it is a step function run with fuel
      [length var_list + 1], which is enough whenever the loop terminates
      at all ([Scanner.var_detection_diverges_iff]); the model reports
      [Diverges] otherwise.
    - [describe] is pandas 1.x: [std] is kept as the square root of the
      exact variance ([SSqrt]); ties among [value_counts] are in order of
      first appearance (pandas leaves that order open, and no theorem
      depends on it).
    - In [AnalysisReport] the report builder, the figures and the word
      cloud are external: their effects are recorded (deck calls, files),
      their failures come from [Backend]; [time.strftime] is a Section
      variable; [os.path.splitext] is modelled after posixpath.
    - [plot] records its calls in order; whether the axes have legend
      handles is the Backend's [has_legend_handles] on the calls of this
      [plot] (an [ax] passed in with artists of its own is not
      inspected). The Python version is the record [py_version]; only
      [collections.Iterable] depends on it, the other imports are taken
      to succeed.
    - Not modelled: the [data=None] path of [dtype_detection] (a Series
      argument) and its type check (lines 123-131); [np.asarray(a).squeeze()]
      (the model takes a flat array); scipy's [gaussian_kde], its
      evaluation and [np.std] (parameters); the imports other than
      [collections.Iterable] and the unused [_thisdir] (lines 8-32);
      the argument [vertical] of [plot], which the code never reads. *)

From Stdlib Require Export QArith Qround ZArith Lia Lqa String Ascii.
From stdpp Require Export base list gmap strings.

Close Scope Q_scope.

Declare Scope reportgen_scope.
Delimit Scope reportgen_scope with rg.

Create HintDb reportgen.
Create Rewrite HintDb reportgen_rw.

(** ** Python exceptions and the state-and-exception monad *)

(** The exceptions the modelled code can raise. *)
Inductive pyexc :=
| ValueError
| AttributeError
| IndexError
| KeyError
| TypeError
| LinAlgError
| OSError        (** [FileNotFoundError] of [os.remove] *)
| NameError      (** a module global that was never bound *)
| ImportError.   (** a name missing from an imported module *)

#[export] Instance pyexc_eq_dec : EqDecision pyexc.
Proof. solve_decision. Defined.

(** The result of a Python computation: a value, or an exception that
    propagates. *)
Inductive outcome (A : Type) :=
| Ret (a : A)
| Exc (e : pyexc).
Arguments Ret {A} a.
Arguments Exc {A} e.

Definition outcome_map {A B} (f : A -> B) (o : outcome A) : outcome B :=
  match o with Ret a => Ret (f a) | Exc e => Exc e end.

(** Pure code that may raise: [outcome] is itself a monad. *)
#[export] Instance outcome_ret : MRet outcome := fun A a => Ret a.
#[export] Instance outcome_bind : MBind outcome := fun A B f o =>
  match o with Ret a => f a | Exc e => Exc e end.

(** A computation over a shared mutable state [S] (the caller's DataFrame)
    that may raise. The state is returned in both cases: what was mutated
    before an exception stays mutated, as in Python. *)
Definition PyM (S A : Type) : Type := S -> outcome A * S.

#[export] Instance PyM_ret S : MRet (PyM S) := fun A a s => (Ret a, s).
#[export] Instance PyM_bind S : MBind (PyM S) := fun A B f m s =>
  match m s with
  | (Ret a, s') => f a s'
  | (Exc e, s') => (Exc e, s')
  end.

Definition py_get {S} : PyM S S := fun s => (Ret s, s).
Definition py_put {S} (x : S) : PyM S unit := fun _ => (Ret tt, x).
Definition py_raise {S A} (e : pyexc) : PyM S A := fun s => (Exc e, s).

(** Lift a pure result (a value or an exception) into the monad. *)
Definition py_lift {S A} (o : outcome A) : PyM S A := fun s => (o, s).

Notation "'raise' e" := (py_raise e) (at level 10) : reportgen_scope.

Section monad_laws.
Context {S A B : Type}.

Lemma py_bind_ret (a : A) (f : A -> PyM S B) s :
  (mret a ≫= f) s = f a s.
Proof. reflexivity. Qed.

Lemma py_bind_run (m : PyM S A) (f : A -> PyM S B) s :
  (m ≫= f) s = match m s with
               | (Ret a, s') => f a s'
               | (Exc e, s') => (Exc e, s')
               end.
Proof. reflexivity. Qed.

Lemma py_bind_exc (m : PyM S A) (f : A -> PyM S B) s e s' :
  m s = (Exc e, s') -> (m ≫= f) s = (Exc e, s').
Proof. intros H. by rewrite py_bind_run, H. Qed.

Lemma py_bind_ok (m : PyM S A) (f : A -> PyM S B) s a s' :
  m s = (Ret a, s') -> (m ≫= f) s = f a s'.
Proof. intros H. by rewrite py_bind_run, H. Qed.
End monad_laws.

#[export] Hint Rewrite @py_bind_ret : reportgen_rw.

(** Unfold the monad's plumbing after [simpl] has stopped. *)
Ltac py_unfold :=
  cbn [mbind mret PyM_bind PyM_ret py_get py_put py_raise py_lift] in *.

(** ** Lists *)

(** [np.diff]: successive differences. *)
Fixpoint diffs (l : list Z) : list Z :=
  match l with
  | x :: ((y :: _) as t) => (y - x)%Z :: diffs t
  | _ => []
  end.

Definition sumZ (l : list Z) : Z := foldr Z.add 0%Z l.

(** The sum of successive differences telescopes to last minus first. *)
Lemma sumZ_diffs (x : Z) (l : list Z) :
  sumZ (diffs (x :: l)) = (default x (last (x :: l)) - x)%Z.
Proof.
  revert x. induction l as [|y l IH]; intros x; [simpl; lia|].
  change (sumZ (diffs (x :: y :: l))) with ((y - x) + sumZ (diffs (y :: l)))%Z.
  rewrite IH, last_cons_cons.
  destruct (last (y :: l)) eqn:E; simpl; [lia|].
  by apply last_None in E.
Qed.

Lemma length_diffs (l : list Z) : length (diffs l) = pred (length l).
Proof.
  induction l as [|x [|y l] IH]; simpl in *; auto.
Qed.

(** pandas' [Series.unique()] (and the distinct count of [value_counts]):
    the values in order of first appearance, equality decided by a
    boolean test. *)
Section unique.
Context {A : Type} (eqb : A -> A -> bool).

Fixpoint unique_aux (seen : list A) (l : list A) : list A :=
  match l with
  | [] => []
  | x :: t =>
      if existsb (eqb x) seen then unique_aux seen t
      else x :: unique_aux (x :: seen) t
  end.

Definition unique (l : list A) : list A := unique_aux [] l.

Lemma unique_aux_length seen l : length (unique_aux seen l) <= length l.
Proof.
  revert seen. induction l as [|x t IH]; intros seen; simpl; [lia|].
  destruct (existsb (eqb x) seen); simpl; [specialize (IH seen) | specialize (IH (x :: seen))]; lia.
Qed.

Lemma unique_length l : length (unique l) <= length l.
Proof. apply unique_aux_length. Qed.

Lemma unique_aux_sublist seen l : sublist (unique_aux seen l) l.
Proof.
  revert seen. induction l as [|x t IH]; intros seen; simpl; [constructor|].
  destruct (existsb (eqb x) seen).
  - by apply sublist_cons.
  - by apply sublist_skip.
Qed.

Lemma unique_sublist l : sublist (unique l) l.
Proof. apply unique_aux_sublist. Qed.

Lemma unique_nil_iff l : unique l = [] <-> l = [].
Proof.
  split; [|by intros ->].
  destruct l as [|x t]; [done|]. unfold unique. simpl. discriminate.
Qed.
End unique.

#[export] Hint Resolve unique_length unique_sublist : reportgen.

(** [value_counts]: the counts of the distinct values add up to the number
    of values, for any boolean equivalence. *)
Section unique_counts.
Context {A : Type} (eqb : A -> A -> bool).
Hypothesis eqb_refl : forall x, eqb x x = true.
Hypothesis eqb_sym : forall x y, eqb x y = eqb y x.
Hypothesis eqb_trans : forall x y z, eqb x y = true -> eqb y z = true -> eqb x z = true.

Definition fresh (seen : list A) (y : A) : bool := negb (existsb (eqb y) seen).

Lemma unique_aux_fresh seen l u : In u (unique_aux eqb seen l) -> fresh seen u = true.
Proof.
  revert seen. induction l as [|x t IH]; intros seen; simpl; [done|].
  destruct (existsb (eqb x) seen) eqn:Ex; [apply IH|].
  intros [<-|Hu]; [unfold fresh; by rewrite Ex|].
  apply IH in Hu. unfold fresh in *. simpl in Hu. by apply negb_true_iff, orb_false_iff in Hu as [_ ->].
Qed.

Lemma length_filter_split (p q : A -> bool) (l : list A) :
  length (List.filter p l) =
  length (List.filter (fun y => p y && q y) l) + length (List.filter (fun y => p y && negb (q y)) l).
Proof.
  induction l as [|x t IH]; simpl; [done|].
  destruct (p x), (q x); simpl; lia.
Qed.

Lemma length_filter_ext (p q : A -> bool) (l : list A) :
  (forall y, In y l -> p y = q y) -> length (List.filter p l) = length (List.filter q l).
Proof.
  intros Hpq. induction l as [|x t IH]; simpl; [done|].
  rewrite <- (Hpq x (or_introl eq_refl)).
  destruct (p x); simpl; rewrite IH; auto; intros y Hy; apply Hpq; by right.
Qed.

Lemma sum_list_with_ext (f g : A -> nat) (l : list A) :
  (forall y, In y l -> f y = g y) -> sum_list_with f l = sum_list_with g l.
Proof.
  intros Hfg. induction l as [|x t IH]; simpl; [done|].
  rewrite (Hfg x (or_introl eq_refl)), IH; [done|]. intros y Hy. apply Hfg. by right.
Qed.

Lemma existsb_eqb_congr (seen : list A) x y :
  eqb x y = true -> existsb (eqb y) seen = existsb (eqb x) seen.
Proof.
  intros Hxy. apply eq_bool_prop_intro. rewrite !Is_true_true, !existsb_exists.
  split; intros (s & Hs & E); exists s; split; [done| |done|].
  - by apply (eqb_trans _ y).
  - rewrite eqb_sym in Hxy. by apply (eqb_trans _ x).
Qed.

Lemma count_not_fresh seen u x t :
  fresh seen u = true -> existsb (eqb x) seen = true ->
  length (List.filter (eqb u) (x :: t)) = length (List.filter (eqb u) t).
Proof.
  intros Hu Hx. simpl. destruct (eqb u x) eqn:Eux; [|done].
  exfalso. unfold fresh in Hu. rewrite <- (existsb_eqb_congr seen u x Eux) in Hu.
  by rewrite Hx in Hu.
Qed.

Lemma unique_aux_counts seen l :
  sum_list_with (fun u => length (List.filter (eqb u) l)) (unique_aux eqb seen l) =
  length (List.filter (fresh seen) l).
Proof.
  revert seen. induction l as [|x t IH]; intros seen; [done|].
  cbn [unique_aux]. destruct (existsb (eqb x) seen) eqn:Ex.
  - replace (length (List.filter (fresh seen) (x :: t))) with (length (List.filter (fresh seen) t))
      by (cbn [List.filter length]; unfold fresh; by rewrite Ex).
    rewrite <- IH. apply sum_list_with_ext. intros u Hu.
    apply (count_not_fresh seen); [by eapply unique_aux_fresh|done].
  - cbn [sum_list_with].
    assert (length (List.filter (eqb x) (x :: t)) = S (length (List.filter (eqb x) t))) as ->
      by (simpl; by rewrite eqb_refl).
    assert (length (List.filter (fresh seen) (x :: t)) = S (length (List.filter (fresh seen) t))) as ->
      by (cbn [List.filter length]; unfold fresh; by rewrite Ex).
    rewrite (sum_list_with_ext _ (fun u => length (List.filter (eqb u) t))).
    2:{ intros u Hu. apply unique_aux_fresh in Hu. unfold fresh in Hu. simpl in Hu.
        apply negb_true_iff, orb_false_iff in Hu as [Hux _]. simpl. by rewrite Hux. }
    rewrite IH, (length_filter_split (fresh seen) (eqb x) t).
    assert (length (List.filter (fun y => fresh seen y && eqb x y) t) = length (List.filter (eqb x) t)).
    { apply length_filter_ext. intros y _. destruct (eqb x y) eqn:Exy; [|by rewrite andb_false_r].
      unfold fresh. by rewrite (existsb_eqb_congr seen x y Exy), Ex. }
    assert (length (List.filter (fun y => fresh seen y && negb (eqb x y)) t) =
            length (List.filter (fresh (x :: seen)) t)).
    { apply length_filter_ext. intros y _. unfold fresh. simpl.
      rewrite (eqb_sym y x). by destruct (eqb x y), (existsb (eqb y) seen). }
    lia.
Qed.

Lemma unique_counts l :
  sum_list_with (fun u => length (List.filter (eqb u) l)) (unique eqb l) = length l.
Proof.
  unfold unique. rewrite unique_aux_counts.
  induction l as [|x t IH]; simpl; [done|]. by rewrite IH.
Qed.
End unique_counts.


(** ** Small arithmetic facts shared by the components *)

(** [u < sqrt n] on naturals, without the square root. *)
Definition lt_sqrt (u n : nat) : bool := u * u <? n.

Lemma lt_sqrt_spec u n : lt_sqrt u n = true <-> u * u < n.
Proof. unfold lt_sqrt. apply Nat.ltb_lt. Qed.

Lemma lt_sqrt_0 n : lt_sqrt 0 n = (0 <? n).
Proof. reflexivity. Qed.

Lemma Qle_bool_reflect (x y : Q) : reflect (x <= y)%Q (Qle_bool x y).
Proof. apply iff_reflect. symmetry. apply Qle_bool_iff. Qed.

Lemma Qeq_bool_reflect (x y : Q) : reflect (x == y)%Q (Qeq_bool x y).
Proof. apply iff_reflect. symmetry. apply Qeq_bool_iff. Qed.
