(* ===== verification/Cells.v ===== *)
(** * Cells: the Python and numpy scalars held in a DataFrame

    One [cell] is one value of a pandas column. This file gives the scalar
    functions that [src/reportgen/analysis.py] applies to values: [str()]
    (written ['%s'%x] in the source), [pandas.api.types.is_number], the
    [Iterable] test, the conversion [astype(np.int64)] with its int64
    wrap-around, pandas' equality of values (used by [unique] and
    [value_counts]) and the order in which [astype('category')] sorts its
    categories. The library functions the model does not re-implement
    ([float()], [str()] of a float, [pd.to_datetime] of one string) are the
    fields of the class [PyRuntime]; [decimal_runtime] is an executable
    instance for concrete runs. *)

From S2P Require Import Prelude.
From Stdlib Require Import DecimalString.
Close Scope Q_scope.

(** ** Scalars *)

Inductive cell :=
| CInt (z : Z)        (** a Python int or a numpy int64 *)
| CFloat (q : Q)      (** a finite Python float or numpy float64 *)
| CStr (s : string)   (** a Python str *)
| CTime (t : Z)       (** a pandas Timestamp (nanoseconds since the epoch) *)
| CNaN                (** float('nan'), and NaT in a datetime column *)
| CNone.              (** Python's None *)

(** [pd.isnull] / [notnull]: what [dropna] and [count] leave out. *)
Definition is_missing (c : cell) : bool :=
  match c with CNaN | CNone => true | _ => false end.

(** [pandas.api.types.is_number]: an instance of [numbers.Number] or
    [np.number]; a float NaN is one, None is not. *)
Definition is_number (c : cell) : bool :=
  match c with CInt _ | CFloat _ | CNaN => true | _ => false end.

(** [isinstance(x, Iterable)] for the values of an object column: only
    strings are. *)
Definition is_iterable (c : cell) : bool :=
  match c with CStr _ => true | _ => false end.

Definition num_value (c : cell) : option Q :=
  match c with
  | CInt z => Some (inject_Z z)
  | CFloat q => Some q
  | _ => None
  end.

(** ** Equality of values as pandas hashes them

    [1 == 1.0] in Python and the two hash alike, so [unique] keeps one of
    them: equality of values is a setoid coarser than [=] on [cell]. *)
Definition cell_eqb (a b : cell) : bool :=
  match a, b with
  | (CInt _ | CFloat _), (CInt _ | CFloat _) =>
      match num_value a, num_value b with
      | Some x, Some y => Qeq_bool x y
      | _, _ => false
      end
  | CStr s, CStr t => String.eqb s t
  | CTime s, CTime t => Z.eqb s t
  | CNaN, CNaN => true
  | CNone, CNone => true
  | _, _ => false
  end.

Definition cell_equiv (a b : cell) : Prop := cell_eqb a b = true.

#[export] Instance cell_equiv_dec : RelDecision cell_equiv.
Proof. intros a b. unfold cell_equiv. apply _. Defined.

#[export] Instance cell_equiv_equivalence : Equivalence cell_equiv.
Proof.
  unfold cell_equiv. split.
  - intros [z|q|s|t| |]; simpl; try done.
    + by apply Qeq_bool_iff.
    + by apply Qeq_bool_iff.
    + apply String.eqb_refl.
    + apply Z.eqb_refl.
  - intros [z|q|s|t| |] [z'|q'|s'|t'| |]; simpl; try done;
      rewrite ?Qeq_bool_iff, ?String.eqb_eq, ?Z.eqb_eq; intros; by symmetry.
  - intros [z|q|s|t| |] [z'|q'|s'|t'| |] [z''|q''|s''|t''| |]; simpl; try done;
      rewrite ?Qeq_bool_iff, ?String.eqb_eq, ?Z.eqb_eq; intros; by etrans.
Qed.

Lemma cell_eqb_refl (a : cell) : cell_eqb a a = true.
Proof. change (cell_equiv a a). reflexivity. Qed.

Lemma cell_eqb_sym (a b : cell) : cell_eqb a b = cell_eqb b a.
Proof.
  apply eq_bool_prop_intro. rewrite !Is_true_true.
  change (cell_equiv a b <-> cell_equiv b a). split; intros; by symmetry.
Qed.

Lemma cell_eqb_trans (a b c : cell) : cell_eqb a b = true -> cell_eqb b c = true -> cell_eqb a c = true.
Proof. change (cell_equiv a b -> cell_equiv b c -> cell_equiv a c). intros; by etrans. Qed.

#[export] Instance is_missing_proper : Proper (cell_equiv ==> eq) is_missing.
Proof. intros [] [] H; done. Qed.

#[export] Instance is_number_proper : Proper (cell_equiv ==> eq) is_number.
Proof. intros [] [] H; done. Qed.

(** ** Truncation and int64 *)

Definition int64_min : Z := (- 2 ^ 63)%Z.
Definition int64_max : Z := (2 ^ 63 - 1)%Z.

Definition in_int64 (z : Z) : bool := (int64_min <=? z)%Z && (z <=? int64_max)%Z.

(** Two's-complement wrap-around to 64 bits. *)
Definition wrap64 (z : Z) : Z := ((z + 2 ^ 63) mod 2 ^ 64 - 2 ^ 63)%Z.

(** Truncation toward zero, as [int(x)] and [astype(np.int64)] do. *)
Definition Qtrunc (q : Q) : Z := Z.quot (Qnum q) (Zpos (Qden q)).

(** [x.astype(np.int64)] on one non-missing number: truncate; a value out
    of the int64 range becomes INT64_MIN (numpy's result on x86-64). *)
Definition astype_int64 (c : cell) : cell :=
  match c with
  | CFloat q => CInt (let t := Qtrunc q in if in_int64 t then t else int64_min)
  | c => c
  end.

(** [.sum()] of an int64 array: the accumulation wraps at every step. *)
Definition sum_int64 (l : list Z) : Z := foldl (fun acc x => wrap64 (acc + x)) 0%Z l.

(** ** The order of [astype('category')]'s categories

    pandas sorts the distinct values; when they mix numbers and strings it
    puts the numbers first ([safe_sort]). Timestamps only occur alone. *)
Definition cell_rank (c : cell) : nat :=
  match c with
  | CInt _ | CFloat _ => 0
  | CStr _ => 1
  | CTime _ => 2
  | CNaN | CNone => 3
  end.

Definition cell_leb (a b : cell) : bool :=
  match a, b with
  | CStr s, CStr t => String.leb s t
  | CTime s, CTime t => Z.leb s t
  | _, _ =>
      match num_value a, num_value b with
      | Some x, Some y => Qle_bool x y
      | _, _ => cell_rank a <=? cell_rank b
      end
  end.

Fixpoint insert_cell (x : cell) (l : list cell) : list cell :=
  match l with
  | [] => [x]
  | y :: t => if cell_leb x y then x :: y :: t else y :: insert_cell x t
  end.

Fixpoint sort_cells (l : list cell) : list cell :=
  match l with
  | [] => []
  | x :: t => insert_cell x (sort_cells t)
  end.

(** ** Printing numbers and parsing digits *)

Definition string_of_Z (z : Z) : string :=
  match z with
  | Z0 => "0"
  | Zpos p => DecimalString.NilEmpty.string_of_uint (Pos.to_uint p)
  | Zneg p => "-" ++ DecimalString.NilEmpty.string_of_uint (Pos.to_uint p)
  end.

Definition is_digit (a : ascii) : bool :=
  let n := nat_of_ascii a in (48 <=? n) && (n <=? 57).

Definition digit_value (a : ascii) : Z := Z.of_nat (nat_of_ascii a - 48).

(** [int(s)] of a string of decimal digits. *)
Definition digits_value (s : string) : Z :=
  foldl (fun acc a => 10 * acc + digit_value a)%Z 0%Z (list_ascii_of_string s).

(** ** The library functions the model calls

    The classifier calls Python's [float()] on stripped strings, prints
    floats with [str()] and calls [pd.to_datetime]. These are fields of a
    class: each theorem holds for every implementation, and concrete runs
    use [decimal_runtime]. [float_parse s = None] is a [ValueError];
    [Some None] is a NaN result. [datetime_parse s = None] is a parse
    failure; [Some None] is NaT. *)
Class PyRuntime := {
  float_repr : Q -> string;
  time_repr : Z -> string;
  float_parse : string -> option (option Q);
  datetime_parse : string -> option (option Z)
}.

(** ['%s' % x]. *)
Definition py_str `{PyRuntime} (c : cell) : string :=
  match c with
  | CInt z => string_of_Z z
  | CFloat q => float_repr q
  | CStr s => s
  | CTime t => time_repr t
  | CNaN => "nan"
  | CNone => "None"
  end.

(** ** An executable runtime for concrete runs *)

Module DecimalRuntime.
Definition is_space (a : ascii) : bool :=
  let n := nat_of_ascii a in (n =? 32) || ((9 <=? n) && (n <=? 13)).

Fixpoint drop_spaces (l : list ascii) : list ascii :=
  match l with
  | a :: t => if is_space a then drop_spaces t else l
  | [] => []
  end.

Definition strip_spaces (l : list ascii) : list ascii :=
  rev (drop_spaces (rev (drop_spaces l))).

Definition pow10 (k : nat) : positive := Nat.iter k (Pos.mul 10) 1%positive.

(** Digits with at most one decimal point, at least one digit. *)
Fixpoint parse_unsigned (l : list ascii) (dot : bool) (n : Z) (k nd : nat) : option Q :=
  match l with
  | [] => if nd =? 0 then None else Some (n # pow10 k)%Q
  | a :: t =>
      if is_digit a then parse_unsigned t dot (10 * n + digit_value a)%Z (if dot then S k else k) (S nd)
      else if (nat_of_ascii a =? 46) && negb dot then parse_unsigned t true n k nd
      else None
  end.

Definition parse_float (s : string) : option (option Q) :=
  let l := strip_spaces (list_ascii_of_string s) in
  if String.eqb (string_of_list_ascii l) "nan" then Some None
  else match l with
       | "-"%char :: t => q ← parse_unsigned t false 0 0 0; Some (Some (- q)%Q)
       | "+"%char :: t => q ← parse_unsigned t false 0 0 0; Some (Some q)
       | _ => q ← parse_unsigned l false 0 0 0; Some (Some q)
       end.

(** Up to 17 fractional digits of [num / den], with [0 <= num < den]. *)
Fixpoint frac_digits (fuel : nat) (num : Z) (den : positive) : string :=
  match fuel with
  | O => ""
  | S f =>
      if (num =? 0)%Z then ""
      else let m := (10 * num)%Z in
           string_of_Z (m / Zpos den) ++ frac_digits f (m mod Zpos den) (den)
  end.

Definition repr_float (q : Q) : string :=
  let n := Qnum q in let d := Qden q in
  let sgn := if (n <? 0)%Z then "-" else "" in
  let a := Z.abs n in
  let ip := (a / Zpos d)%Z in
  let r := (a mod Zpos d)%Z in
  sgn ++ string_of_Z ip ++ "." ++
    (if (r =? 0)%Z then "0" else frac_digits 17 r d).

(** Days from 1970-01-01 to a proleptic Gregorian date. *)
Definition days_from_civil (y m d : Z) : Z :=
  let y := if (m <=? 2)%Z then (y - 1)%Z else y in
  let era := (y / 400)%Z in
  let yoe := (y - era * 400)%Z in
  let mp := if (m >? 2)%Z then (m - 3)%Z else (m + 9)%Z in
  let doy := ((153 * mp + 2) / 5 + d - 1)%Z in
  let doe := (yoe * 365 + yoe / 4 - yoe / 100 + doy)%Z in
  (era * 146097 + doe - 719468)%Z.

Definition digits_of (l : list ascii) : option Z :=
  if forallb is_digit l && negb (length l =? 0) then Some (digits_value (string_of_list_ascii l))
  else None.

(** ["YYYY-MM-DD"]; ["nan"] and ["NaT"] are NaT. *)
Definition parse_date (s : string) : option (option Z) :=
  if String.eqb s "nan" || String.eqb s "NaT" then Some None
  else match list_ascii_of_string s with
       | [y1; y2; y3; y4; "-"%char; m1; m2; "-"%char; d1; d2] =>
           y ← digits_of [y1; y2; y3; y4];
           m ← digits_of [m1; m2];
           d ← digits_of [d1; d2];
           if (1 <=? m)%Z && (m <=? 12)%Z && (1 <=? d)%Z && (d <=? 31)%Z
           then Some (Some (days_from_civil y m d * 86400 * 10 ^ 9)%Z)
           else None
       | _ => None
       end.
End DecimalRuntime.

#[export] Instance decimal_runtime : PyRuntime := {|
  float_repr := DecimalRuntime.repr_float;
  time_repr := string_of_Z;
  float_parse := DecimalRuntime.parse_float;
  datetime_parse := DecimalRuntime.parse_date
|}.

(** ** Lemmas on int64 and truncation *)

Lemma wrap64_range (z : Z) : (int64_min <= wrap64 z <= int64_max)%Z.
Proof.
  unfold wrap64, int64_min, int64_max.
  pose proof (Z.mod_pos_bound (z + 2 ^ 63) (2 ^ 64) ltac:(lia)). lia.
Qed.

Lemma wrap64_id (z : Z) : (int64_min <= z <= int64_max)%Z -> wrap64 z = z.
Proof.
  unfold wrap64, int64_min, int64_max. intros Hz.
  rewrite Z.mod_small by lia. lia.
Qed.

Lemma wrap64_add_l (a x : Z) : wrap64 (wrap64 a + x) = wrap64 (a + x).
Proof.
  unfold wrap64. f_equal.
  replace ((a + 2 ^ 63) mod 2 ^ 64 - 2 ^ 63 + x + 2 ^ 63)%Z with ((a + 2 ^ 63) mod 2 ^ 64 + x)%Z by lia.
  rewrite Z.add_mod_idemp_l by lia. f_equal. lia.
Qed.

(** Wrapping at every step of the accumulation is wrapping the exact sum. *)
Lemma foldl_wrap64 (a : Z) (l : list Z) :
  foldl (fun acc x => wrap64 (acc + x)) (wrap64 a) l = wrap64 (a + sumZ l).
Proof.
  revert a. induction l as [|x l IH]; intros a; simpl.
  - f_equal. lia.
  - rewrite wrap64_add_l, IH. f_equal. unfold sumZ. simpl. lia.
Qed.

Lemma sum_int64_wrap (l : list Z) : sum_int64 l = wrap64 (sumZ l).
Proof.
  unfold sum_int64. replace 0%Z with (wrap64 0) at 1 by reflexivity.
  by rewrite foldl_wrap64.
Qed.

Lemma Qtrunc_nonneg (q : Q) : (0 <= q)%Q -> (0 <= Qtrunc q)%Z /\ (inject_Z (Qtrunc q) <= q)%Q.
Proof.
  destruct q as [n d]. unfold Qtrunc, Qle, inject_Z. simpl. intros Hn.
  rewrite Z.mul_1_r in Hn. rewrite Z.quot_div_nonneg by lia.
  split; [apply Z.div_pos; lia|]. rewrite Z.mul_1_r.
  rewrite Z.mul_comm. apply Z.mul_div_le. lia.
Qed.

Lemma Qtrunc_lt (q : Q) (b : Z) : (0 <= q)%Q -> (q < inject_Z b)%Q -> (Qtrunc q < b)%Z.
Proof.
  intros H0 Hb. destruct (Qtrunc_nonneg q H0) as [_ Hle].
  assert (inject_Z (Qtrunc q) < inject_Z b)%Q as Hlt by (eapply Qle_lt_trans; eauto).
  by rewrite <- Zlt_Qlt in Hlt.
Qed.
