(* ===== verification/Frame.v ===== *)
(** * Frame: pandas columns and DataFrames, and the operations the
    classifier applies to them

    A column is its dtype and its cells; a DataFrame is the ordered list of
    its columns. The operations are those [dtype_detection] calls on
    [data[c]]: [count], [dropna], [unique], [value_counts], [astype],
    [.str.contains('%')], [.str.strip('%')], [pd.to_datetime], and the
    [max]/[std] of the per-value string lengths. Assignment [data[c] = x]
    replaces the column in the DataFrame, which is the state the
    classifier threads. *)

From S2P Require Import Prelude Cells.
Close Scope Q_scope.

(** ** Columns and DataFrames *)

(** The storage kinds the classifier distinguishes. A categorical dtype
    carries its categories and its [ordered] flag; [DOther] is any dtype
    that is neither numeric, string-like nor datetime-like (complex,
    period, interval, ...). *)
Inductive dtype :=
| DInt64
| DFloat64
| DObject
| DDatetime
| DCategory (categories : list cell) (ordered : bool)
| DOther (name : string).

(** [is_numeric_dtype], [is_string_dtype], [is_datetime64_any_dtype],
    [is_categorical_dtype] (pandas 1.x: a categorical is not a string
    dtype). *)
Definition is_numeric_dtype (d : dtype) : bool :=
  match d with DInt64 | DFloat64 => true | _ => false end.
Definition is_string_dtype (d : dtype) : bool :=
  match d with DObject => true | _ => false end.
Definition is_datetime_dtype (d : dtype) : bool :=
  match d with DDatetime => true | _ => false end.
Definition is_categorical_dtype (d : dtype) : bool :=
  match d with DCategory _ _ => true | _ => false end.

Record column := mkColumn {
  col_name : string;
  col_dtype : dtype;
  col_cells : list cell
}.

Definition table := list column.

Definition col_names (t : table) : list string := map col_name t.

(** [data[c]]: the column named [c]; pandas raises [KeyError] when there
    is none. *)
Definition lookup_col (t : table) (c : string) : option column :=
  List.find (fun col => String.eqb (col_name col) c) t.

(** [data[c] = x] for an existing column [c]: the column is replaced in
    place, the order of the columns is kept. *)
Fixpoint set_col (t : table) (c : string) (x : column) : table :=
  match t with
  | [] => []
  | col :: rest =>
      if String.eqb (col_name col) c then x :: rest else col :: set_col rest c x
  end.

(** The column with new cells and dtype, its name kept. *)
Definition with_data (col : column) (d : dtype) (cells : list cell) : column :=
  mkColumn (col_name col) d cells.

(** ** Counting *)

Definition dropna (cells : list cell) : list cell := List.filter (fun x => negb (is_missing x)) cells.

(** [Series.count()]: the number of non-missing values. *)
Definition count (cells : list cell) : nat := length (dropna cells).

(** [Series.dropna().unique()]. *)
Definition unique_values (cells : list cell) : list cell := unique cell_eqb (dropna cells).

Definition nunique (cells : list cell) : nat := length (unique_values cells).

(** [Series.value_counts()]: each distinct non-missing value with the
    number of values equal to it. *)
Definition value_counts (cells : list cell) : list (cell * nat) :=
  map (fun u => (u, length (List.filter (cell_eqb u) (dropna cells)))) (unique_values cells).

(** [value_counts().mean() >= 2]; the mean of an empty Series is NaN and
    the comparison is false. *)
Definition value_counts_mean_ge2 (cells : list cell) : bool :=
  match value_counts cells with
  | [] => false
  | vc => Qle_bool 2 (inject_Z (Z.of_nat (sum_list_with snd vc)) / inject_Z (Z.of_nat (length vc)))
  end.

(** [astype('category')]: the categories are the sorted distinct values,
    the categorical is unordered; the values stay. *)
Definition astype_category (col : column) : column :=
  with_data col (DCategory (sort_cells (unique_values (col_cells col))) false) (col_cells col).

(** ** String lengths: [tmp] in the source

    [tmp = data[c].map(lambda x: nan if '%s'%x == 'nan' else len('%s'%x))]
    followed by [tmp.dropna()]: a value that prints as ["nan"] (a float
    NaN, but also the string "nan") has no length; None prints as
    ["None"] and has one. *)
Definition str_lengths `{PyRuntime} (cells : list cell) : list nat :=
  omap (fun x => let s := py_str x in
                 if String.eqb s "nan" then None else Some (String.length s)) cells.

Definition sumN (l : list nat) : Z := Z.of_nat (sum_list_with id l).
Definition sum_sqN (l : list nat) : Z := Z.of_nat (sum_list_with (fun x => x * x) l).

(** [n * (n - 1) * var] for the sample variance (ddof = 1) of [l]:
    [n * sum x^2 - (sum x)^2]. *)
Definition var_num (l : list nat) : Z :=
  (Z.of_nat (length l) * sum_sqN l - sumN l * sumN l)%Z.

(** [tmp.std() < 0.1]: the sample standard deviation is NaN below two
    values, so the test is false there; otherwise it is [var < 1/100]. *)
Definition std_lt_tenth (l : list nat) : bool :=
  let n := Z.of_nat (length l) in
  (2 <=? n)%Z && (100 * var_num l <? n * (n - 1))%Z.

(** [tmp.std() == 0], false on fewer than two values (NaN). *)
Definition std_is_zero (l : list nat) : bool :=
  (2 <=? length l) && (var_num l =? 0)%Z.

(** [7 < tmp.max() < 20]; the max of an empty Series is NaN. *)
Definition max_between (lo hi : nat) (l : list nat) : bool :=
  match l with
  | [] => false
  | x :: t => let m := foldr Nat.max x t in (lo <? m) && (m <? hi)
  end.

(** ** The [.str] accessor *)

(** pandas only allows [.str] on an object column whose non-missing values
    are empty or include a string; otherwise it raises [AttributeError]. *)
Definition str_accessor_ok (cells : list cell) : bool :=
  forallb is_missing cells || existsb is_iterable cells.

(** [all(data[c].str.contains('%'))]: a non-string gives NaN, which is
    truthy for Python's [all]. *)
Definition all_contain_pct (cells : list cell) : bool :=
  forallb (fun x => match x with
                    | CStr s => bool_decide ("%"%char ∈ list_ascii_of_string s)
                    | _ => true
                    end) cells.

Fixpoint drop_pct (l : list ascii) : list ascii :=
  match l with
  | a :: t => if Ascii.eqb a "%" then drop_pct t else l
  | [] => []
  end.

(** [str.strip('%')]: remove leading and trailing percent signs. *)
Definition strip_pct (s : string) : string :=
  string_of_list_ascii (rev (drop_pct (rev (drop_pct (list_ascii_of_string s))))).

(** [data[c].str.strip('%').astype(np.float64)/100] on every cell: a string
    is stripped and parsed ([ValueError] if [float()] rejects it), any other
    value becomes NaN. *)
Definition percent_cell `{PyRuntime} (x : cell) : option cell :=
  match x with
  | CStr s =>
      match float_parse (strip_pct s) with
      | None => None
      | Some None => Some CNaN
      | Some (Some q) => Some (CFloat (q / 100)%Q)
      end
  | _ => Some CNaN
  end.

Definition percent_cells `{PyRuntime} (cells : list cell) : outcome (list cell) :=
  match mapM percent_cell cells with
  | Some l => Ret l
  | None => Exc ValueError
  end.

(** ** [pd.to_datetime] of an object column *)

(** A missing value becomes NaT; a string goes through the parser; the
    numbers never reach this call (the source tests [is_number] first) and
    are read as nanoseconds. The whole call fails if one value fails. *)
Definition datetime_cell `{PyRuntime} (x : cell) : option cell :=
  match x with
  | CStr s =>
      match datetime_parse s with
      | None => None
      | Some None => Some CNaN
      | Some (Some t) => Some (CTime t)
      end
  | CInt z => Some (CTime z)
  | CFloat q => Some (CTime (Qtrunc q))
  | CTime t => Some (CTime t)
  | CNaN | CNone => Some CNaN
  end.

Definition to_datetime `{PyRuntime} (cells : list cell) : option (list cell) :=
  mapM datetime_cell cells.

(** ** Lemmas *)

Lemma lookup_col_name (t : table) (c : string) (col : column) :
  lookup_col t c = Some col -> col_name col = c.
Proof.
  unfold lookup_col. intros H. apply find_some in H as [_ H].
  by apply String.eqb_eq.
Qed.

Lemma set_col_names (t : table) (c : string) (x : column) :
  col_name x = c -> col_names (set_col t c x) = col_names t.
Proof.
  intros Hx. induction t as [|col t IH]; simpl; [done|].
  destruct (String.eqb_spec (col_name col) c); simpl; congruence.
Qed.

Lemma lookup_set_col_ne (t : table) (c c' : string) (x : column) :
  col_name x = c -> c' <> c -> lookup_col (set_col t c x) c' = lookup_col t c'.
Proof.
  intros Hx Hne. unfold lookup_col. induction t as [|col t IH]; simpl; [done|].
  destruct (String.eqb_spec (col_name col) c) as [Hc|Hc]; simpl.
  - rewrite Hx, Hc. destruct (String.eqb_spec c c'); [congruence|done].
  - by rewrite IH.
Qed.

Lemma lookup_set_col_eq (t : table) (c : string) (x col : column) :
  lookup_col t c = Some col -> col_name x = c -> lookup_col (set_col t c x) c = Some x.
Proof.
  intros Hl Hx. unfold lookup_col in *. induction t as [|col' t IH]; simpl in *; [done|].
  destruct (String.eqb_spec (col_name col') c); simpl.
  - rewrite Hx, String.eqb_refl. done.
  - rewrite (proj2 (String.eqb_neq _ _) n). by apply IH.
Qed.

Lemma set_col_lookup_id (t : table) (c : string) (col : column) :
  lookup_col t c = Some col -> set_col t c col = t.
Proof.
  unfold lookup_col. induction t as [|col' t IH]; simpl; [done|].
  destruct (String.eqb_spec (col_name col') c); simpl.
  - by intros [= ->].
  - intros H. by rewrite IH.
Qed.

Lemma set_col_set_col (t : table) (c : string) (x y : column) :
  col_name x = c -> set_col (set_col t c x) c y = set_col t c y.
Proof.
  intros Hx. induction t as [|col t IH]; simpl; [done|].
  destruct (String.eqb_spec (col_name col) c); simpl.
  - by rewrite Hx, String.eqb_refl.
  - destruct (String.eqb_spec (col_name col) c); [done|]. by rewrite IH.
Qed.

#[export] Hint Resolve lookup_col_name set_col_names : reportgen.

(** *** The sample variance of the lengths *)

(** [sum (x - y)^2] over [l]. *)
Definition sq_dev (y : nat) (l : list nat) : Z :=
  foldr (fun x acc => ((Z.of_nat x - Z.of_nat y) ^ 2 + acc)%Z) 0%Z l.

Definition all_equal (l : list nat) : bool :=
  match l with [] => true | x :: t => forallb (Nat.eqb x) t end.

Lemma sq_dev_closed (y : nat) (l : list nat) :
  sq_dev y l = (sum_sqN l - 2 * Z.of_nat y * sumN l + Z.of_nat (length l) * Z.of_nat y ^ 2)%Z.
Proof.
  unfold sumN, sum_sqN. induction l as [|x l IH]; simpl; [lia|].
  rewrite IH, !Nat2Z.inj_add, Nat2Z.inj_mul, Nat2Z.inj_succ. unfold id. ring.
Qed.

(** Adding a value adds its squared deviations to the others. *)
Lemma var_num_cons (y : nat) (l : list nat) : var_num (y :: l) = (var_num l + sq_dev y l)%Z.
Proof.
  rewrite sq_dev_closed. unfold var_num, sumN, sum_sqN. simpl.
  rewrite !Nat2Z.inj_add, Nat2Z.inj_mul, Nat2Z.inj_succ. unfold id. ring.
Qed.

Lemma Z_sq_ge1 (d : Z) : d <> 0%Z -> (1 <= d ^ 2)%Z.
Proof. intros Hd. assert (d < 0 \/ 0 < d)%Z as [|] by lia; nia. Qed.

Lemma sq_dev_lower (y : nat) (l : list nat) :
  (Z.of_nat (length (List.filter (fun x => negb (Nat.eqb x y)) l)) <= sq_dev y l)%Z.
Proof.
  induction l as [|x l IH]; [simpl; lia|].
  change (sq_dev y (x :: l)) with ((Z.of_nat x - Z.of_nat y) ^ 2 + sq_dev y l)%Z.
  cbn [List.filter]. destruct (Nat.eqb x y) eqn:E; cbn [negb length].
  - apply Nat.eqb_eq in E as ->. rewrite Z.sub_diag. lia.
  - apply Nat.eqb_neq in E.
    assert (1 <= (Z.of_nat x - Z.of_nat y) ^ 2)%Z by (apply Z_sq_ge1; lia). lia.
Qed.

Lemma sq_dev_nonneg (y : nat) (l : list nat) : (0 <= sq_dev y l)%Z.
Proof. pose proof (sq_dev_lower y l). lia. Qed.

Lemma var_num_nonneg (l : list nat) : (0 <= var_num l)%Z.
Proof.
  induction l as [|y l IH]; [unfold var_num, sumN, sum_sqN; simpl; lia|].
  rewrite var_num_cons. pose proof (sq_dev_nonneg y l). lia.
Qed.

Lemma sq_dev_repeat (a n : nat) : sq_dev a (repeat a n) = 0%Z.
Proof.
  induction n as [|n IH]; [done|].
  change (sq_dev a (repeat a (S n))) with ((Z.of_nat a - Z.of_nat a) ^ 2 + sq_dev a (repeat a n))%Z.
  rewrite IH, Z.sub_diag. done.
Qed.

Lemma var_num_repeat (a n : nat) : var_num (repeat a n) = 0%Z.
Proof.
  induction n as [|n IH]; [done|].
  cbn [repeat]. by rewrite var_num_cons, IH, sq_dev_repeat.
Qed.

Lemma var_num_const (a : nat) (l : list nat) : Forall (eq a) l -> var_num l = 0%Z.
Proof. intros Hl. rewrite (Forall_eq_repeat Hl). apply var_num_repeat. Qed.

Lemma all_equal_Forall (y : nat) (l : list nat) : Forall (eq y) l -> all_equal l = true.
Proof.
  destruct 1 as [|x l <- Hl]; [done|]. simpl. apply forallb_forall.
  intros z Hz. apply Nat.eqb_eq. by eapply List.Forall_forall in Hl.
Qed.

Lemma all_equal_false_witness (y : nat) (l : list nat) :
  all_equal l = false -> exists x, In x l /\ x <> y.
Proof.
  intros Hl. destruct (decide (Forall (eq y) l)) as [Hf|Hf].
  - by rewrite (all_equal_Forall y l Hf) in Hl.
  - apply not_Forall_Exists in Hf; [|apply _].
    apply List.Exists_exists in Hf as (x & Hx & Hne). eauto.
Qed.

Lemma length_filter_neq_pos (y : nat) (l : list nat) :
  (exists x, In x l /\ x <> y) -> 1 <= length (List.filter (fun x => negb (Nat.eqb x y)) l).
Proof.
  intros (x & Hx & Hne). destruct (List.filter _ l) eqn:E; simpl; [|lia].
  assert (In x (List.filter (fun x => negb (Nat.eqb x y)) l)) as Hin.
  { apply filter_In. split; [done|]. by apply negb_true_iff, Nat.eqb_neq. }
  by rewrite E in Hin.
Qed.

Lemma length_filter_neq_all (y : nat) (l : list nat) :
  Forall (fun x => x <> y) l -> length (List.filter (fun x => negb (Nat.eqb x y)) l) = length l.
Proof.
  induction 1 as [|x l Hx _ IH]; [done|]. simpl.
  apply Nat.eqb_neq in Hx. rewrite Hx. simpl. by rewrite IH.
Qed.

(** Lengths that are not all equal have [n * (n - 1) * var >= n - 1]. *)
Lemma var_num_lower (l : list nat) :
  all_equal l = false -> (Z.of_nat (length l) - 1 <= var_num l)%Z.
Proof.
  induction l as [|y l IH]; [discriminate|]. intros Hyl.
  rewrite var_num_cons. pose proof (sq_dev_lower y l) as Hdev.
  destruct (all_equal l) eqn:El.
  - destruct l as [|a t]; [discriminate|].
    assert (Forall (eq a) (a :: t)) as Ha.
    { constructor; [done|]. apply List.Forall_forall. intros z Hz.
      simpl in El. eapply forallb_forall in El; [|exact Hz]. by apply Nat.eqb_eq in El. }
    rewrite (var_num_const a _ Ha).
    destruct (all_equal_false_witness y _ Hyl) as (x & Hx & Hxy).
    destruct Hx as [->|Hx]; [done|].
    assert (Forall (fun z => z <> y) (a :: t)) as Hall.
    { apply List.Forall_forall. intros z Hz Hzy. subst z.
      pose proof (proj1 (List.Forall_forall _ _) Ha x Hx).
      pose proof (proj1 (List.Forall_forall _ _) Ha y Hz). congruence. }
    rewrite length_filter_neq_all in Hdev by done. simpl in *. lia.
  - specialize (IH eq_refl).
    pose proof (length_filter_neq_pos y l (all_equal_false_witness y l El)).
    simpl length. lia.
Qed.

Lemma var_num_zero_iff (l : list nat) : var_num l = 0%Z <-> all_equal l = true.
Proof.
  split.
  - intros H0. destruct (all_equal l) eqn:E; [done|].
    pose proof (var_num_lower l E). destruct l as [|y [|z l]]; simpl in *; try done; lia.
  - destruct l as [|y l]; [done|]. intros Hy. apply (var_num_const y).
    constructor; [done|]. apply List.Forall_forall. intros z Hz.
    eapply forallb_forall in Hy; [|exact Hz]. by apply Nat.eqb_eq in Hy.
Qed.

(** ** Theorems *)

(** C21. The timestamp probe's test [tmp.std() < 0.1] on at most 100
    integer lengths holds exactly when there are at least two lengths and
    all are equal ([tmp.std() == 0]): below 101 values the threshold 0.1
    means "constant length". *)
Theorem std_lt_tenth_small (l : list nat) :
  length l <= 100 -> std_lt_tenth l = std_is_zero l.
Proof.
  intros Hn. unfold std_lt_tenth, std_is_zero.
  destruct (Nat.leb_spec 2 (length l)) as [H2|H2].
  2:{ replace (2 <=? Z.of_nat (length l))%Z with false by (symmetry; apply Z.leb_gt; lia). done. }
  replace (2 <=? Z.of_nat (length l))%Z with true by (symmetry; apply Z.leb_le; lia). simpl.
  destruct (all_equal l) eqn:E.
  - apply var_num_zero_iff in E as ->. simpl.
    apply Z.ltb_lt. nia.
  - pose proof (var_num_lower l E).
    assert (var_num l <> 0%Z) as Hz by (rewrite var_num_zero_iff; congruence).
    apply Z.eqb_neq in Hz as ->. apply Z.ltb_ge. nia.
Qed.

Lemma std_lt_tenth_small_witness :
  length [10; 10; 11] <= 100 /\ std_lt_tenth [10; 10; 11] = std_is_zero [10; 10; 11].
Proof. split; [simpl; lia | apply std_lt_tenth_small; simpl; lia]. Defined.

(** From 101 values on, [std < 0.1] no longer means constant length:
    one 9-character value among one hundred 8-character values passes the
    test. *)
Theorem std_lt_tenth_101_not_constant :
  std_lt_tenth (9 :: repeat 8 100) = true /\ all_equal (9 :: repeat 8 100) = false.
Proof. split; vm_compute; reflexivity. Qed.

(** *** [value_counts] *)

Lemma sum_list_with_snd_map {A B} (f : A -> B * nat) (l : list A) :
  sum_list_with snd (map f l) = sum_list_with (fun a => snd (f a)) l.
Proof. induction l as [|a l IH]; simpl; [done|]. by rewrite IH. Qed.

(** The counts of [value_counts] add up to [count]. *)
Lemma value_counts_total (cells : list cell) :
  sum_list_with snd (value_counts cells) = count cells.
Proof.
  unfold value_counts, unique_values, count. rewrite sum_list_with_snd_map. simpl.
  apply unique_counts; [apply cell_eqb_refl|apply cell_eqb_sym|apply cell_eqb_trans].
Qed.

Lemma Qle_bool_2_div (a : Z) (p : positive) :
  Qle_bool 2 (inject_Z a / inject_Z (Zpos p)) = (2 * Zpos p <=? a)%Z.
Proof.
  unfold Qle_bool, Qdiv, Qmult, Qinv, inject_Z. simpl.
  by rewrite Pos.mul_1_l, !Z.mul_1_r.
Qed.

(** [value_counts().mean() >= 2] is [count >= 2 * nunique] on a column
    with at least one value. *)
Lemma value_counts_mean_ge2_spec (cells : list cell) :
  value_counts_mean_ge2 cells = (0 <? nunique cells) && (2 * nunique cells <=? count cells).
Proof.
  unfold value_counts_mean_ge2. rewrite <- value_counts_total.
  assert (length (value_counts cells) = nunique cells) as Hlen by (apply length_map).
  destruct (value_counts cells) as [|vc vcs] eqn:E.
  - simpl in Hlen. by rewrite <- Hlen.
  - rewrite <- Hlen. cbn [length].
    change (Z.of_nat (S (length vcs))) with (Zpos (Pos.of_succ_nat (length vcs))).
    rewrite Qle_bool_2_div, Zpos_P_of_succ_nat.
    rewrite andb_true_l. apply Bool.eq_iff_eq_true. rewrite Z.leb_le, Nat.leb_le. lia.
Qed.

(** *** Columns in a DataFrame split as [pre ++ rest] *)

Lemma lookup_col_app_notin (pre rest : table) (c : string) :
  c ∉ col_names pre -> lookup_col (pre ++ rest) c = lookup_col rest c.
Proof.
  unfold lookup_col. induction pre as [|col pre IH]; intros Hc; [done|]. simpl.
  destruct (String.eqb_spec (col_name col) c) as [<-|]; [destruct Hc; by left|].
  apply IH. intros Hin. apply Hc. by right.
Qed.

Lemma set_col_app_notin (pre rest : table) (c : string) (x : column) :
  c ∉ col_names pre -> set_col (pre ++ rest) c x = pre ++ set_col rest c x.
Proof.
  induction pre as [|col pre IH]; intros Hc; [done|]. simpl.
  destruct (String.eqb_spec (col_name col) c) as [<-|]; [destruct Hc; by left|].
  rewrite IH; [done|]. intros Hin. apply Hc. by right.
Qed.

Lemma lookup_col_head (col : column) (rest : table) : lookup_col (col :: rest) (col_name col) = Some col.
Proof. unfold lookup_col. simpl. by rewrite String.eqb_refl. Qed.

Lemma set_col_head (col x : column) (rest : table) : set_col (col :: rest) (col_name col) x = x :: rest.
Proof. simpl. by rewrite String.eqb_refl. Qed.
