(* ===== verification/Classifier.v ===== *)
(** * Classifier: [dtype_detection] (analysis.py, lines 97-210)

    The classifier reads the column [c] of the DataFrame, rewrites its
    storage as it goes and returns the record {name, vtype, ordered,
    categories}. Its branches are definitions of their own:
    - [detect_number]: the numeric branch (lines 138-150): integral floats
      are rewritten to int64, then a low-cardinality column becomes a
      categorical;
    - the string branch (lines 151-202), in the order of the source:
      [try_to_datetime] (the timestamp probe, lines 152-159),
      [collapse_category] (lines 164-169), [convert_percent] (lines
      172-173, which can raise), and [final_detection] (lines 175-201,
      whose structured-text probe can raise);
    - the datetime branch and the unknown-dtype branch (lines 203-208).
    [dtype_detection] composes them in the monad [PyM table]: every
    assignment [data[c] = ...] of the source is a write to the DataFrame,
    so what was written before an exception stays written.
    [classify_column] is the same classifier as a function of one column;
    the refinement theorem shows that [dtype_detection] is
    [classify_column] written back into the DataFrame, and the other
    theorems are stated on whichever of the two reads better. *)

From S2P Require Import Prelude Cells Frame.
Close Scope Q_scope.
Local Open Scope reportgen_scope.

(** ** Results *)

Inductive vtype :=
| VNumber
| VCategory
| VDatetime
| VText
| VTextSt
| VGroupNumber.

#[export] Instance vtype_eq_dec : EqDecision vtype.
Proof. solve_decision. Defined.

(** The dict [{'name', 'vtype', 'ordered', 'categories'}] the classifier
    returns. *)
Record detection := mkDetection {
  det_name : string;
  det_vtype : vtype;
  det_ordered : bool;
  det_categories : list cell
}.

Section classifier.
Context `{PyRuntime}.

(** ** The numeric branch *)

(** [data[c].dropna().astype(np.int64).sum() == data[c].dropna().sum()]:
    the int64 sum (wrapping) of the truncated values against the exact
    sum of the values. *)
Definition int64_value (x : cell) : Z :=
  match astype_int64 x with CInt z => z | _ => 0%Z end.

Definition sum_values (cells : list cell) : Q :=
  foldr (fun x acc => (default 0 (num_value x) + acc)%Q) 0%Q cells.

Definition int_check (cells : list cell) : bool :=
  Qeq_bool (inject_Z (sum_int64 (map int64_value (dropna cells)))) (sum_values (dropna cells)).

(** [data.loc[data[c].notnull(), c] = ....astype(np.int64)]. *)
Definition repair_ints (cells : list cell) : list cell :=
  map (fun x => if is_missing x then x else astype_int64 x) cells.

(** The categories and the ordered flag of a categorical dtype. *)
Definition cat_info (d : dtype) : list cell * bool :=
  match d with DCategory cats o => (cats, o) | _ => ([], false) end.

Definition detect_number (category_detection : bool) (col : column) : column * detection :=
  let n_sample := count (col_cells col) in
  let col1 :=
    if int_check (col_cells col)
    then with_data col (col_dtype col) (repair_ints (col_cells col))
    else col in
  if category_detection
     && lt_sqrt (nunique (col_cells col1)) n_sample
     && value_counts_mean_ge2 (col_cells col1)
  then let col2 := astype_category col1 in
       let '(cats, o) := cat_info (col_dtype col2) in
       (col2, mkDetection (col_name col) VCategory o cats)
  else (col1, mkDetection (col_name col) VNumber false []).

(** ** The string branch *)

(** The timestamp probe: no value is a number, the longest printed value
    has 8 to 19 characters and the lengths have [std < 0.1]; then
    [pd.to_datetime] is tried and a failure is swallowed. *)
Definition datetime_probe (tmp : list nat) (cells : list cell) : bool :=
  negb (existsb is_number (dropna cells)) && max_between 7 20 tmp && std_lt_tenth tmp.

Definition try_to_datetime (tmp : list nat) (col : column) : column :=
  if datetime_probe tmp (col_cells col) then
    match to_datetime (col_cells col) with
    | Some l => with_data col DDatetime l
    | None => col
    end
  else col.

Definition collapse_category (datetime_to_category : bool) (n_sample : nat) (col : column) : column :=
  if (datetime_to_category || negb (is_datetime_dtype (col_dtype col)))
     && lt_sqrt (nunique (col_cells col)) n_sample
  then astype_category col
  else col.

(** Percent strings to fractions, on a non-categorical string column
    whose strings all contain ['%']. *)
Definition convert_percent (col : column) : outcome column :=
  if is_string_dtype (col_dtype col) && negb (is_categorical_dtype (col_dtype col)) then
    if str_accessor_ok (col_cells col) then
      if all_contain_pct (col_cells col) then
        match percent_cells (col_cells col) with
        | Ret l => Ret (with_data col DFloat64 l)
        | Exc e => Exc e
        end
      else Ret col
    else Exc AttributeError
  else Ret col.

Definition chars (s : string) : gset ascii := list_to_set (list_ascii_of_string s).

(** [k &= set(x)] over every non-empty string of the column. *)
Definition common_step (k : gset ascii) (x : cell) : gset ascii :=
  match x with
  | CStr s => if (0 <? String.length s) then k ∩ chars s else k
  | _ => k
  end.

Definition common_chars (k : gset ascii) (cells : list cell) : gset ascii :=
  foldl common_step k cells.

(** The structured-text probe: [data[c].dropna().iloc[0]] raises
    [IndexError] on a column without values. *)
Definition structured_text (cells : list cell) : outcome vtype :=
  match dropna cells with
  | [] => Exc IndexError
  | x :: _ =>
      match x with
      | CStr s => Ret (if decide (common_chars (chars s) cells = ∅) then VText else VTextSt)
      | _ => Ret VText
      end
  end.

Definition final_detection (StructureText_detection : bool) (tmp : list nat) (col : column)
  : outcome detection :=
  let name := col_name col in
  match col_dtype col with
  | DCategory cats o => Ret (mkDetection name VCategory o cats)
  | DDatetime => Ret (mkDetection name VDatetime false [])
  | d =>
      if StructureText_detection && std_is_zero tmp then
        match structured_text (col_cells col) with
        | Ret v => Ret (mkDetection name v false [])
        | Exc e => Exc e
        end
      else if is_numeric_dtype d then Ret (mkDetection name VNumber false [])
      else Ret (mkDetection name VText false [])
  end.

(** ** The whole classifier on the shared DataFrame *)

(** [data[c] = x]. *)
Definition update_col (c : string) (x : column) : PyM table unit :=
  t ← py_get; py_put (set_col t c x).

(** [data[c]], raising [KeyError] for a missing column. *)
Definition read_col (c : string) : PyM table column :=
  t ← py_get;
  match lookup_col t c with
  | Some col => mret col
  | None => raise KeyError
  end.

Definition detect_string (c : string) (StructureText_detection datetime_to_category : bool)
    (col : column) : PyM table (option detection) :=
  let n_sample := count (col_cells col) in
  let tmp := str_lengths (col_cells col) in
  update_col c (try_to_datetime tmp col);;
  col1 ← read_col c;
  update_col c (collapse_category datetime_to_category n_sample col1);;
  col2 ← read_col c;
  col3 ← py_lift (convert_percent col2);
  update_col c col3;;
  r ← py_lift (final_detection StructureText_detection tmp col3);
  mret (Some r).

Definition dtype_detection (c : string)
    (category_detection StructureText_detection datetime_to_category : bool)
    : PyM table (option detection) :=
  col ← read_col c;
  let d := col_dtype col in
  if is_numeric_dtype d then
    let '(col', r) := detect_number category_detection col in
    update_col c col';; mret (Some r)
  else if is_string_dtype d then
    detect_string c StructureText_detection datetime_to_category col
  else if is_datetime_dtype d then
    mret (Some (mkDetection (col_name col) VDatetime false []))
  else mret None.
End classifier.

(** ** The classifier as a function of one column

    [classify_column] is the column-level reading of [dtype_detection]: the
    result and the column as it is left. The refinement theorem below shows
    that the stateful classifier is this function written back into the
    DataFrame. *)
Section column_level.
Context `{PyRuntime}.

Definition classify_column (category_detection StructureText_detection datetime_to_category : bool)
    (col : column) : outcome (option detection) * column :=
  let d := col_dtype col in
  if is_numeric_dtype d then
    let '(col', r) := detect_number category_detection col in (Ret (Some r), col')
  else if is_string_dtype d then
    let n_sample := count (col_cells col) in
    let tmp := str_lengths (col_cells col) in
    let col2 := collapse_category datetime_to_category n_sample (try_to_datetime tmp col) in
    match convert_percent col2 with
    | Exc e => (Exc e, col2)
    | Ret col3 =>
        (match final_detection StructureText_detection tmp col3 with
         | Ret r => Ret (Some r)
         | Exc e => Exc e
         end, col3)
    end
  else if is_datetime_dtype d then
    (Ret (Some (mkDetection (col_name col) VDatetime false [])), col)
  else (Ret None, col).

(** Every step keeps the column's name. *)
Lemma detect_number_name b col : col_name (fst (detect_number b col)) = col_name col.
Proof.
  unfold detect_number. destruct (int_check _), (b && _ && _); simpl; try done;
    by destruct (cat_info _).
Qed.

Lemma try_to_datetime_name tmp col : col_name (try_to_datetime tmp col) = col_name col.
Proof. unfold try_to_datetime. by repeat case_match. Qed.

Lemma collapse_category_name b n col : col_name (collapse_category b n col) = col_name col.
Proof. unfold collapse_category. by case_match. Qed.

Lemma convert_percent_name col col' : convert_percent col = Ret col' -> col_name col' = col_name col.
Proof. unfold convert_percent. intros. repeat case_match; simplify_eq; done. Qed.

Lemma classify_column_name b1 b2 b3 col :
  col_name (snd (classify_column b1 b2 b3 col)) = col_name col.
Proof.
  unfold classify_column.
  destruct (is_numeric_dtype _); [destruct (detect_number b1 col) as [c' r] eqn:E; simpl;
    rewrite <- (detect_number_name b1 col), E; done|].
  destruct (is_string_dtype _); [|by repeat case_match].
  destruct (convert_percent _) eqn:E; simpl.
  - rewrite (convert_percent_name _ _ E). by rewrite collapse_category_name, try_to_datetime_name.
  - by rewrite collapse_category_name, try_to_datetime_name.
Qed.
(** The classifier raises only in the string branch: [AttributeError] or
    [ValueError] in the percent conversion, [IndexError] in the
    structured-text probe. *)
Definition classifier_exc (e : pyexc) : Prop := e = ValueError \/ e = AttributeError \/ e = IndexError.

Lemma convert_percent_exc col e : convert_percent col = Exc e -> classifier_exc e.
Proof.
  unfold convert_percent, percent_cells, classifier_exc. repeat case_match; intros; simplify_eq; auto.
Qed.

Lemma structured_text_exc cells e : structured_text cells = Exc e -> classifier_exc e.
Proof. unfold structured_text, classifier_exc. repeat case_match; intros; simplify_eq; auto. Qed.

Lemma classify_column_exc b1 b2 b3 col e : fst (classify_column b1 b2 b3 col) = Exc e -> classifier_exc e.
Proof.
  unfold classify_column. repeat case_match; cbn; intros; simplify_eq; eauto using convert_percent_exc.
  revert select (final_detection _ _ _ = Exc _). unfold final_detection.
  repeat case_match; intros; simplify_eq; eauto using structured_text_exc.
Qed.

End column_level.

#[export] Hint Resolve detect_number_name try_to_datetime_name collapse_category_name
  classify_column_name : reportgen.

(** ** The classifier on the DataFrame *)
Section refinement.
Context `{PyRuntime}.

Lemma update_col_run c x (t : table) : update_col c x t = (Ret tt, set_col t c x).
Proof. reflexivity. Qed.

Lemma read_col_run c (t : table) col : lookup_col t c = Some col -> read_col c t = (Ret col, t).
Proof. intros Hl. unfold read_col. rewrite py_bind_run. cbn [py_get]. by rewrite Hl. Qed.

Lemma read_col_missing c (t : table) : lookup_col t c = None -> read_col c t = (Exc KeyError, t).
Proof. intros Hl. unfold read_col. rewrite py_bind_run. cbn [py_get]. by rewrite Hl. Qed.

Lemma read_after_update c x col (t : table) :
  lookup_col t c = Some col -> col_name x = c ->
  read_col c (set_col t c x) = (Ret x, set_col t c x).
Proof. intros. apply read_col_run. by eapply lookup_set_col_eq. Qed.

(** On a DataFrame that has the column [c], the run of the classifier
    is the column-level classifier written back in place. *)
Lemma dtype_detection_eq c b1 b2 b3 (t : table) col :
  lookup_col t c = Some col ->
  dtype_detection c b1 b2 b3 t =
    (fst (classify_column b1 b2 b3 col), set_col t c (snd (classify_column b1 b2 b3 col))).
Proof.
  intros Hl. pose proof (lookup_col_name _ _ _ Hl) as Hn.
  unfold dtype_detection. rewrite py_bind_run, (read_col_run _ _ _ Hl).
  unfold classify_column.
  destruct (is_numeric_dtype _) eqn:Enum.
  { destruct (detect_number b1 col) as [c' r] eqn:E. cbn.
    pose proof (detect_number_name b1 col) as Hn'. rewrite E in Hn'. simpl in Hn'. done. }
  destruct (is_string_dtype _) eqn:Estr.
  - unfold detect_string. set (tmp := str_lengths (col_cells col)).
    set (col1 := try_to_datetime tmp col).
    assert (col_name col1 = c) by (subst col1; rewrite try_to_datetime_name; done).
    rewrite py_bind_run, update_col_run, py_bind_run, (read_after_update _ _ col) by done.
    set (col2 := collapse_category b3 _ col1).
    assert (col_name col2 = c) by (subst col2; rewrite collapse_category_name; done).
    rewrite py_bind_run, update_col_run, set_col_set_col by done.
    rewrite py_bind_run, (read_after_update _ _ col) by done.
    cbn [py_lift]. rewrite py_bind_run.
    destruct (convert_percent col2) as [col3|e] eqn:Ep; [|done].
    pose proof (convert_percent_name _ _ Ep) as Hn3. cbn [py_lift].
    rewrite py_bind_run, update_col_run, set_col_set_col by congruence.
    cbn [py_lift]. rewrite py_bind_run.
    by destruct (final_detection b2 tmp col3).
  - destruct (is_datetime_dtype _); simpl; by rewrite (set_col_lookup_id _ _ _ Hl).
Qed.

Lemma dtype_detection_missing c b1 b2 b3 (t : table) :
  lookup_col t c = None -> dtype_detection c b1 b2 b3 t = (Exc KeyError, t).
Proof. intros Hl. unfold dtype_detection. by rewrite py_bind_run, (read_col_missing _ _ Hl). Qed.

(** C1. Refinement: [dtype_detection] is the column-level classifier
    [classify_column] written back into the DataFrame. On a DataFrame
    that has the column [c], it returns what [classify_column] returns
    on that column and leaves the DataFrame with that column replaced
    by [classify_column]'s output, in place, nothing else changed; this
    holds on every branch, the raising ones included (the writes made
    before an exception stay). Without the column it raises [KeyError]
    and changes nothing. *)
Theorem dtype_detection_refines c b1 b2 b3 (t : table) :
  dtype_detection c b1 b2 b3 t =
    match lookup_col t c with
    | Some col => (fst (classify_column b1 b2 b3 col), set_col t c (snd (classify_column b1 b2 b3 col)))
    | None => (Exc KeyError, t)
    end.
Proof.
  destruct (lookup_col t c) as [col|] eqn:Hl;
    [by apply dtype_detection_eq|by apply dtype_detection_missing].
Qed.
End refinement.

(** ** The integral-float repair *)
Section repair.
Context `{PyRuntime}.

Definition nonneg_num (x : cell) : Prop := exists q, num_value x = Some q /\ (0 <= q)%Q.

Definition value_of (x : cell) : Q := default 0%Q (num_value x).

Lemma int64_value_bound x q :
  num_value x = Some q -> (0 <= q)%Q -> (q < inject_Z (2 ^ 63))%Q ->
  (0 <= int64_value x)%Z /\ (inject_Z (int64_value x) <= q)%Q /\
  ((inject_Z (int64_value x) == q)%Q -> cell_equiv (astype_int64 x) x).
Proof.
  intros Hx H0 Hlt. destruct x as [z|q'| | | |]; simplify_eq/=.
  - unfold int64_value. simpl. split; [rewrite Zle_Qle; exact H0|]. split; [apply Qle_refl|].
    intros _. reflexivity.
  - pose proof (Qtrunc_nonneg q H0) as [Ht0 Htq].
    pose proof (Qtrunc_lt q _ H0 Hlt).
    assert (in_int64 (Qtrunc q) = true) as Hin.
    { unfold in_int64, int64_min, int64_max. apply andb_true_iff; split; apply Z.leb_le; lia. }
    unfold int64_value, astype_int64. cbv zeta. rewrite Hin. split; [exact Ht0|]. split; [exact Htq|].
    intros Heq. unfold cell_equiv. simpl. by apply Qeq_bool_iff.
Qed.

Lemma sum_values_cons x l : (sum_values (x :: l) == value_of x + sum_values l)%Q.
Proof. reflexivity. Qed.

Lemma sum_values_nonneg l : Forall nonneg_num l -> (0 <= sum_values l)%Q.
Proof.
  induction 1 as [|x l (q & Hq & H0) _ IH]; [apply Qle_refl|].
  rewrite sum_values_cons. unfold value_of. rewrite Hq. simpl. lra.
Qed.

(** Below 2^63, a sum of truncations of non-negative values that equals
    the sum of the values truncated nothing. *)
Lemma trunc_sum_exact l :
  Forall nonneg_num l -> (sum_values l < inject_Z (2 ^ 63))%Q ->
  (0 <= sumZ (map int64_value l))%Z /\
  (inject_Z (sumZ (map int64_value l)) <= sum_values l)%Q /\
  ((inject_Z (sumZ (map int64_value l)) == sum_values l)%Q ->
     Forall (fun x => cell_equiv (astype_int64 x) x) l).
Proof.
  induction 1 as [|x l (q & Hq & H0) Hl IH]; intros Hlt.
  { simpl. split; [lia|]. split; [apply Qle_refl|]. constructor. }
  rewrite sum_values_cons in Hlt |- *. unfold value_of in *. rewrite Hq in Hlt |- *. simpl in Hlt |- *.
  pose proof (sum_values_nonneg l Hl) as Hl0.
  destruct IH as (IH0 & IHle & IHeq); [lra|].
  destruct (int64_value_bound x q Hq H0 ltac:(lra)) as (Ht0 & Htle & Hteq).
  change (sumZ (int64_value x :: map int64_value l)) with (int64_value x + sumZ (map int64_value l))%Z.
  rewrite inject_Z_plus. split; [lia|]. split; [lra|].
  intros Heq. constructor; [apply Hteq; lra|]. apply IHeq. lra.
Qed.

Lemma dropna_nonneg cells :
  Forall (fun x => is_missing x = true \/ nonneg_num x) cells -> Forall nonneg_num (dropna cells).
Proof.
  induction 1 as [|x l Hx _ IH]; simpl; [constructor|].
  destruct (is_missing x) eqn:E; simpl; [done|]. constructor; [|done].
  destruct Hx as [Hx|Hx]; [congruence|done].
Qed.

Lemma repair_ints_equiv cells :
  Forall (fun x => is_missing x = false -> cell_equiv (astype_int64 x) x) cells ->
  Forall2 cell_equiv (repair_ints cells) cells.
Proof.
  induction 1 as [|x l Hx _ IH]; simpl; constructor; [|done].
  destruct (is_missing x) eqn:E; [reflexivity|by apply Hx].
Qed.

Lemma Forall_dropna (P : cell -> Prop) cells :
  Forall P (dropna cells) -> Forall (fun x => is_missing x = false -> P x) cells.
Proof.
  induction cells as [|x l IH]; simpl; [constructor|].
  destruct (is_missing x) eqn:E; simpl; intros Hf.
  - constructor; [congruence|by apply IH].
  - inversion Hf; subst. constructor; [done|by apply IH].
Qed.
End repair.

(** ** Theorems of the classifier *)
Section classifier_theorems.
Context `{PyRuntime}.

(** C13. Frame property: classifying column [c] keeps the DataFrame's
    columns and their order, and leaves every other column as it was,
    whatever the outcome (a result, [None] or an exception). *)
Theorem dtype_detection_frame c b1 b2 b3 (t : table) :
  col_names (snd (dtype_detection c b1 b2 b3 t)) = col_names t /\
  forall c', c' <> c -> lookup_col (snd (dtype_detection c b1 b2 b3 t)) c' = lookup_col t c'.
Proof.
  destruct (lookup_col t c) as [col|] eqn:Hl.
  - rewrite (dtype_detection_eq _ _ _ _ _ _ Hl). simpl.
    pose proof (lookup_col_name _ _ _ Hl) as Hn.
    assert (col_name (snd (classify_column b1 b2 b3 col)) = c) by (rewrite classify_column_name; done).
    split; [by apply set_col_names|]. intros c' Hc'. by apply lookup_set_col_ne.
  - by rewrite (dtype_detection_missing _ _ _ _ _ Hl).
Qed.

Lemma int_check_exact cells :
  Forall nonneg_num (dropna cells) -> int_check cells = true ->
  Forall (fun x => cell_equiv (astype_int64 x) x) (dropna cells).
Proof.
  intros Hnn Hc. unfold int_check in Hc. apply Qeq_bool_iff in Hc.
  rewrite sum_int64_wrap in Hc.
  set (S := sumZ (map int64_value (dropna cells))) in *.
  pose proof (wrap64_range S) as [Hlo Hhi].
  assert (sum_values (dropna cells) < inject_Z (2 ^ 63))%Q as Hlt.
  { rewrite <- Hc. rewrite <- Zlt_Qlt. unfold int64_max in Hhi. lia. }
  destruct (trunc_sum_exact _ Hnn Hlt) as (HS0 & HSle & HSeq).
  apply HSeq. rewrite <- Hc. rewrite wrap64_id; [reflexivity|].
  rewrite <- Hc in HSle. rewrite <- Zle_Qle in HSle. unfold int64_min in *. lia.
Qed.

(** C8. The integral-float repair is safe on non-negative data: on a
    numeric column whose values are all non-negative, the numeric branch
    changes no value (each cell it leaves is equal, as pandas compares
    values, to the cell that was there), whether or not it rewrites the
    column to int64 and whether or not it makes it a categorical. *)
Theorem detect_number_nonneg_preserves b col :
  Forall (fun x => is_missing x = true \/ nonneg_num x) (col_cells col) ->
  Forall2 cell_equiv (col_cells (fst (detect_number b col))) (col_cells col).
Proof.
  intros Hnn.
  assert (Forall2 cell_equiv
            (if int_check (col_cells col) then repair_ints (col_cells col) else col_cells col)
            (col_cells col)) as Hrep.
  { destruct (int_check (col_cells col)) eqn:Hc.
    - apply repair_ints_equiv, Forall_dropna, int_check_exact; [|done]. by apply dropna_nonneg.
    - apply Forall2_same_length_lookup_2; [done|]. intros i x y Hx Hy. rewrite Hx in Hy.
      simplify_eq. reflexivity. }
  unfold detect_number. destruct (int_check _) eqn:Hc;
    (destruct (b && _ && _); [destruct (cat_info _)|]); exact Hrep.
Qed.
End classifier_theorems.

Section classifier_theorems2.
Context `{PyRuntime}.

Lemma is_missing_astype_int64 x : is_missing (astype_int64 x) = is_missing x.
Proof. by destruct x. Qed.

Lemma dropna_repair_ints cells : dropna (repair_ints cells) = map astype_int64 (dropna cells).
Proof.
  induction cells as [|x l IH]; simpl; [done|].
  destruct (is_missing x) eqn:E; simpl; rewrite ?E; [done|].
  rewrite is_missing_astype_int64, E. simpl. by rewrite IH.
Qed.

Lemma count_repair_ints cells : count (repair_ints cells) = count cells.
Proof. unfold count. by rewrite dropna_repair_ints, length_map. Qed.

(** The cells of the numeric branch's first step. *)
Definition repaired (cells : list cell) : list cell :=
  if int_check cells then repair_ints cells else cells.

(** C7. The numeric branch on every input: after the repair, the column
    becomes a categorical exactly when category detection is on, the
    number [u] of distinct values satisfies [u < sqrt n] for the [n]
    non-missing values, and [n >= 2u] (the mean of [value_counts] is at
    least 2); its categories are then the distinct values in sorted
    order and the categorical is unordered. Otherwise it is a number. *)
Theorem detect_number_spec b col :
  let cells1 := repaired (col_cells col) in
  let u := nunique cells1 in
  let n := count (col_cells col) in
  snd (detect_number b col) =
    if b && lt_sqrt u n && (0 <? u) && (2 * u <=? n)
    then mkDetection (col_name col) VCategory false (sort_cells (unique_values cells1))
    else mkDetection (col_name col) VNumber false [].
Proof.
  unfold detect_number, repaired. simpl.
  rewrite value_counts_mean_ge2_spec, <- andb_assoc.
  destruct (int_check _); simpl; [rewrite count_repair_ints|];
    rewrite ?andb_assoc; by destruct (b && _ && _ && _).
Qed.

(** After [percent_cells], no value is a string. *)
Lemma percent_cells_no_str cells l :
  percent_cells cells = Ret l -> Forall (fun x => is_iterable x = false) l.
Proof.
  unfold percent_cells. destruct (mapM percent_cell cells) as [l'|] eqn:E; [|done].
  intros [= <-]. apply mapM_Some in E.
  induction E as [|x y xs ys Hxy _ IH]; constructor; [|done].
  destruct x; simpl in Hxy; repeat case_match; by simplify_eq.
Qed.

Lemma structured_text_no_str cells x rest :
  dropna cells = x :: rest -> is_iterable x = false -> structured_text cells = Ret VText.
Proof. intros Hd Hx. unfold structured_text. rewrite Hd. by destruct x. Qed.

(** C15. A converted percent column is classified by its printed widths:
    once [convert_percent] has rewritten a string column to floats (and
    the column keeps a value), the final step returns [text] when
    structured-text detection is on and the original strings all had the
    same length, and [number] otherwise. A column of equal-width
    percentages such as ["21.12%"; "35.50%"; "10.00%"] thus ends as
    [text]. *)
Theorem percent_column_vtype b2 tmp col col' :
  col_dtype col = DObject -> convert_percent col = Ret col' -> col_dtype col' = DFloat64 ->
  dropna (col_cells col') <> [] ->
  final_detection b2 tmp col' =
    Ret (mkDetection (col_name col') (if b2 && std_is_zero tmp then VText else VNumber) false []).
Proof.
  intros Hd Hc Hd' Hne. unfold final_detection. rewrite Hd'.
  unfold convert_percent in Hc. rewrite Hd in Hc. simpl in Hc.
  destruct (str_accessor_ok (col_cells col)); [|discriminate].
  destruct (all_contain_pct (col_cells col)).
  2:{ injection Hc as <-. by rewrite Hd in Hd'. }
  destruct (percent_cells (col_cells col)) as [l|e] eqn:Hp; [|discriminate].
  injection Hc as <-. simpl in *.
  pose proof (percent_cells_no_str _ _ Hp) as Hns.
  destruct (b2 && std_is_zero tmp); [|done].
  destruct (dropna l) as [|x rest] eqn:Hdl; [done|].
  assert (In x l) as Hx.
  { apply (filter_In (fun x => negb (is_missing x))). unfold dropna in Hdl. rewrite Hdl. by left. }
  rewrite (structured_text_no_str _ x rest Hdl); [done|].
  by eapply List.Forall_forall in Hns.
Qed.

Lemma mapM_None_exists {A B} (f : A -> option B) (l : list A) :
  (exists x, In x l /\ f x = None) -> mapM f l = None.
Proof.
  intros (x & Hx & Hf). induction l as [|y l IH]; [done|]. simpl.
  destruct Hx as [->|Hx]; [by rewrite Hf|].
  destruct (f y); simpl; [|done]. by rewrite IH.
Qed.

(** C16. The percent conversion is not guarded: on a non-categorical
    string column whose strings all contain ['%'], one string that
    [float()] rejects once its percent signs are stripped (["50% off"])
    makes the classifier raise [ValueError]. *)
Theorem convert_percent_value_error col s :
  col_dtype col = DObject -> str_accessor_ok (col_cells col) = true ->
  all_contain_pct (col_cells col) = true ->
  In (CStr s) (col_cells col) -> float_parse (strip_pct s) = None ->
  convert_percent col = Exc ValueError.
Proof.
  intros Hd Hok Hall Hin Hp. unfold convert_percent. rewrite Hd, Hok, Hall. simpl.
  unfold percent_cells. rewrite mapM_None_exists; [done|].
  exists (CStr s). split; [done|]. simpl. by rewrite Hp.
Qed.
End classifier_theorems2.

Section classifier_theorems3.
Context `{PyRuntime}.

Lemma common_chars_spec (k : gset ascii) cells a :
  a ∈ common_chars k cells <->
  a ∈ k /\ forall s, In (CStr s) cells -> 0 < String.length s -> a ∈ chars s.
Proof.
  revert k. induction cells as [|x t IH]; intros k.
  { split; [intros Ha; split; [exact Ha|]; intros ? []|intros [Ha _]; exact Ha]. }
  change (common_chars k (x :: t)) with (common_chars (common_step k x) t). rewrite IH.
  destruct x as [| |s| | |]; cbn [common_step];
    try (split; [intros [Hk Hs]; split; [done|]; intros s' [Heq|Hin]; [discriminate|by apply Hs]
                |intros [Hk Hs]; split; [done|]; intros s' Hin; apply Hs; by right]).
  destruct (Nat.ltb_spec 0 (String.length s)) as [Hlen|Hlen].
  - rewrite elem_of_intersection. split.
    + intros [[Hk Hc] Hs]. split; [done|]. intros s' [[= <-]|Hin]; [done|by apply Hs].
    + intros [Hk Hs]. split; [split; [done|apply Hs; [by left|done]]|].
      intros s' Hin. apply Hs. by right.
  - split.
    + intros [Hk Hs]. split; [done|]. intros s' [[= <-]|Hin] Hl; [lia|by apply Hs].
    + intros [Hk Hs]. split; [done|]. intros s' Hin. apply Hs. by right.
Qed.

(** C14. The structured-text probe: when the column's first value is
    the string [s], the column is structured text ([text_st]) exactly
    when some character of [s] occurs in every non-empty string of the
    column, and free text otherwise. *)
Theorem structured_text_spec cells s rest :
  dropna cells = CStr s :: rest ->
  (structured_text cells = Ret VTextSt <->
   exists a, a ∈ list_ascii_of_string s /\
     forall s', In (CStr s') cells -> 0 < String.length s' -> a ∈ list_ascii_of_string s').
Proof.
  intros Hd. unfold structured_text. rewrite Hd.
  setoid_rewrite <- (elem_of_list_to_set (C := gset ascii)). fold (chars s).
  split.
  - case_decide as Hempty; [done|]. intros _.
    apply set_choose_L in Hempty as [a Ha]. apply common_chars_spec in Ha as [Ha Hs].
    exists a. split; [done|]. intros s' ? ?. by apply Hs.
  - intros (a & Ha & Hs). case_decide as Hempty; [|done]. exfalso.
    assert (a ∈ common_chars (chars s) cells) as Hin by (apply common_chars_spec; split; [done|exact Hs]).
    rewrite Hempty in Hin. set_solver.
Qed.

Lemma classify_column_category b1 b2 b3 col r :
  fst (classify_column b1 b2 b3 col) = Ret (Some r) -> det_vtype r = VCategory ->
  is_categorical_dtype (col_dtype (snd (classify_column b1 b2 b3 col))) = true.
Proof.
  unfold classify_column, detect_number, final_detection, structured_text.
  repeat case_match; simpl; intros; simplify_eq/=; try done.
  match goal with Hd : col_dtype _ = DCategory _ _ |- _ => by rewrite Hd end.
Qed.

(** C17. Classification is not idempotent on the columns it makes
    categorical: if classifying [c] returns a [category] result, then
    classifying [c] again on the DataFrame it left returns [None] and
    changes nothing, because pandas' [is_string_dtype] and
    [is_numeric_dtype] are false on a categorical (pandas 1.x). *)
Theorem dtype_detection_category_rerun c b1 b2 b3 b1' b2' b3' (t t' : table) r :
  dtype_detection c b1 b2 b3 t = (Ret (Some r), t') -> det_vtype r = VCategory ->
  dtype_detection c b1' b2' b3' t' = (Ret None, t').
Proof.
  intros Hrun Hv. destruct (lookup_col t c) as [col|] eqn:Hl;
    [|by rewrite dtype_detection_missing in Hrun].
  rewrite (dtype_detection_eq _ _ _ _ _ _ Hl) in Hrun. injection Hrun as Hr <-.
  pose proof (classify_column_category _ _ _ _ _ Hr Hv) as Hcat.
  assert (col_name (snd (classify_column b1 b2 b3 col)) = c) as Hn
    by (rewrite classify_column_name; by eapply lookup_col_name).
  rewrite (dtype_detection_eq _ _ _ _ _ _ (lookup_set_col_eq _ _ _ _ Hl Hn)).
  rewrite set_col_set_col by done.
  destruct (col_dtype (snd (classify_column b1 b2 b3 col))) eqn:Ed; try discriminate.
  unfold classify_column at 1 3. rewrite Ed. done.
Qed.

(** A column whose storage kind is neither numeric, string nor
    datetime gives [None] and leaves the DataFrame as it was: the
    classifier skips it without raising. *)
Theorem dtype_detection_unknown c b1 b2 b3 (t : table) col :
  lookup_col t c = Some col ->
  is_numeric_dtype (col_dtype col) = false -> is_string_dtype (col_dtype col) = false ->
  is_datetime_dtype (col_dtype col) = false ->
  dtype_detection c b1 b2 b3 t = (Ret None, t).
Proof.
  intros Hl Hn Hs Hd. rewrite (dtype_detection_eq _ _ _ _ _ _ Hl).
  unfold classify_column. rewrite Hn, Hs, Hd. simpl. by rewrite (set_col_lookup_id _ _ _ Hl).
Qed.
End classifier_theorems3.

(** ** Concrete runs *)

Definition float_col (name : string) (l : list Q) : column := mkColumn name DFloat64 (map CFloat l).
Definition str_col (name : string) (l : list string) : column := mkColumn name DObject (map CStr l).

(** The classifier with its defaults ([category_detection],
    [StructureText_detection] and [datetime_to_category] all true). *)
Definition run_default (col : column) : outcome (option detection) * table :=
  dtype_detection (col_name col) true true true [col].

Definition det_of (o : outcome (option detection)) : detection :=
  match o with Ret (Some r) => r | _ => mkDetection "" VText false [] end.

Definition pct_col : column := str_col "rate" ["21.12%"; "35.50%"; "10.00%"].
Definition pct_col' : column :=
  match convert_percent pct_col with Ret c => c | Exc _ => pct_col end.

Definition cat_table : table :=
  [mkColumn "n" DInt64 (map (fun i => CInt (Z.of_nat (i mod 8))) (seq 0 100))].
Definition cat_run := dtype_detection "n" true true true cat_table.

Lemma detect_number_nonneg_preserves_witness :
  Forall (fun x => is_missing x = true \/ nonneg_num x) [CFloat 2; CNaN; CInt 3] /\
  Forall2 cell_equiv (col_cells (fst (detect_number true (mkColumn "x" DFloat64 [CFloat 2; CNaN; CInt 3]))))
    [CFloat 2; CNaN; CInt 3].
Proof.
  assert (Forall (fun x => is_missing x = true \/ nonneg_num x) [CFloat 2; CNaN; CInt 3]) as Hf.
  { constructor; [right; exists 2%Q; split; [reflexivity|unfold Qle; simpl; lia]|].
    constructor; [left; reflexivity|].
    constructor; [right; exists (inject_Z 3); split; [reflexivity|unfold Qle; simpl; lia]|].
    constructor. }
  split; [exact Hf|]. apply (detect_number_nonneg_preserves true (mkColumn "x" DFloat64 _) Hf).
Defined.

Lemma percent_column_vtype_witness :
  col_dtype pct_col = DObject /\ convert_percent pct_col = Ret pct_col' /\
  col_dtype pct_col' = DFloat64 /\ dropna (col_cells pct_col') <> [] /\
  final_detection true (str_lengths (col_cells pct_col)) pct_col' =
    Ret (mkDetection (col_name pct_col')
           (if true && std_is_zero (str_lengths (col_cells pct_col)) then VText else VNumber) false []).
Proof.
  split; [reflexivity|]. split; [vm_compute; reflexivity|]. split; [vm_compute; reflexivity|].
  split; [vm_compute; discriminate|].
  apply (percent_column_vtype true _ pct_col pct_col'); [reflexivity|vm_compute; reflexivity|
    vm_compute; reflexivity|vm_compute; discriminate].
Defined.

Lemma convert_percent_value_error_witness :
  col_dtype (str_col "d" ["50% off"; "20% off"]) = DObject /\
  str_accessor_ok (col_cells (str_col "d" ["50% off"; "20% off"])) = true /\
  all_contain_pct (col_cells (str_col "d" ["50% off"; "20% off"])) = true /\
  In (CStr "50% off") (col_cells (str_col "d" ["50% off"; "20% off"])) /\
  float_parse (strip_pct "50% off") = None /\
  convert_percent (str_col "d" ["50% off"; "20% off"]) = Exc ValueError.
Proof.
  do 5 (split; [vm_compute; try reflexivity; by left|]).
  apply (convert_percent_value_error _ "50% off"); vm_compute; try reflexivity; by left.
Defined.

Lemma structured_text_spec_witness :
  dropna (map CStr ["A-01"; "B-02"; "C-03"]) = CStr "A-01" :: map CStr ["B-02"; "C-03"] /\
  (structured_text (map CStr ["A-01"; "B-02"; "C-03"]) = Ret VTextSt <->
   exists a, a ∈ list_ascii_of_string "A-01" /\
     forall s', In (CStr s') (map CStr ["A-01"; "B-02"; "C-03"]) -> 0 < String.length s' ->
                a ∈ list_ascii_of_string s').
Proof. split; [reflexivity|]. apply (structured_text_spec _ _ (map CStr ["B-02"; "C-03"])). reflexivity. Defined.

Lemma dtype_detection_category_rerun_witness :
  cat_run = (Ret (Some (det_of (fst cat_run))), snd cat_run) /\
  det_vtype (det_of (fst cat_run)) = VCategory /\
  dtype_detection "n" true true true (snd cat_run) = (Ret None, snd cat_run).
Proof.
  split; [vm_compute; reflexivity|]. split; [vm_compute; reflexivity|].
  apply (dtype_detection_category_rerun "n" true true true true true true cat_table (snd cat_run)
           (det_of (fst cat_run))); vm_compute; reflexivity.
Defined.

Lemma dtype_detection_unknown_witness :
  lookup_col [mkColumn "p" (DOther "period") [CInt 1]] "p" = Some (mkColumn "p" (DOther "period") [CInt 1]) /\
  dtype_detection "p" true true true [mkColumn "p" (DOther "period") [CInt 1]] =
    (Ret None, [mkColumn "p" (DOther "period") [CInt 1]]).
Proof. split; [reflexivity|]. by apply (dtype_detection_unknown _ _ _ _ _ (mkColumn "p" (DOther "period") [CInt 1])). Defined.

(** The integral-float test compares sums, not values: on a float column
    [1.5, -0.5] the truncations [1, 0] have the same sum, so the column is
    rewritten to [1, 0]. *)
Theorem int_repair_mixed_signs :
  run_default (float_col "x" [3 # 2; -1 # 2]%Q) =
    (Ret (Some (mkDetection "x" VNumber false [])), [mkColumn "x" DFloat64 [CInt 1; CInt 0]]).
Proof. vm_compute. reflexivity. Qed.

(** int64 overflow in the same test: 2^63 converts to INT64_MIN, the int64
    sum wraps to 2^63 - 1, which is the float sum, so [2^63, -1] is
    rewritten to [-2^63, -1]. *)
Theorem int_repair_int64_overflow :
  run_default (float_col "x" [inject_Z (2 ^ 63); -1]%Q) =
    (Ret (Some (mkDetection "x" VNumber false [])), [mkColumn "x" DFloat64 [CInt int64_min; CInt (-1)]]).
Proof. vm_compute. reflexivity. Qed.

(** Equal-width percentages are converted to fractions and then
    classified as text. *)
Theorem percent_equal_width_is_text :
  run_default pct_col = (Ret (Some (mkDetection "rate" VText false [])), [pct_col']).
Proof. vm_compute. reflexivity. Qed.

(** Percentages of different widths are classified as numbers. *)
Theorem percent_varied_width_is_number :
  det_vtype (det_of (fst (run_default (str_col "rate" ["5%"; "21.12%"; "100%"])))) = VNumber.
Proof. vm_compute. reflexivity. Qed.

(** 100 values with 8 distinct values: [8 < sqrt 100], so the column
    becomes a categorical with the sorted values as categories. *)
Theorem category_threshold_example :
  fst cat_run = Ret (Some (mkDetection "n" VCategory false (map (fun i => CInt (Z.of_nat i)) (seq 0 8)))).
Proof. vm_compute. reflexivity. Qed.

(** A column of three [None]s: the percent step turns it into a float
    column of NaN, then the structured-text probe reads the first value of
    an empty Series and raises [IndexError]; the rewrite stays. *)
Theorem none_column_index_error :
  run_default (mkColumn "o" DObject [CNone; CNone; CNone]) =
    (Exc IndexError, [mkColumn "o" DFloat64 [CNaN; CNaN; CNaN]]).
Proof. vm_compute. reflexivity. Qed.

(** The timestamp probe tests the Python type of the values, not whether
    they parse as numbers: a column of eight-digit strings passes it
    although every value parses with [float()]. *)
Theorem digit_strings_pass_probe :
  datetime_probe (str_lengths (map CStr ["20200101"; "20200102"])) (map CStr ["20200101"; "20200102"]) = true /\
  float_parse "20200101" = Some (Some 20200101%Q).
Proof. split; vm_compute; reflexivity. Qed.

(** [n_sample] is [data[c].count()], the non-missing values: with 100
    rows of which 50 are NaN and 8 distinct values, [8 < sqrt(100)] but
    not [8 < sqrt(50)], so the column stays a number. *)
Theorem category_threshold_counts_non_missing :
  det_vtype (snd (detect_number true
    (mkColumn "n" DFloat64 (map (fun i => if i <? 50 then CFloat (inject_Z (Z.of_nat (i mod 8))) else CNaN)
                                (seq 0 100))))) = VNumber /\
  length (seq 0 100) = 100 /\ (8 * 8 < 100)%nat.
Proof. split; [vm_compute; reflexivity|split; [reflexivity|lia]]. Qed.
