(* ===== verification/Pattern.v ===== *)
(** * Pattern: the name pattern [(.*?)(\d+)] of [var_detection]
    (analysis.py, lines 271 and 282-285)

    [re.findall(r'(.*?)(\d+)', name)[0]] is the first match of a lazy
    prefix followed by a greedy run of digits: [first_match] returns the
    prefix and the digits, [digits_value] reads the digits as [int(t[1])].
    The roundtrip theorem shows that a name built as a prefix without
    digits, a number printed in decimal and a tail that does not start
    with a digit is read back as that prefix and that number. *)

From S2P Require Import Prelude Cells.
From Stdlib Require DecimalPos.
Close Scope Q_scope.

(** ** The name pattern [(.*?)(\d+)] *)

Fixpoint take_digits (l : list ascii) : list ascii :=
  match l with
  | a :: t => if is_digit a then a :: take_digits t else []
  | [] => []
  end.

Definition is_newline (a : ascii) : bool := Nat.eqb (nat_of_ascii a) 10.

(** The match attempted at one start position: [.*?] grows one character
    at a time (it cannot cross a newline) until [\d+] matches, which then
    takes every following digit. *)
Fixpoint match_from (l : list ascii) (acc : list ascii) : option (list ascii * list ascii) :=
  match l with
  | [] => None
  | a :: t =>
      if is_digit a then Some (rev acc, take_digits l)
      else if is_newline a then None
      else match_from t (a :: acc)
  end.

(** [re.findall(pattern, name)[0]]: the first start position at which the
    pattern matches. *)
Fixpoint first_match_aux (l : list ascii) : option (list ascii * list ascii) :=
  match l with
  | [] => None
  | _ :: t =>
      match match_from l [] with
      | Some r => Some r
      | None => first_match_aux t
      end
  end.

Definition first_match (name : string) : option (string * string) :=
  match first_match_aux (list_ascii_of_string name) with
  | Some (p, d) => Some (string_of_list_ascii p, string_of_list_ascii d)
  | None => None
  end.

(** A prefix the lazy [.*?] crosses: no digit and no newline. *)
Definition plain_prefix (p : string) : bool :=
  forallb (fun a => negb (is_digit a) && negb (is_newline a)) (list_ascii_of_string p).

(** A tail that does not extend the digit run. *)
Definition digit_boundary (r : string) : bool :=
  match list_ascii_of_string r with
  | [] => true
  | a :: _ => negb (is_digit a)
  end.

(** ** Lemmas *)

Lemma list_ascii_of_string_app (s1 s2 : string) :
  list_ascii_of_string (s1 ++ s2) = list_ascii_of_string s1 ++ list_ascii_of_string s2.
Proof. induction s1 as [|a s1 IH]; simpl; [done|]. by rewrite IH. Qed.

Lemma match_from_prefix (p l acc : list ascii) :
  forallb (fun a => negb (is_digit a) && negb (is_newline a)) p = true ->
  match_from (p ++ l) acc = match_from l (rev p ++ acc).
Proof.
  revert acc. induction p as [|a p IH]; intros acc Hp; simpl in *; [done|].
  apply andb_true_iff in Hp as [Ha Hp]. apply andb_true_iff in Ha as [Hd Hn].
  apply negb_true_iff in Hd, Hn. rewrite Hd, Hn, IH by done. by rewrite <- app_assoc.
Qed.

Lemma take_digits_app (d r : list ascii) :
  forallb is_digit d = true ->
  match r with [] => true | a :: _ => negb (is_digit a) end = true ->
  take_digits (d ++ r) = d.
Proof.
  intros Hd Hr. induction d as [|a d IH]; simpl in *.
  - destruct r as [|a r]; [done|]. simpl. apply negb_true_iff in Hr. by rewrite Hr.
  - apply andb_true_iff in Hd as [Ha Hd]. by rewrite Ha, IH.
Qed.

(** The first match of [prefix ++ digits ++ tail]. *)
Lemma first_match_aux_split (p d r : list ascii) :
  forallb (fun a => negb (is_digit a) && negb (is_newline a)) p = true ->
  d <> [] -> forallb is_digit d = true ->
  match r with [] => true | a :: _ => negb (is_digit a) end = true ->
  first_match_aux (p ++ d ++ r) = Some (p, d).
Proof.
  intros Hp Hne Hd Hr.
  destruct (p ++ d ++ r) as [|a l] eqn:E; [by destruct p, d|].
  cbn [first_match_aux]. rewrite <- E, match_from_prefix by done.
  destruct d as [|b d]; [done|]. pose proof Hd as Hd'. simpl in Hd'. apply andb_true_iff in Hd' as [Hb _].
  cbn [app match_from]. rewrite Hb, app_nil_r, rev_involutive.
  change (b :: d ++ r) with ((b :: d) ++ r). by rewrite take_digits_app.
Qed.

Lemma string_of_uint_digits (u : Decimal.uint) :
  forallb is_digit (list_ascii_of_string (DecimalString.NilEmpty.string_of_uint u)) = true.
Proof. induction u; simpl; by rewrite ?IHu. Qed.

(** Reading the printed digits with [int()] accumulates as
    [Pos.of_uint_acc] does. *)
Lemma digits_value_acc (u : Decimal.uint) (a : Z) (acc : positive) :
  a = Zpos acc ->
  foldl (fun acc a => 10 * acc + digit_value a)%Z a
    (list_ascii_of_string (DecimalString.NilEmpty.string_of_uint u)) = Zpos (Pos.of_uint_acc u acc).
Proof.
  revert a acc. induction u; intros a acc ->; simpl; [done|..]; apply IHu; unfold digit_value; simpl; lia.
Qed.

Lemma digits_value_uint (u : Decimal.uint) :
  digits_value (DecimalString.NilEmpty.string_of_uint u) = Z.of_N (Pos.of_uint u).
Proof.
  unfold digits_value. induction u; simpl; try done;
    apply digits_value_acc; unfold digit_value; simpl; lia.
Qed.

(** [int(str(n))] is [n] for every [n >= 0]. *)
Lemma digits_value_string_of_Z (n : Z) : (0 <= n)%Z -> digits_value (string_of_Z n) = n.
Proof.
  destruct n as [|p|p]; intros Hn; [done| |lia]. simpl.
  by rewrite digits_value_uint, DecimalPos.Unsigned.of_to.
Qed.

Lemma string_of_Z_digits (n : Z) :
  (0 <= n)%Z -> list_ascii_of_string (string_of_Z n) <> [] /\
  forallb is_digit (list_ascii_of_string (string_of_Z n)) = true.
Proof.
  destruct n as [|p|p]; intros Hn; [done| |lia]. split; [|apply string_of_uint_digits].
  intros E. pose proof (digits_value_string_of_Z (Zpos p) ltac:(lia)) as Hv.
  unfold digits_value in Hv. cbn [string_of_Z] in Hv. simpl in E. rewrite E in Hv. discriminate.
Qed.

Lemma string_append_empty_r (s : string) : (s ++ "")%string = s.
Proof. induction s as [|a s IH]; [reflexivity|]. change (String a (s ++ "")%string = String a s). by rewrite IH. Qed.

(** The pattern splits [prefix ++ str(n) ++ tail] at the digits. *)
Lemma first_match_app (p r : string) (n : Z) :
  plain_prefix p = true -> (0 <= n)%Z -> digit_boundary r = true ->
  first_match (p ++ string_of_Z n ++ r) = Some (p, string_of_Z n).
Proof.
  intros Hp Hn Hr. destruct (string_of_Z_digits n Hn) as [Hne Hd].
  unfold first_match. rewrite !list_ascii_of_string_app, first_match_aux_split by done.
  by rewrite !string_of_list_ascii_of_string.
Qed.

Lemma first_match_numbered (p : string) (n : Z) :
  plain_prefix p = true -> (0 <= n)%Z -> first_match (p ++ string_of_Z n) = Some (p, string_of_Z n).
Proof.
  intros Hp Hn. pose proof (first_match_app p "" n Hp Hn eq_refl) as H.
  by rewrite string_append_empty_r in H.
Qed.

(** ** The roundtrip *)

(** C25. Roundtrip of the grouping pattern: a name made of a prefix
    without digits or newlines, a number [n >= 0] printed in decimal and a
    tail that does not start with a digit is matched by [(.*?)(\d+)] as
    that prefix and those digits, and [int()] of the digits gives [n]
    back. *)
Theorem name_suffix_roundtrip (p r : string) (n : Z) :
  plain_prefix p = true -> (0 <= n)%Z -> digit_boundary r = true ->
  first_match (p ++ string_of_Z n ++ r) = Some (p, string_of_Z n) /\
  digits_value (string_of_Z n) = n.
Proof.
  intros Hp Hn Hr. split; [by apply first_match_app|by apply digits_value_string_of_Z].
Qed.

(** ** Concrete runs *)

Lemma name_suffix_roundtrip_witness :
  plain_prefix "Item" = true /\ (0 <= 12)%Z /\ digit_boundary "_score" = true /\
  first_match ("Item" ++ string_of_Z 12 ++ "_score") = Some ("Item", string_of_Z 12) /\
  digits_value (string_of_Z 12) = 12%Z.
Proof.
  split; [reflexivity|]. split; [lia|]. split; [reflexivity|].
  apply name_suffix_roundtrip; [reflexivity|lia|reflexivity].
Defined.
