(* ===== verification/Grouping.v ===== *)
(** * Grouping: the merge of numbered numeric columns in [var_detection]
    (analysis.py, lines 269-312)

    After classifying every column, [var_detection] scans the list of
    results with a [while] loop. At index [i], when the results at [i] and
    [i+1] are numbers, it collects the run of consecutive numeric results
    whose names match [(.*?)(\d+)] (the first match: a lazy prefix and a
    greedy digit run), and merges the run into one [group_number] variable
    when all prefixes are equal and [np.diff(suffixes).sum() == len - 1].
    The loop advances past a merged run or by one when no run starts at
    [i]; when a run is rejected it does not advance at all.

    This file models, on top of the name pattern of [Pattern], the run
    ([collect_run]), the two tests ([same_prefix], [np_diff_sum],
    [consecutive]), one iteration of the loop ([scan_step]), the loop as a
    fuelled function ([scan_loop]) and the emission of the final list
    ([emit], lines 294-312). *)

From S2P Require Import Prelude Cells Frame Classifier Pattern.
Close Scope Q_scope.

(** ** The run collected at index [i] (lines 278-285) *)

Definition is_number_var (v : detection) : bool :=
  match det_vtype v with VNumber => true | _ => false end.

(** [for vv in var_list[i:]]: stop at the first result that is not a
    number or whose name does not match. *)
Fixpoint collect_run (vs : list detection) : list (string * string) :=
  match vs with
  | [] => []
  | v :: rest =>
      if is_number_var v then
        match first_match (det_name v) with
        | Some pd => pd :: collect_run rest
        | None => []
        end
      else []
  end.

(** [len(set([t[0] for t in tmp1])) == 1]. *)
Definition same_prefix (run : list (string * string)) : bool :=
  match run with
  | [] => false
  | (p, _) :: rest => forallb (fun pd => String.eqb (fst pd) p) rest
  end.

(** ** [np.diff(...).sum()] at numpy's width

    numpy stores the suffixes (non-negative Python ints) as int64 when all
    fit, as uint64 when all fit in 64 unsigned bits, and as Python objects
    otherwise; differences and the sum wrap in the two fixed widths. *)
Definition in_uint64 (z : Z) : bool := (0 <=? z)%Z && (z <? 2 ^ 64)%Z.

Definition np_diff_sum (l : list Z) : Z :=
  if forallb in_int64 l then sum_int64 (map wrap64 (diffs l))
  else if forallb in_uint64 l then (sumZ (map (fun d => d mod 2 ^ 64) (diffs l)) mod 2 ^ 64)%Z
  else sumZ (diffs l).

Definition suffix_values (run : list (string * string)) : list Z :=
  map (fun pd => digits_value (snd pd)) run.

(** [np.diff([int(t[1]) for t in tmp1]).sum() == len(tmp1) - 1]. *)
Definition consecutive (run : list (string * string)) : bool :=
  Z.eqb (np_diff_sum (suffix_values run)) (Z.of_nat (length run) - 1).

(** ** One iteration of the [while] loop (lines 272-293) *)

(** The loop's state: the index [i] and the groups found so far
    ([var_group], each a list of indices). *)
Record scan_state := mkScan { sc_i : nat; sc_groups : list (list nat) }.

(** [None] when the loop condition [i < len(var_list) - 1] is false;
    otherwise the next state. A rejected run leaves the state unchanged. *)
Definition scan_step (vl : list detection) (st : scan_state) : option scan_state :=
  let i := sc_i st in
  if i <? length vl - 1 then
    match vl !! i, vl !! S i with
    | Some v, Some vnext =>
        if negb (is_number_var v && is_number_var vnext) then Some (mkScan (S i) (sc_groups st))
        else
          let run := collect_run (drop i vl) in
          if length run <? 2 then Some (mkScan (S i) (sc_groups st))
          else if same_prefix run && consecutive run
          then Some (mkScan (i + length run) (sc_groups st ++ [seq i (length run)]))
          else Some st
    | _, _ => None
    end
  else None.

(** The loop with [fuel] iterations at most; [None] when the fuel runs
    out. *)
Fixpoint scan_loop (fuel : nat) (vl : list detection) (st : scan_state) : option (list (list nat)) :=
  match fuel with
  | O => None
  | S f =>
      match scan_step vl st with
      | None => Some (sc_groups st)
      | Some st' => scan_loop f vl st'
      end
  end.

(** ** The emitted list (lines 294-312) *)

(** An entry of the final list: the classifier's record with [vlist], the
    names of the columns it stands for. *)
Record var := mkVar {
  var_name : string;
  var_vtype : vtype;
  var_ordered : bool;
  var_categories : list cell;
  var_vlist : list string
}.

Definition name_at (vl : list detection) (k : nat) : string :=
  default "" (det_name <$> vl !! k).

(** The [group_number] entry of a group of indices. *)
Definition group_var (vl : list detection) (grp : list nat) : var :=
  let names := map (name_at vl) grp in
  mkVar (name_at vl (default 0 (head grp)) ++ "-->" ++ name_at vl (default 0 (last grp)))
        VGroupNumber true (map CStr names) names.

(** [var_group_new]: first index of each group to its entry. *)
Definition group_table (vl : list detection) (groups : list (list nat)) : gmap nat var :=
  foldl (fun m grp => <[default 0 (head grp) := group_var vl grp]> m) ∅ groups.

Definition singleton_var (v : detection) : var :=
  mkVar (det_name v) (det_vtype v) (det_ordered v) (det_categories v) [det_name v].

(** [for i, v in enumerate(var_list)]: an index outside every group gives
    its own entry; the first member of a group whose name is not yet
    listed gives the group's entry ([KeyError] if that index does not start
    a group); the other members are skipped. *)
Fixpoint emit (vl : list detection) (total : list nat) (table : gmap nat var)
    (i : nat) (rest : list detection) (have : list string) : outcome (list var) :=
  match rest with
  | [] => Ret []
  | v :: rest' =>
      if decide (i ∈ total) then
        if decide (det_name v ∈ have) then emit vl total table (S i) rest' have
        else match table !! i with
             | Some g =>
                 match emit vl total table (S i) rest' (have ++ var_vlist g) with
                 | Ret out => Ret (g :: out)
                 | Exc e => Exc e
                 end
             | None => Exc KeyError
             end
      else
        match emit vl total table (S i) rest' (have ++ [det_name v]) with
        | Ret out => Ret (singleton_var v :: out)
        | Exc e => Exc e
        end
  end.

Definition emit_all (vl : list detection) (groups : list (list nat)) : outcome (list var) :=
  emit vl (concat groups) (group_table vl groups) 0 vl [].

(** ** The scan loop: progress, divergence and termination *)

(** The iteration at [i] rejects the run it collected: the results at [i]
    and [i + 1] are numbers, the run has two entries or more, and the
    prefix or the consecutiveness test fails. *)
Definition stuck_at (vl : list detection) (i : nat) : bool :=
  (i <? length vl - 1) &&
  match vl !! i, vl !! S i with
  | Some v, Some w => is_number_var v && is_number_var w
  | _, _ => false
  end &&
  (2 <=? length (collect_run (drop i vl))) &&
  negb (same_prefix (collect_run (drop i vl)) && consecutive (collect_run (drop i vl))).

(** Reachability by iterations of the loop. *)
Inductive reaches (vl : list detection) : scan_state -> scan_state -> Prop :=
| reaches_refl st : reaches vl st st
| reaches_step st st' st'' : scan_step vl st = Some st' -> reaches vl st' st'' -> reaches vl st st''.

Lemma collect_run_length vs : length (collect_run vs) <= length vs.
Proof.
  induction vs as [|v vs IH]; simpl; [lia|].
  destruct (is_number_var v); simpl; [|lia]. destruct (first_match _); simpl; lia.
Qed.

Lemma scan_step_stuck vl st : stuck_at vl (sc_i st) = true -> scan_step vl st = Some st.
Proof.
  unfold stuck_at, scan_step. intros Hs.
  apply andb_true_iff in Hs as [Hs Hneg]. apply andb_true_iff in Hs as [Hs Hlen].
  apply andb_true_iff in Hs as [Hlt Hnum]. rewrite Hlt.
  destruct (vl !! sc_i st), (vl !! S (sc_i st)); try discriminate. rewrite Hnum. simpl.
  apply Nat.leb_le in Hlen.
  destruct (Nat.ltb_spec (length (collect_run (drop (sc_i st) vl))) 2); [lia|].
  apply negb_true_iff in Hneg. by rewrite Hneg.
Qed.

(** Every iteration that does not reject a run moves the index forward,
    and never past the end of the list. *)
Lemma scan_step_progress vl st st' :
  scan_step vl st = Some st' -> stuck_at vl (sc_i st) = false ->
  sc_i st < sc_i st' <= length vl.
Proof.
  unfold scan_step, stuck_at. intros Hstep Hns.
  destruct (Nat.ltb_spec (sc_i st) (length vl - 1)) as [Hlt|]; [|done].
  destruct (vl !! sc_i st) as [v|], (vl !! S (sc_i st)) as [w|]; try done. simpl in Hns.
  destruct (is_number_var v && is_number_var w) eqn:Enum; simpl in Hstep, Hns.
  - pose proof (collect_run_length (drop (sc_i st) vl)) as Hrl. rewrite length_drop in Hrl.
    destruct (Nat.ltb_spec (length (collect_run (drop (sc_i st) vl))) 2).
    + injection Hstep as <-. simpl. lia.
    + destruct (Nat.leb_spec 2 (length (collect_run (drop (sc_i st) vl)))) as [Hle2|]; [|lia].
      destruct (same_prefix _ && consecutive _) eqn:Ef; [injection Hstep as <-; simpl; lia|].
      exfalso. rewrite ?Ef in Hns. simpl in Hns.
      destruct (length (collect_run (drop (sc_i st) vl))) as [|[|]]; [lia|lia|discriminate].
  - injection Hstep as <-. simpl. lia.
Qed.

Lemma scan_loop_stuck vl st fuel : stuck_at vl (sc_i st) = true -> scan_loop fuel vl st = None.
Proof.
  intros Hs. induction fuel as [|f IH]; [done|]. simpl. by rewrite scan_step_stuck.
Qed.

Lemma scan_loop_mono vl fuel fuel' st g :
  fuel <= fuel' -> scan_loop fuel vl st = Some g -> scan_loop fuel' vl st = Some g.
Proof.
  revert fuel' st. induction fuel as [|f IH]; intros fuel' st Hle Hrun; [done|].
  destruct fuel' as [|f']; [lia|]. simpl in *.
  destruct (scan_step vl st); [|done]. apply IH; [lia|done].
Qed.

(** From any state, either the loop ends within [length vl - i + 1]
    iterations, or it reaches a rejected run and then never ends. *)
Lemma scan_loop_dichotomy vl st :
  sc_i st <= length vl ->
  (exists g, scan_loop (S (length vl - sc_i st)) vl st = Some g) \/
  (exists st', reaches vl st st' /\ stuck_at vl (sc_i st') = true /\
               forall fuel, scan_loop fuel vl st = None).
Proof.
  remember (length vl - sc_i st) as m eqn:Hm. revert st Hm.
  induction m as [m IH] using lt_wf_ind. intros st Hm Hle.
  destruct (scan_step vl st) as [st'|] eqn:Hstep.
  2:{ left. exists (sc_groups st). simpl. by rewrite Hstep. }
  destruct (stuck_at vl (sc_i st)) eqn:Hs.
  { right. exists st. split; [constructor|]. split; [done|]. intros; by apply scan_loop_stuck. }
  pose proof (scan_step_progress _ _ _ Hstep Hs) as Hp.
  destruct (IH (length vl - sc_i st') ltac:(lia) st' eq_refl ltac:(lia))
    as [[g Hg]|(st'' & Hr & Hs'' & Hnone)].
  - left. exists g. simpl. rewrite Hstep. eapply scan_loop_mono; [|exact Hg]. lia.
  - right. exists st''. split; [econstructor; eauto|]. split; [done|].
    intros [|f]; [done|]. simpl. by rewrite Hstep.
Qed.

Definition scan_init : scan_state := mkScan 0 [].

Lemma reaches_stuck_none vl st0 st :
  reaches vl st0 st -> stuck_at vl (sc_i st) = true -> forall fuel, scan_loop fuel vl st0 = None.
Proof.
  induction 1 as [st0|st0 st1 st2 Hstep _ IHr]; intros Hs fuel.
  - by apply scan_loop_stuck.
  - destruct fuel as [|f]; [done|]. simpl. rewrite Hstep. by apply IHr.
Qed.

(** C5. Termination of the scan: the [while] loop of [var_detection]
    ends (and then within [length var_list + 1] iterations) exactly when
    it never reaches an index whose run it rejects. *)
Theorem scan_terminates_iff vl :
  (exists g, scan_loop (S (length vl)) vl scan_init = Some g) <->
  ~ (exists st, reaches vl scan_init st /\ stuck_at vl (sc_i st) = true).
Proof.
  destruct (scan_loop_dichotomy vl scan_init ltac:(simpl; lia))
    as [[g Hg]|(st & Hr & Hs & Hnone)].
  - change (sc_i scan_init) with 0 in Hg. rewrite Nat.sub_0_r in Hg. split; [|eauto]. intros _ (st & Hr & Hs).
    by rewrite (reaches_stuck_none _ _ _ Hr Hs) in Hg.
  - split; [intros [g Hg]; by rewrite Hnone in Hg|]. intros Hno. exfalso. apply Hno. eauto.
Qed.

(** C19. Divergence: once the loop rejects a run it stays at the same
    index with the same groups for ever, so no fuel is enough. *)
Theorem scan_rejected_run_diverges vl st :
  reaches vl scan_init st -> stuck_at vl (sc_i st) = true ->
  scan_step vl st = Some st /\ forall fuel, scan_loop fuel vl scan_init = None.
Proof.
  intros Hr Hs. split; [by apply scan_step_stuck|]. by apply (reaches_stuck_none _ _ st).
Qed.

(** ** What the scan finds *)

(** Index ranges [(start, length)], in increasing order, disjoint, each of
    length 2 or more, between [lo] and [hi]. *)
Fixpoint ranges_wf (lo : nat) (rs : list (nat * nat)) (hi : nat) : Prop :=
  match rs with
  | [] => lo <= hi
  | (s, l) :: rs' => lo <= s /\ 2 <= l /\ ranges_wf (s + l) rs' hi
  end.

Definition groups_of (rs : list (nat * nat)) : list (list nat) := map (fun '(s, l) => seq s l) rs.

(** A range is a run the scan accepted: the run collected at its start has
    its length and passes both tests. *)
Definition group_ok (vl : list detection) (r : nat * nat) : Prop :=
  let run := collect_run (drop r.1 vl) in
  length run = r.2 /\ same_prefix run = true /\ consecutive run = true.

Definition scan_inv (vl : list detection) (st : scan_state) : Prop :=
  exists rs, sc_groups st = groups_of rs /\ ranges_wf 0 rs (sc_i st) /\
             Forall (group_ok vl) rs /\ sc_i st <= length vl.

Lemma ranges_wf_mono lo rs hi hi' : ranges_wf lo rs hi -> hi <= hi' -> ranges_wf lo rs hi'.
Proof.
  revert lo. induction rs as [|[s l] rs IH]; intros lo; simpl; [lia|]. intros (? & ? & ?) ?. eauto.
Qed.

Lemma ranges_wf_snoc lo rs hi s l :
  ranges_wf lo rs hi -> hi <= s -> 2 <= l -> ranges_wf lo (rs ++ [(s, l)]) (s + l).
Proof.
  revert lo. induction rs as [|[s' l'] rs IH]; intros lo; simpl; [lia|]. intros (? & ? & ?) ? ?. eauto.
Qed.

Lemma scan_step_inv vl st st' : scan_inv vl st -> scan_step vl st = Some st' -> scan_inv vl st'.
Proof.
  intros (rs & Hg & Hwf & Hok & Hle) Hstep. unfold scan_step in Hstep.
  destruct (Nat.ltb_spec (sc_i st) (length vl - 1)) as [Hlt|]; [|done].
  destruct (vl !! sc_i st), (vl !! S (sc_i st)); try done.
  pose proof (collect_run_length (drop (sc_i st) vl)) as Hrl. rewrite length_drop in Hrl.
  destruct (negb _); [injection Hstep as <-; exists rs; simpl; split_and!; eauto using ranges_wf_mono; lia|].
  destruct (Nat.ltb_spec (length (collect_run (drop (sc_i st) vl))) 2).
  { injection Hstep as <-. exists rs. simpl. split_and!; eauto using ranges_wf_mono; lia. }
  destruct (same_prefix _ && consecutive _) eqn:Ef; [|injection Hstep as <-; by exists rs].
  injection Hstep as <-. apply andb_true_iff in Ef as [Hp Hc].
  exists (rs ++ [(sc_i st, length (collect_run (drop (sc_i st) vl)))]). simpl. split_and!.
  - rewrite Hg. unfold groups_of. by rewrite map_app.
  - apply (ranges_wf_snoc _ _ (sc_i st)); [done|lia|lia].
  - apply Forall_app. split; [done|]. repeat constructor; done.
  - lia.
Qed.

Lemma scan_inv_init vl : scan_inv vl scan_init.
Proof. exists []. simpl. split_and!; [done|lia|constructor|lia]. Qed.

(** The invariant holds of every state the loop passes through, so of the
    groups it returns. *)
Lemma scan_loop_inv fuel vl st gs :
  scan_inv vl st -> scan_loop fuel vl st = Some gs ->
  exists rs, gs = groups_of rs /\ ranges_wf 0 rs (length vl) /\ Forall (group_ok vl) rs.
Proof.
  revert st. induction fuel as [|f IH]; intros st Hinv Hrun; [done|].
  simpl in Hrun. destruct (scan_step vl st) as [st'|] eqn:Hstep.
  - eapply IH; [|exact Hrun]. by eapply scan_step_inv.
  - injection Hrun as <-. destruct Hinv as (rs & Hg & Hwf & Hok & Hle).
    exists rs. split_and!; eauto using ranges_wf_mono.
Qed.

(** C6. Soundness of the groups: whatever the scan returns is a list of
    disjoint index ranges in increasing order, each of length 2 or more
    and inside the list, and each is a run that the scan collected and
    accepted (same prefix, consecutive suffixes). *)
Theorem scan_groups_sound fuel vl gs :
  scan_loop fuel vl scan_init = Some gs ->
  exists rs, gs = groups_of rs /\ ranges_wf 0 rs (length vl) /\ Forall (group_ok vl) rs.
Proof. apply scan_loop_inv, scan_inv_init. Qed.

(** Every entry of a collected run comes from a numeric result whose name
    matches the pattern. *)
Lemma collect_run_spec vs k pd :
  collect_run vs !! k = Some pd ->
  exists v, vs !! k = Some v /\ is_number_var v = true /\ first_match (det_name v) = Some pd.
Proof.
  revert k. induction vs as [|v vs IH]; intros k; simpl; [done|].
  destruct (is_number_var v) eqn:En; [|done]. destruct (first_match (det_name v)) eqn:Em; [|done].
  destruct k as [|k]; simpl.
  - intros [= <-]. eauto.
  - apply IH.
Qed.

(** ** The consecutiveness test *)

Lemma diffs_in_int64 (l : list Z) :
  Forall (fun z => 0 <= z < 2 ^ 63)%Z l -> Forall (fun d => in_int64 d = true) (diffs l).
Proof.
  induction l as [|x [|y l] IH]; intros Hl; simpl; [constructor|constructor|].
  inversion Hl as [|? ? Hx Hl']; subst. inversion Hl' as [|? ? Hy _]; subst.
  constructor; [|by apply IH].
  unfold in_int64, int64_min, int64_max. apply andb_true_iff. split; apply Z.leb_le; lia.
Qed.

Lemma map_wrap64_id (l : list Z) : Forall (fun d => in_int64 d = true) l -> map wrap64 l = l.
Proof.
  induction 1 as [|d l Hd _ IH]; simpl; [done|]. rewrite IH, wrap64_id; [done|].
  unfold in_int64 in Hd. apply andb_true_iff in Hd as [H1 H2]. apply Z.leb_le in H1, H2. lia.
Qed.

(** With every suffix below 2^63 numpy computes in int64 without
    overflow, and [np.diff(l).sum()] is [last - first]. *)
Lemma np_diff_sum_int64 (x : Z) (l : list Z) :
  Forall (fun z => 0 <= z < 2 ^ 63)%Z (x :: l) ->
  np_diff_sum (x :: l) = (default x (last (x :: l)) - x)%Z.
Proof.
  intros Hl. unfold np_diff_sum.
  assert (forallb in_int64 (x :: l) = true) as ->.
  { apply forallb_forall. intros z Hz. eapply List.Forall_forall in Hl; [|exact Hz].
    unfold in_int64, int64_min, int64_max. apply andb_true_iff. split; apply Z.leb_le; lia. }
  rewrite map_wrap64_id by (by apply diffs_in_int64).
  rewrite sum_int64_wrap, sumZ_diffs. apply wrap64_id.
  assert (0 <= default x (last (x :: l)) < 2 ^ 63)%Z.
  { destruct (last (x :: l)) eqn:E; simpl; [|inversion Hl; lia].
    apply last_Some_elem_of in E. apply list_elem_of_In in E.
    by eapply List.Forall_forall in Hl. }
  inversion Hl; subst. unfold int64_min, int64_max. lia.
Qed.

(** C20. The consecutiveness test checks the total span only: when every
    suffix is below 2^63, a run passes it exactly when its last suffix
    minus its first equals its length minus one; the suffixes in between
    are not looked at. *)
Theorem consecutive_span (run : list (string * string)) (x : Z) (rest : list Z) :
  suffix_values run = x :: rest ->
  Forall (fun z => 0 <= z < 2 ^ 63)%Z (x :: rest) ->
  consecutive run = true <-> (default x (last (x :: rest)) - x = Z.of_nat (length run) - 1)%Z.
Proof.
  intros Hs Hb. unfold consecutive. rewrite Hs, np_diff_sum_int64 by done. apply Z.eqb_eq.
Qed.

(** ** The emitted list is a partition of the classified columns *)

Section partition.
Context (vl : list detection) (rs : list (nat * nat)).
Hypothesis Hwf : ranges_wf 0 rs (length vl).
Hypothesis Hnd : NoDup (map det_name vl).

Let total := concat (groups_of rs).
Let tbl := group_table vl (groups_of rs).

Lemma ranges_wf_le lo rs' hi : ranges_wf lo rs' hi -> lo <= hi.
Proof.
  revert lo. induction rs' as [|[s l] rs' IH]; intros lo Hw; [done|].
  destruct Hw as (? & ? & Hw). apply IH in Hw. lia.
Qed.

Lemma ranges_wf_elem lo rs' hi s l : ranges_wf lo rs' hi -> In (s, l) rs' -> lo <= s /\ 2 <= l /\ s + l <= hi.
Proof.
  revert lo. induction rs' as [|[s' l'] rs' IH]; intros lo Hw Hin; [done|].
  destruct Hw as (? & ? & Hw). destruct Hin as [[= -> ->]|Hin].
  - apply ranges_wf_le in Hw. lia.
  - destruct (IH _ Hw Hin). lia.
Qed.

Lemma in_total k : k ∈ total <-> exists s l, In (s, l) rs /\ s <= k < s + l.
Proof.
  unfold total, groups_of. rewrite list_elem_of_In, in_concat. split.
  - intros (g & Hg & Hk). apply in_map_iff in Hg as ([s l] & <- & Hin).
    apply list_elem_of_In, elem_of_seq in Hk. eauto.
  - intros (s & l & Hin & Hk). exists (seq s l). split; [apply in_map_iff; by exists (s, l)|].
    apply list_elem_of_In, elem_of_seq. lia.
Qed.

Definition group_insert (m : gmap nat var) (grp : list nat) : gmap nat var :=
  <[default 0 (head grp) := group_var vl grp]> m.

Lemma table_other lo rs' hi m k :
  ranges_wf lo rs' hi -> k < lo -> foldl group_insert m (groups_of rs') !! k = m !! k.
Proof.
  revert lo m. induction rs' as [|[s l] rs' IH]; intros lo m Hw Hk; [done|].
  destruct Hw as (? & Hl & Hw). simpl. rewrite (IH _ _ Hw) by lia.
  unfold group_insert. destruct l as [|l]; [lia|]. simpl. rewrite lookup_insert_ne; [done|lia].
Qed.

Lemma table_start lo rs' hi m s l :
  ranges_wf lo rs' hi -> In (s, l) rs' ->
  foldl group_insert m (groups_of rs') !! s = Some (group_var vl (seq s l)).
Proof.
  revert lo m. induction rs' as [|[s' l'] rs' IH]; intros lo m Hw Hin; [done|].
  destruct Hw as (? & Hl & Hw). simpl. destruct Hin as [[= -> ->]|Hin].
  - rewrite (table_other _ _ _ _ _ Hw) by lia. unfold group_insert.
    destruct l as [|l]; [lia|]. simpl. apply lookup_insert_eq.
  - by apply (IH _ _ Hw).
Qed.

Lemma name_in_take j k v :
  vl !! k = Some v -> det_name v ∈ map det_name (take j vl) <-> k < j.
Proof.
  intros Hk. split.
  - intros Hin. apply list_elem_of_lookup in Hin as [k' Hk'].
    rewrite list_lookup_fmap in Hk'. destruct (take j vl !! k') as [v'|] eqn:Ev; [|done].
    simpl in Hk'. injection Hk' as Hname.
    pose proof Ev as Ev'. apply lookup_take_Some in Ev' as [Hv' Hlt].
    assert (map det_name vl !! k' = Some (det_name v)) as H1 by (rewrite list_lookup_fmap, Hv'; simpl; by rewrite Hname).
    assert (map det_name vl !! k = Some (det_name v)) as H2 by (rewrite list_lookup_fmap, Hk; done).
    pose proof (NoDup_lookup _ _ _ _ Hnd H1 H2). lia.
  - intros Hlt. apply list_elem_of_lookup. exists k.
    rewrite list_lookup_fmap, lookup_take_lt by done. by rewrite Hk.
Qed.

Lemma emit_skip have k n :
  k + n <= length vl ->
  (forall j, k <= j < k + n -> j ∈ total /\ exists v, vl !! j = Some v /\ det_name v ∈ have) ->
  emit vl total tbl k (drop k vl) have = emit vl total tbl (k + n) (drop (k + n) vl) have.
Proof.
  revert k. induction n as [|n IH]; intros k Hle Hj; [by rewrite Nat.add_0_r|].
  destruct (Hj k ltac:(lia)) as (Hk & v & Hv & Hname).
  rewrite (drop_S _ _ _ Hv). cbn [emit]. rewrite decide_True by done. rewrite decide_True by done.
  replace (k + S n) with (S k + n) by lia. apply IH; [lia|]. intros j ?. apply Hj. lia.
Qed.

Lemma names_seq s l :
  s + l <= length vl -> map (name_at vl) (seq s l) = map det_name (take l (drop s vl)).
Proof.
  revert s. induction l as [|l IH]; intros s Hle; [done|].
  destruct (lookup_lt_is_Some_2 vl s ltac:(lia)) as [v Hv].
  rewrite (drop_S _ _ _ Hv). cbn [seq map take]. rewrite IH by lia.
  unfold name_at. by rewrite Hv.
Qed.

Lemma emit_from n : forall lo rs_suf,
  length vl - lo = n -> ranges_wf lo rs_suf (length vl) ->
  (forall s l, In (s, l) rs -> In (s, l) rs_suf \/ s + l <= lo) ->
  (forall s l, In (s, l) rs_suf -> In (s, l) rs) ->
  exists out, emit vl total tbl lo (drop lo vl) (map det_name (take lo vl)) = Ret out /\
              concat (map var_vlist out) = map det_name (drop lo vl).
Proof.
  induction n as [n IH] using lt_wf_ind. intros lo rs_suf Hn Hw Hpre Hsub.
  destruct (Nat.le_gt_cases (length vl) lo) as [Hge|Hlt].
  { rewrite drop_ge by done. by exists []. }
  destruct (lookup_lt_is_Some_2 vl lo Hlt) as [v Hv].
  assert (forall rs', ranges_wf (S lo) rs' (length vl) ->
            (forall s l, In (s, l) rs -> In (s, l) rs' \/ s + l <= S lo) ->
            (forall s l, In (s, l) rs' -> In (s, l) rs) ->
            lo ∉ total ->
            exists out, emit vl total tbl lo (drop lo vl) (map det_name (take lo vl)) = Ret out /\
              concat (map var_vlist out) = map det_name (drop lo vl)) as Hsingle.
  { intros rs' Hw' Hpre' Hsub' Hnot.
    rewrite (drop_S _ _ _ Hv). cbn [emit]. rewrite decide_False by done.
    replace (map det_name (take lo vl) ++ [det_name v]) with (map det_name (take (S lo) vl))
      by (rewrite (take_S_r _ _ _ Hv), map_app; done).
    destruct (IH (length vl - S lo) ltac:(lia) (S lo) rs' eq_refl Hw' Hpre' Hsub') as (out & Hout & Hcat).
    rewrite Hout. exists (singleton_var v :: out). split; [done|]. simpl. by rewrite Hcat. }
  destruct rs_suf as [|[s l] rest].
  - apply (Hsingle []); [simpl in *; lia| |done|].
    + intros s l Hin. destruct (Hpre s l Hin) as [[]|?]. lia.
    + rewrite in_total. intros (s & l & Hin & Hk). destruct (Hpre s l Hin) as [[]|?]. lia.
  - destruct Hw as (Hlos & Hl2 & Hw).
    destruct (Nat.eq_dec lo s) as [<-|Hne].
    + assert (In (lo, l) rs) as Hin by (apply Hsub; by left).
      assert (lo + l <= length vl) as Hend by (apply ranges_wf_le in Hw; lia).
      assert (forall j, lo <= j < lo + l -> j ∈ total) as Htot by (intros j ?; apply in_total; eauto).
      pose proof (drop_S _ _ _ Hv) as Hsplit. rewrite Hsplit. cbn [emit].
      rewrite decide_True by (apply Htot; lia).
      rewrite decide_False by (rewrite (name_in_take lo lo v Hv); lia).
      change tbl with (foldl group_insert ∅ (groups_of rs)).
      rewrite (table_start 0 rs (length vl) ∅ lo l Hwf Hin).
      cbn [var_vlist group_var]. rewrite names_seq by done. rewrite <- map_app, take_take_drop.
      rewrite (emit_skip _ (S lo) (l - 1)).
      2:{ lia. }
      2:{ intros j Hj. split; [apply Htot; lia|].
          destruct (lookup_lt_is_Some_2 vl j ltac:(lia)) as [w Hw']. exists w. split; [done|].
          rewrite (name_in_take _ j w Hw'). lia. }
      replace (S lo + (l - 1)) with (lo + l) by lia.
      destruct (IH (length vl - (lo + l)) ltac:(lia) (lo + l) rest eq_refl Hw) as (out & Hout & Hcat).
      { intros s' l' Hin'. destruct (Hpre s' l' Hin') as [[[= -> ->]|Hr]|?]; [right; lia|by left|right; lia]. }
      { intros s' l' Hin'. apply Hsub. by right. }
      rewrite Hout. eexists; split; [reflexivity|]. cbn [map concat]. rewrite Hcat.
      change (det_name v :: map det_name (drop (S lo) vl)) with (map det_name (v :: drop (S lo) vl)).
      rewrite <- Hsplit. cbn [var_vlist group_var]. rewrite names_seq by done.
      rewrite <- map_app, <- (drop_drop vl l lo), take_drop. done.
    + apply (Hsingle ((s, l) :: rest)); [simpl; split_and!; [lia|lia|done]| |done|].
      * intros s' l' Hin. destruct (Hpre s' l' Hin); [by left|right; lia].
      * rewrite in_total. intros (s' & l' & Hin & Hk). destruct (Hpre s' l' Hin) as [[[= -> ->]|Hin']|?]; [lia| |lia].
        destruct (ranges_wf_elem _ _ _ _ _ Hw Hin'). lia.
Qed.
End partition.

(** Partition: when the scan ends with groups [gs] and the classified
    columns have distinct names, the emission succeeds (no [KeyError])
    and the [vlist]s of the emitted entries, concatenated, are the names
    of the classified columns in their original order: every column is in
    exactly one entry, groups stand at the position of their first
    member, and the relative order is kept. *)
Lemma emit_all_partition fuel vl gs :
  scan_loop fuel vl scan_init = Some gs -> NoDup (map det_name vl) ->
  exists out, emit_all vl gs = Ret out /\ concat (map var_vlist out) = map det_name vl.
Proof.
  intros Hscan Hnd. destruct (scan_loop_inv _ _ _ _ (scan_inv_init vl) Hscan) as (rs & -> & Hwf & _).
  unfold emit_all.
  destruct (emit_from vl rs Hwf Hnd (length vl - 0) 0 rs eq_refl Hwf) as (out & Hout & Hcat).
  - intros s l Hin. by left.
  - done.
  - exists out. rewrite drop_0 in Hout, Hcat. done.
Qed.

(** ** The shape of the emitted entries *)

(** An entry is a column on its own ([vlist = [name]]) or a
    [group_number] of at least two columns, ordered, whose categories are
    its column names. *)
Definition var_wf (v : var) : Prop :=
  var_vlist v = [var_name v] \/
  (var_vtype v = VGroupNumber /\ var_ordered v = true /\
   var_categories v = map CStr (var_vlist v) /\ 2 <= length (var_vlist v)).

Lemma group_table_lookup vl groups k g :
  group_table vl groups !! k = Some g -> exists grp, grp ∈ groups /\ g = group_var vl grp.
Proof.
  unfold group_table. cut (forall m : gmap nat var,
    foldl (fun m grp => <[default 0 (head grp) := group_var vl grp]> m) m groups !! k = Some g ->
    m !! k = Some g \/ exists grp, grp ∈ groups /\ g = group_var vl grp).
  { intros Hc Hk. destruct (Hc ∅ Hk) as [Hm|]; [by rewrite lookup_empty in Hm|done]. }
  induction groups as [|grp gs IH]; intros m Hk; cbn [foldl] in Hk; [by left|].
  destruct (IH _ Hk) as [Hm|(grp' & Hin & ->)].
  - destruct (decide (default 0 (head grp) = k)) as [<-|Hne].
    + rewrite lookup_insert_eq in Hm. injection Hm as <-. right. exists grp. split; [left|done].
    + rewrite lookup_insert_ne in Hm by done. by left.
  - right. exists grp'. split; [by right|done].
Qed.

Lemma ranges_wf_len lo rs hi s l : ranges_wf lo rs hi -> (s, l) ∈ rs -> 2 <= l.
Proof.
  revert lo. induction rs as [|[s' l'] rs IH]; intros lo; [by intros _ ?%elem_of_nil|].
  intros (_ & Hl & Hwf) [[= -> ->]|Hin]%elem_of_cons; [done|]. by eapply IH.
Qed.

Lemma group_var_wf vl grp : 2 <= length grp -> var_wf (group_var vl grp).
Proof. intros Hl. right. cbn. split_and!; [done|done|done|by rewrite length_map]. Qed.

Lemma emit_wf vl total tbl i rest have out :
  (forall k g, tbl !! k = Some g -> var_wf g) ->
  emit vl total tbl i rest have = Ret out -> Forall var_wf out.
Proof.
  intros Htbl. revert i have out. induction rest as [|v rest IH]; intros i have out; cbn [emit].
  - intros [= <-]. constructor.
  - repeat case_match; intros Hout; simplify_eq; eauto.
    constructor; [by left|]. by eapply IH.
Qed.

(** The entries emitted after a scan that ends are well formed: the
    scan's groups have at least two members. *)
Lemma emit_all_wf fuel vl gs out :
  scan_loop fuel vl scan_init = Some gs -> emit_all vl gs = Ret out -> Forall var_wf out.
Proof.
  intros Hscan. destruct (scan_loop_inv _ _ _ _ (scan_inv_init vl) Hscan) as (rs & -> & Hwf & _).
  apply emit_wf. intros k g (grp & Hin & ->)%group_table_lookup. apply group_var_wf.
  apply list_elem_of_In, in_map_iff in Hin as ([s l] & <- & Hin%list_elem_of_In).
  rewrite length_seq. by eapply ranges_wf_len.
Qed.

(** ** Numbered runs are grouped *)

(** The name [p ++ str(s + j)] of the [j]-th column of a numbered run. *)
Definition numbered (p : string) (s : Z) (j : nat) : string := (p ++ string_of_Z (s + Z.of_nat j))%string.

Lemma collect_run_numbered p s (vs : list detection) m :
  plain_prefix p = true -> (0 <= s)%Z ->
  Forall (fun v => is_number_var v = true) vs ->
  map det_name vs = map (numbered p s) (seq m (length vs)) ->
  collect_run vs = map (fun j => (p, string_of_Z (s + Z.of_nat j))) (seq m (length vs)).
Proof.
  intros Hp Hs Hnum. revert m. induction Hnum as [|v vs Hv Hvs IH]; intros m Hn; [done|].
  injection Hn as Hv0 Hn. cbn [collect_run seq map length]. rewrite Hv, Hv0.
  unfold numbered. rewrite first_match_numbered by (done || lia). by rewrite (IH (S m)).
Qed.

Lemma suffix_values_numbered p s (l : list nat) :
  (0 <= s)%Z ->
  suffix_values (map (fun j => (p, string_of_Z (s + Z.of_nat j))) l) = map (fun j => (s + Z.of_nat j)%Z) l.
Proof.
  intros Hs. unfold suffix_values. rewrite map_map. apply map_ext. intros j.
  apply digits_value_string_of_Z. lia.
Qed.

Lemma last_map_seq {A} (f : nat -> A) k : last (map f (seq 0 (S k))) = Some (f k).
Proof. rewrite seq_S, map_app. cbn [map Nat.add]. by rewrite last_snoc. Qed.

(** The run of a numbered block of [k >= 2] numeric columns passes both
    tests. *)
Lemma numbered_run_accepted p s k :
  plain_prefix p = true -> (0 <= s)%Z -> (s + Z.of_nat k <= 2 ^ 63)%Z -> 2 <= k ->
  same_prefix (map (fun j => (p, string_of_Z (s + Z.of_nat j))) (seq 0 k)) = true /\
  consecutive (map (fun j => (p, string_of_Z (s + Z.of_nat j))) (seq 0 k)) = true.
Proof.
  intros Hp Hs Hk Hk2. destruct k as [|k]; [lia|]. split.
  - cbn [seq map same_prefix]. apply forallb_forall. intros pd Hin.
    apply in_map_iff in Hin as (j & <- & _). apply String.eqb_refl.
  - unfold consecutive. rewrite suffix_values_numbered, length_map, length_seq by done.
    set (g := fun j : nat => (s + Z.of_nat j)%Z).
    change (seq 0 (S k)) with (0 :: seq 1 k). cbn [map].
    rewrite np_diff_sum_int64.
    + change (g 0 :: map g (seq 1 k)) with (map g (seq 0 (S k))). rewrite last_map_seq.
      unfold g. simpl. apply Z.eqb_eq. lia.
    + change (g 0 :: map g (seq 1 k)) with (map g (seq 0 (S k))).
      apply List.Forall_map, List.Forall_forall. intros j Hj%in_seq. unfold g. lia.
Qed.

(** C26. Numbered runs are grouped: a result list made of [k >= 2]
    numeric columns named [p ++ str(s)], [p ++ str(s + 1)], ...,
    [p ++ str(s + k - 1)] (a prefix without digits or newlines, suffixes
    in int64) ends the scan with the one group [0 .. k - 1], and the
    emission gives the single [group_number] entry of that group. *)
Theorem numbered_run_grouped p s k (vs : list detection) :
  plain_prefix p = true -> (0 <= s)%Z -> (s + Z.of_nat k <= 2 ^ 63)%Z -> 2 <= k ->
  Forall (fun v => is_number_var v = true) vs ->
  map det_name vs = map (numbered p s) (seq 0 k) ->
  scan_loop (S k) vs scan_init = Some [seq 0 k] /\
  emit_all vs [seq 0 k] = Ret [group_var vs (seq 0 k)].
Proof.
  intros Hp Hs Hk Hk2 Hnum Hn.
  assert (length vs = k) as Hlen by (rewrite <- (length_map det_name vs), Hn, length_map; apply length_seq).
  pose proof (collect_run_numbered p s vs 0 Hp Hs Hnum) as Hrun. rewrite Hlen in Hrun. specialize (Hrun Hn).
  destruct (numbered_run_accepted p s k Hp Hs Hk Hk2) as [Hpre Hcons].
  destruct vs as [|v0 [|v1 tl]]; simpl in Hlen; [lia|lia|].
  inversion Hnum as [|? ? H0 Hnum']; subst. inversion Hnum' as [|? ? H1 _]; subst.
  split.
  - assert (scan_step (v0 :: v1 :: tl) scan_init = Some (mkScan (S (S (length tl))) [seq 0 (S (S (length tl)))])) as Hstep.
    { unfold scan_step. change (sc_i scan_init) with 0.
      change (length (v0 :: v1 :: tl)) with (S (S (length tl))).
      destruct (Nat.ltb_spec 0 (S (S (length tl)) - 1)); [|lia].
      change ((v0 :: v1 :: tl) !! 0) with (Some v0). change ((v0 :: v1 :: tl) !! 1) with (Some v1).
      cbv iota beta. rewrite H0, H1. cbn [negb andb].
      rewrite drop_0, Hrun, length_map, length_seq.
      destruct (Nat.ltb_spec (S (S (length tl))) 2); [lia|]. by rewrite Hpre, Hcons. }
    cbn [scan_loop]. rewrite Hstep. cbn [scan_loop].
    unfold scan_step at 1. cbn [sc_i]. simpl length.
    destruct (Nat.ltb_spec (S (S (length tl))) (S (S (length tl)) - 1)); [lia|]. done.
  - unfold emit_all. cbn [concat]. rewrite app_nil_r.
    remember (v1 :: tl) as rest eqn:Er. cbn [emit]. subst rest. rewrite decide_True by (apply list_elem_of_In, in_seq; lia).
    rewrite decide_False by (apply not_elem_of_nil).
    assert (group_table (v0 :: v1 :: tl) [seq 0 (S (S (length tl)))] !! 0 =
            Some (group_var (v0 :: v1 :: tl) (seq 0 (S (S (length tl)))))) as -> by apply lookup_insert_eq.
    pose proof (emit_skip (v0 :: v1 :: tl) [(0, S (S (length tl)))]
                  ([] ++ var_vlist (group_var (v0 :: v1 :: tl) (seq 0 (S (S (length tl)))))) 1 (S (length tl))) as Hskip.
    cbn [groups_of map concat] in Hskip. rewrite app_nil_r in Hskip.
    change (drop 1 (v0 :: v1 :: tl)) with (v1 :: tl) in Hskip. rewrite Hskip.
    + replace (1 + S (length tl)) with (length (v0 :: v1 :: tl)) by (simpl; lia).
      by rewrite drop_all.
    + simpl. lia.
    + intros j Hj. split; [apply list_elem_of_In, in_seq; simpl in *; lia|].
      destruct (lookup_lt_is_Some_2 (v0 :: v1 :: tl) j ltac:(simpl in *; lia)) as [w Hw].
      exists w. split; [done|]. cbn [app var_vlist group_var].
      apply list_elem_of_In, in_map_iff. exists j. split; [unfold name_at; by rewrite Hw|].
      apply in_seq. simpl in *. lia.
Qed.

(** ** Concrete runs *)

Definition num_det (n : string) : detection := mkDetection n VNumber false [].

Definition items_vl : list detection :=
  [num_det "id"; num_det "Item1"; num_det "Item2"; num_det "Item3"; mkDetection "t" VText false []].

Definition q1_vl : list detection := [num_det "Q1_a"; num_det "Q1_b"; num_det "Q1_c"].

(** [Item1, Item2, Item3] merge into one [group_number] entry named
    ["Item1-->Item3"] at the position of [Item1]. *)
Theorem items_grouped :
  scan_loop (S (length items_vl)) items_vl scan_init = Some [[1; 2; 3]] /\
  emit_all items_vl [[1; 2; 3]] =
    Ret [singleton_var (num_det "id");
         mkVar "Item1-->Item3" VGroupNumber true (map CStr ["Item1"; "Item2"; "Item3"])
               ["Item1"; "Item2"; "Item3"];
         singleton_var (mkDetection "t" VText false [])].
Proof. split; vm_compute; reflexivity. Qed.

Lemma scan_rejected_run_diverges_witness :
  reaches q1_vl scan_init scan_init /\ stuck_at q1_vl (sc_i scan_init) = true /\
  (scan_step q1_vl scan_init = Some scan_init /\ forall fuel, scan_loop fuel q1_vl scan_init = None).
Proof.
  split; [constructor|]. split; [vm_compute; reflexivity|].
  apply (scan_rejected_run_diverges q1_vl scan_init); [constructor|vm_compute; reflexivity].
Defined.

Lemma scan_groups_sound_witness :
  scan_loop 6 items_vl scan_init = Some [[1; 2; 3]] /\
  exists rs, [[1; 2; 3]] = groups_of rs /\ ranges_wf 0 rs (length items_vl) /\ Forall (group_ok items_vl) rs.
Proof.
  split; [vm_compute; reflexivity|]. apply (scan_groups_sound 6). vm_compute. reflexivity.
Defined.

Definition item_run : list detection := [num_det "Item1"; num_det "Item2"; num_det "Item3"].

Lemma numbered_run_grouped_witness :
  scan_loop 4 item_run scan_init = Some [seq 0 3] /\
  emit_all item_run [seq 0 3] = Ret [group_var item_run (seq 0 3)].
Proof.
  apply (numbered_run_grouped "Item" 1 3 item_run); [vm_compute; reflexivity|lia|lia|lia| |vm_compute; reflexivity].
  repeat constructor.
Defined.

Lemma consecutive_span_witness :
  suffix_values [("a", "1"); ("a", "5"); ("a", "3")] = [1; 5; 3]%Z /\
  Forall (fun z => 0 <= z < 2 ^ 63)%Z [1; 5; 3]%Z /\
  (consecutive [("a", "1"); ("a", "5"); ("a", "3")] = true <->
   (default 1 (last [1; 5; 3]) - 1 = Z.of_nat (length [("a", "1"); ("a", "5"); ("a", "3")]) - 1)%Z).
Proof.
  assert (Forall (fun z => 0 <= z < 2 ^ 63)%Z [1; 5; 3]%Z) as Hb by (repeat constructor; lia).
  split; [reflexivity|]. split; [exact Hb|]. by apply consecutive_span.
Defined.

(** Three columns named [Q1_a], [Q1_b], [Q1_c] all match as prefix ["Q"]
    and suffix ["1"]: the run is rejected, and the loop stays at index 0. *)
Theorem q1_columns_loop_forever :
  stuck_at q1_vl 0 = true /\ forall fuel, scan_loop fuel q1_vl scan_init = None.
Proof.
  split; [vm_compute; reflexivity|]. intros fuel. apply (reaches_stuck_none _ _ scan_init); [constructor|].
  vm_compute. reflexivity.
Qed.

(** Suffixes 1, 5, 3 span 2 = length - 1: the columns [a1, a5, a3] are
    merged although they are not numbered consecutively. *)
Theorem non_consecutive_suffixes_grouped :
  scan_loop 4 [num_det "a1"; num_det "a5"; num_det "a3"] scan_init = Some [[0; 1; 2]].
Proof. vm_compute. reflexivity. Qed.

(** Suffixes 2^64 - 1 and 0 are stored as uint64: their difference wraps
    to 1, and [x18446744073709551615, x0] are merged. *)
Theorem uint64_suffixes_grouped :
  scan_loop 3 [num_det "x18446744073709551615"; num_det "x0"] scan_init = Some [[0; 1]].
Proof. vm_compute. reflexivity. Qed.
