(* ===== verification/Scanner.v ===== *)
(** * Scanner: [type_of_var] (lines 215-246) and [var_detection]
    (lines 250-313)

    Both run the classifier over [data.columns] in order, on the same
    DataFrame, so each classification sees the columns rewritten by the
    ones before it. [type_of_var] collects a dict column name to vtype
    (with [datetime_to_category=False]); [var_detection] collects the
    results in a list and, with [combine=True], runs the grouping scan of
    [Grouping] and emits the final list.

    The [while] loop of the scan may not terminate; [var_detection] runs it
    with the fuel [length var_list + 1], which is enough whenever the loop
    terminates at all (the dichotomy lemma of [Grouping]), and reports
    [Diverges] otherwise. *)

From S2P Require Import Prelude Cells Frame Classifier Grouping.
Close Scope Q_scope.

Section scanner.
Context `{PyRuntime}.

(** ** [type_of_var] *)

(** [for c in data.columns: result = dtype_detection(c, data,
    datetime_to_category=False); if result is not None: var_type[c] =
    result['vtype']]. *)
Fixpoint type_of_var_loop (cols : list string) (acc : gmap string vtype)
    : PyM table (gmap string vtype) :=
  match cols with
  | [] => mret acc
  | c :: rest =>
      r ← dtype_detection c true true false;
      match r with
      | Some d => type_of_var_loop rest (<[c := det_vtype d]> acc)
      | None => type_of_var_loop rest acc
      end
  end.

(** With [inplace=False] the loop runs on [data1 = data.loc[:,:]]. In
    pandas 1.x a [.loc] whose keys are all null slices returns the
    DataFrame itself ([_getitem_tuple_same_dim] starts from [self.obj]
    and skips null slices): [data1] is an alias of the caller's
    DataFrame, so both branches classify, and rewrite, the same
    columns. *)
Definition type_of_var (inplace : bool) : PyM table (gmap string vtype) :=
  data ← py_get;
  if inplace then type_of_var_loop (col_names data) ∅
  else let data1 := data in type_of_var_loop (col_names data1) ∅.

(** ** [var_detection] *)

(** [for c in data.columns: result = dtype_detection(c, data); if result
    is not None: var_list.append(result)]. *)
Fixpoint detect_all (cols : list string) : PyM table (list detection) :=
  match cols with
  | [] => mret []
  | c :: rest =>
      r ← dtype_detection c true true true;
      l ← detect_all rest;
      mret (match r with Some d => d :: l | None => l end)
  end.

Inductive var_detection_result :=
| VarList (l : list detection)   (** [combine=False]: the classifier's results *)
| Combined (l : list var)        (** [combine=True]: the emitted list *)
| Diverges.                      (** the grouping loop does not terminate *)

Definition var_detection (combine : bool) : PyM table var_detection_result :=
  t ← py_get;
  vl ← detect_all (col_names t);
  if negb combine then mret (VarList vl)
  else match scan_loop (S (length vl)) vl scan_init with
       | None => mret Diverges
       | Some gs => out ← py_lift (emit_all vl gs); mret (Combined out)
       end.

(** ** Column by column *)

(** The reference: each column classified on its own, left to right;
    an exception stops the scan with the columns after it untouched. *)
Fixpoint columnwise (b3 : bool) (cols : table) : outcome (list detection) * table :=
  match cols with
  | [] => (Ret [], [])
  | col :: rest =>
      match classify_column true true b3 col with
      | (Exc e, col') => (Exc e, col' :: rest)
      | (Ret r, col') =>
          let '(o, rest') := columnwise b3 rest in
          (match o with
           | Ret l => Ret (match r with Some d => d :: l | None => l end)
           | Exc e => Exc e
           end, col' :: rest')
      end
  end.
End scanner.

(** ** Theorems *)
Section scanner_theorems.
Context `{PyRuntime}.

Lemma classify_column_det_name b1 b2 b3 col d :
  fst (classify_column b1 b2 b3 col) = Ret (Some d) -> det_name d = col_name col.
Proof.
  unfold classify_column, detect_number, final_detection.
  repeat case_match; simpl; intros; simplify_eq/=; try done;
    repeat match goal with
           | Hc : convert_percent _ = Ret _ |- _ => apply convert_percent_name in Hc; rewrite Hc; clear Hc
           end; by rewrite ?collapse_category_name, ?try_to_datetime_name.
Qed.

Lemma dtype_detection_at (pre rest : table) col b1 b2 b3 :
  col_name col ∉ col_names pre ->
  dtype_detection (col_name col) b1 b2 b3 (pre ++ col :: rest) =
    (fst (classify_column b1 b2 b3 col), pre ++ snd (classify_column b1 b2 b3 col) :: rest).
Proof.
  intros Hn. rewrite (dtype_detection_eq _ _ _ _ _ col).
  - by rewrite set_col_app_notin, set_col_head.
  - by rewrite lookup_col_app_notin, lookup_col_head.
Qed.

Lemma col_names_app (a b : table) : col_names (a ++ b) = col_names a ++ col_names b.
Proof. apply map_app. Qed.

(** Moving the classified column from the unprocessed part to the
    processed part keeps the names distinct. *)
Lemma nodup_shift (pre rest : table) col col' :
  NoDup (col_names (pre ++ col :: rest)) -> col_name col' = col_name col ->
  (col_name col ∉ col_names pre) /\ NoDup (col_names ((pre ++ [col']) ++ rest)).
Proof.
  rewrite !col_names_app. cbn [col_names map]. intros Hnd Hname.
  apply NoDup_app in Hnd as (Hpre & Hdisj & Hrest). apply NoDup_cons in Hrest as [Hc Hrest].
  split; [intros Hin; by apply (Hdisj _ Hin); left|]. rewrite Hname.
  apply NoDup_app. split_and!; [apply NoDup_app; split_and!| |done].
  - done.
  - intros x Hx ->%list_elem_of_singleton. apply (Hdisj _ Hx). by left.
  - by apply NoDup_singleton.
  - intros x [Hx| ->%list_elem_of_singleton]%elem_of_app Hx'; [|done].
    apply (Hdisj _ Hx). by right.
Qed.

Lemma classify_column_name' b1 b2 b3 col r col' :
  classify_column b1 b2 b3 col = (r, col') -> col_name col' = col_name col.
Proof.
  intros E. pose proof (classify_column_name b1 b2 b3 col) as Hn. by rewrite E in Hn.
Qed.

Lemma detect_all_split (rest pre : table) :
  NoDup (col_names (pre ++ rest)) ->
  detect_all (col_names rest) (pre ++ rest) =
    (fst (columnwise true rest), pre ++ snd (columnwise true rest)).
Proof.
  revert pre. induction rest as [|col rest IH]; intros pre Hnd; [by rewrite !app_nil_r|].
  cbn [col_names map detect_all columnwise].
  destruct (classify_column true true true col) as [[r|e] col'] eqn:Ec;
    destruct (nodup_shift _ _ _ _ Hnd (classify_column_name' _ _ _ _ _ _ Ec)) as [Hpre Hnd'];
    rewrite py_bind_run, dtype_detection_at, Ec by done; [|done]. simpl fst; simpl snd.
  replace (pre ++ col' :: rest) with ((pre ++ [col']) ++ rest) by by rewrite <- app_assoc.
  rewrite py_bind_run, IH by done.
  destruct (columnwise true rest) as [[l|e] rest'] eqn:Er; simpl; by rewrite <- app_assoc.
Qed.

(** The dict [var_type] built from the classifications, in order. *)
Definition var_types (l : list detection) : gmap string vtype :=
  foldl (fun m d => <[det_name d := det_vtype d]> m) ∅ l.

Lemma type_of_var_loop_split (rest pre : table) acc :
  NoDup (col_names (pre ++ rest)) ->
  type_of_var_loop (col_names rest) acc (pre ++ rest) =
    (outcome_map (foldl (fun m d => <[det_name d := det_vtype d]> m) acc) (fst (columnwise false rest)),
     pre ++ snd (columnwise false rest)).
Proof.
  revert pre acc. induction rest as [|col rest IH]; intros pre acc Hnd; [by rewrite !app_nil_r|].
  cbn [col_names map type_of_var_loop columnwise].
  destruct (classify_column true true false col) as [[r|e] col'] eqn:Ec;
    destruct (nodup_shift _ _ _ _ Hnd (classify_column_name' _ _ _ _ _ _ Ec)) as [Hpre Hnd'];
    rewrite py_bind_run, dtype_detection_at, Ec by done; [|done]. simpl fst; simpl snd.
  replace (pre ++ col' :: rest) with ((pre ++ [col']) ++ rest) by by rewrite <- app_assoc.
  destruct r as [d|]; rewrite IH by done;
    destruct (columnwise false rest) as [[l|e] rest'] eqn:Er; simpl; rewrite <- ?app_assoc; try done.
  assert (det_name d = col_name col) as <-; [|done].
  apply (classify_column_det_name true true false). by rewrite Ec.
Qed.

Lemma columnwise_names b3 (t : table) l :
  fst (columnwise b3 t) = Ret l -> sublist (map det_name l) (col_names t).
Proof.
  revert l. induction t as [|col t IH]; intros l; simpl; [by intros [= <-]|].
  destruct (classify_column true true b3 col) as [[r|e] col'] eqn:Ec; [|done].
  destruct (columnwise b3 t) as [[l'|e] t'] eqn:Et; simpl; [|done]. intros [= <-].
  specialize (IH l' eq_refl). destruct r as [d|]; [|by apply sublist_cons].
  simpl. rewrite (classify_column_det_name true true b3 col d) by (by rewrite Ec).
  by apply sublist_skip.
Qed.

(** C2. Column-by-column refinement of the scan: on a DataFrame with
    distinct column names, classifying every column in order on the
    shared DataFrame returns what classifying each column on its own
    returns, and leaves the DataFrame with each column replaced by its
    own classification's output. When column [k] raises, the columns
    before [k] are already rewritten, column [k] keeps the writes made
    before the exception, and the columns after it are untouched. *)
Theorem detect_all_columnwise (t : table) :
  NoDup (col_names t) -> detect_all (col_names t) t = columnwise true t.
Proof.
  intros Hnd. pose proof (detect_all_split t [] Hnd) as Hs. simpl in Hs.
  rewrite Hs. by destruct (columnwise true t).
Qed.
(** [var_detection] runs the column scan and then, with
    [combine=True], the grouping loop and the emission. *)
Lemma var_detection_run combine (t : table) :
  NoDup (col_names t) ->
  var_detection combine t =
    match columnwise true t with
    | (Exc e, t') => (Exc e, t')
    | (Ret vl, t') =>
        if negb combine then (Ret (VarList vl), t')
        else match scan_loop (S (length vl)) vl scan_init with
             | None => (Ret Diverges, t')
             | Some gs => (outcome_map Combined (emit_all vl gs), t')
             end
    end.
Proof.
  intros Hnd. unfold var_detection. rewrite py_bind_run. cbn [py_get]. rewrite py_bind_run.
  pose proof (detect_all_split t [] Hnd) as Hs. simpl in Hs. rewrite Hs.
  destruct (columnwise true t) as [[vl|e] t'] eqn:Et; [|done]. simpl fst; simpl snd.
  destruct combine; [|done]. simpl negb. cbv iota.
  destruct (scan_loop _ vl scan_init); [|done]. py_unfold.
  by destruct (emit_all vl _).
Qed.

Lemma var_detection_stuck (t : table) vl t' :
  NoDup (col_names t) -> columnwise true t = (Ret vl, t') ->
  var_detection true t = (Ret Diverges, t') <->
  exists st, reaches vl scan_init st /\ stuck_at vl (sc_i st) = true.
Proof.
  intros Hnd Ht. rewrite var_detection_run, Ht by done. simpl negb; cbv iota.
  destruct (scan_loop_dichotomy vl scan_init ltac:(simpl; lia))
    as [[g Hg]|(st & Hr & Hs & Hnone)].
  - change (sc_i scan_init) with 0 in Hg. rewrite Nat.sub_0_r in Hg. rewrite Hg. split.
    + by destruct (emit_all vl g).
    + intros (st & Hr & Hs). by rewrite (reaches_stuck_none _ _ _ Hr Hs) in Hg.
  - rewrite Hnone. split; [eauto|done].
Qed.

(** C4. Fuel adequacy of [var_detection]: on a DataFrame with distinct
    column names whose column scan succeeds with the list [vl], the
    model reports [Diverges] (with the DataFrame as the column scan left
    it) exactly when the grouping loop reaches an index whose run it
    rejects, that is exactly when the Python [while] loop never ends. *)
Theorem var_detection_diverges_iff (t : table) vl t' :
  NoDup (col_names t) -> columnwise true t = (Ret vl, t') ->
  var_detection true t = (Ret Diverges, t') <->
  exists st, reaches vl scan_init st /\ stuck_at vl (sc_i st) = true.
Proof. apply var_detection_stuck. Qed.

(** C3. End-to-end result of [var_detection(data)]: on a DataFrame
    with distinct column names whose column scan succeeds with [vl] and
    whose grouping loop ends, the call returns the emitted list with
    the DataFrame as the column scan left it; the [vlist]s of the
    emitted entries, concatenated, are the names of the classified
    columns in the DataFrame's order, each once; and those names are
    the DataFrame's column names with the unclassified ones left out. *)
Theorem var_detection_partition (t : table) vl t' :
  NoDup (col_names t) -> columnwise true t = (Ret vl, t') ->
  ~ (exists st, reaches vl scan_init st /\ stuck_at vl (sc_i st) = true) ->
  exists out, var_detection true t = (Ret (Combined out), t') /\
    concat (map var_vlist out) = map det_name vl /\
    sublist (map det_name vl) (col_names t).
Proof.
  intros Hnd Ht Hno. rewrite var_detection_run, Ht by done. simpl negb; cbv iota.
  assert (sublist (map det_name vl) (col_names t)) as Hsub.
  { apply (columnwise_names true). by rewrite Ht. }
  destruct (scan_loop_dichotomy vl scan_init ltac:(simpl; lia))
    as [[g Hg]|(st & Hr & Hs & _)]; [|by destruct Hno; eauto].
  change (sc_i scan_init) with 0 in Hg. rewrite Nat.sub_0_r in Hg. rewrite Hg.
  destruct (emit_all_partition _ _ _ Hg) as (out & Hout & Hcat).
  { by eapply sublist_NoDup. }
  exists out. by rewrite Hout.
Qed.

Lemma columnwise_col_names b3 (t : table) : col_names (snd (columnwise b3 t)) = col_names t.
Proof.
  induction t as [|col t IH]; [done|]. cbn [columnwise].
  destruct (classify_column true true b3 col) as [[r|e] col'] eqn:Ec;
    pose proof (classify_column_name' _ _ _ _ _ _ Ec) as Hn.
  - destruct (columnwise b3 t) as [o t'] eqn:Et. cbn in *. by rewrite IH, Hn.
  - cbn. by rewrite Hn.
Qed.

Lemma var_detection_combined (t t' : table) out :
  var_detection true t = (Ret (Combined out), t') ->
  exists vl gs, fst (detect_all (col_names t) t) = Ret vl /\ t' = snd (detect_all (col_names t) t) /\
    scan_loop (S (length vl)) vl scan_init = Some gs /\ emit_all vl gs = Ret out.
Proof.
  unfold var_detection. rewrite py_bind_run. cbn [py_get]. rewrite py_bind_run.
  destruct (detect_all (col_names t) t) as [[vl|e] t''] eqn:Ed; [|done]. cbn -[scan_loop emit_all].
  destruct (scan_loop _ vl scan_init) as [gs|] eqn:Es; [|done]. py_unfold.
  destruct (emit_all vl gs) eqn:Ee; intros [= -> ->]. by exists vl, gs.
Qed.

Lemma columnwise_exc b3 (t : table) e : fst (columnwise b3 t) = Exc e -> classifier_exc e.
Proof.
  induction t as [|col t IH]; [done|]. cbn [columnwise].
  destruct (classify_column true true b3 col) as [[r|e'] col'] eqn:Ec.
  - destruct (columnwise b3 t) as [[l|e'] t'] eqn:Et; cbn in *; [done|]. intros [= <-]. by apply IH.
  - cbn. intros [= <-]. apply (classify_column_exc true true b3 col). by rewrite Ec.
Qed.

(** What [AnalysisReport] relies on: on distinct column names,
    [var_detection] raises only the classifier's exceptions, and the
    [vlist]s of its entries are columns of the DataFrame it leaves. *)
Lemma var_detection_exc (t t' : table) e :
  NoDup (col_names t) -> var_detection true t = (Exc e, t') -> classifier_exc e.
Proof.
  intros Hnd. rewrite var_detection_run by done.
  destruct (columnwise true t) as [[vl|e'] t''] eqn:Et.
  - cbn -[scan_loop emit_all]. destruct (scan_loop _ _ _) as [gs|] eqn:Hs; [|done].
    assert (sublist (map det_name vl) (col_names t)) as Hsub by (apply (columnwise_names true); by rewrite Et).
    destruct (emit_all_partition _ _ _ Hs) as (out & -> & _); [by eapply sublist_NoDup|done].
  - intros [= <- _]. apply (columnwise_exc true t). by rewrite Et.
Qed.

Lemma var_detection_columns (t t' : table) out :
  NoDup (col_names t) -> var_detection true t = (Ret (Combined out), t') ->
  Forall var_wf out /\ forall n, n ∈ concat (map var_vlist out) -> n ∈ col_names t'.
Proof.
  intros Hnd Hv. pose proof Hv as (vl & gs & Hvl & Ht' & Hs & He)%var_detection_combined.
  split; [by eapply emit_all_wf|]. intros n Hn.
  pose proof (detect_all_split t [] Hnd) as Hsplit. cbn in Hsplit. rewrite Hsplit in Hvl, Ht'. cbn in Hvl, Ht'.
  assert (sublist (map det_name vl) (col_names t)) as Hsub by (by apply (columnwise_names true)).
  destruct (emit_all_partition _ _ _ Hs) as (out' & Hout' & Hcat); [by eapply sublist_NoDup|].
  rewrite He in Hout'. injection Hout' as <-. rewrite Hcat in Hn.
  subst t'. rewrite columnwise_col_names. by eapply elem_of_sublist.
Qed.

Lemma var_detection_no_varlist (t t' : table) l : var_detection true t <> (Ret (VarList l), t').
Proof.
  unfold var_detection. rewrite py_bind_run. cbn [py_get]. rewrite py_bind_run.
  destruct (detect_all (col_names t) t) as [[vl|e] t1]; [|done]. cbn -[scan_loop emit_all].
  destruct (scan_loop _ vl scan_init); [|done]. py_unfold. by destruct (emit_all vl _).
Qed.

(** C38. The entries [var_detection] emits are well formed: each is a
    column on its own ([vlist = [name]]) or a [group_number] of at least
    two columns, ordered, with its column names as categories. *)
Theorem var_detection_entries_wf (t t' : table) out :
  var_detection true t = (Ret (Combined out), t') -> Forall var_wf out.
Proof.
  intros (vl & gs & _ & _ & Hs & He)%var_detection_combined. by eapply emit_all_wf.
Qed.

(** C12. [type_of_var]: on a DataFrame with distinct column names, the
    dict it returns maps each classified column's name to its [vtype]
    as classifying the columns one by one (with
    [datetime_to_category=False]) gives it, and the caller's DataFrame
    ends as that column-by-column classification leaves it, for either
    value of [inplace]: [inplace=False] rewrites the data too. *)
Theorem type_of_var_spec (t : table) (inplace : bool) :
  NoDup (col_names t) ->
  type_of_var inplace t = (outcome_map var_types (fst (columnwise false t)), snd (columnwise false t)).
Proof.
  intros Hnd. pose proof (type_of_var_loop_split t [] ∅ Hnd) as Hs. simpl in Hs.
  unfold type_of_var. rewrite !py_bind_run. cbn [py_get]. by destruct inplace.
Qed.
End scanner_theorems.

(** ** Concrete runs *)

Definition q1_table : table :=
  [float_col "Q1_a" [1; 2]%Q; float_col "Q1_b" [1; 2]%Q; float_col "Q1_c" [1; 2]%Q].

(** A numbered run with a column pandas reports as [timedelta64], which
    [dtype_detection] does not classify, between [item1] and [item2]. *)
Definition mixed_table : table :=
  [float_col "item1" [1; 2]%Q; mkColumn "delta" (DOther "timedelta64[ns]") [CNone; CNone];
   float_col "item2" [1; 2]%Q; float_col "item3" [3; 4]%Q].

(** A percent column followed by a column that contains ['%'] in every
    value but does not parse once stripped. *)
Definition pct_table : table := [pct_col; str_col "d" ["50% off"; "20% off"]].

Definition scanned (t : table) : list detection :=
  match fst (columnwise true t) with Ret vl => vl | Exc _ => [] end.

Definition detected (t : table) : list var :=
  match fst (var_detection true t) with Ret (Combined out) => out | _ => [] end.

Lemma var_detection_entries_wf_witness :
  var_detection true mixed_table = (Ret (Combined (detected mixed_table)), snd (var_detection true mixed_table)) /\
  Forall var_wf (detected mixed_table).
Proof.
  assert (var_detection true mixed_table =
    (Ret (Combined (detected mixed_table)), snd (var_detection true mixed_table))) as Hv by (vm_compute; reflexivity).
  split; [exact Hv|]. exact (var_detection_entries_wf _ _ _ Hv).
Defined.

Lemma detect_all_columnwise_witness :
  NoDup (col_names mixed_table) /\
  detect_all (col_names mixed_table) mixed_table = columnwise true mixed_table.
Proof.
  assert (NoDup (col_names mixed_table)) as Hnd by (apply (bool_decide_unpack _); vm_compute; reflexivity).
  split; [exact Hnd|]. by apply detect_all_columnwise.
Defined.

Lemma var_detection_diverges_iff_witness :
  NoDup (col_names q1_table) /\
  columnwise true q1_table = (Ret (scanned q1_table), snd (columnwise true q1_table)) /\
  (var_detection true q1_table = (Ret Diverges, snd (columnwise true q1_table)) <->
   exists st, reaches (scanned q1_table) scan_init st /\ stuck_at (scanned q1_table) (sc_i st) = true).
Proof.
  assert (NoDup (col_names q1_table)) as Hnd by (apply (bool_decide_unpack _); vm_compute; reflexivity).
  assert (columnwise true q1_table = (Ret (scanned q1_table), snd (columnwise true q1_table))) as Hc
    by (vm_compute; reflexivity).
  split; [exact Hnd|]. split; [exact Hc|]. by apply var_detection_diverges_iff.
Defined.

Lemma var_detection_partition_witness :
  NoDup (col_names mixed_table) /\
  columnwise true mixed_table = (Ret (scanned mixed_table), snd (columnwise true mixed_table)) /\
  ~ (exists st, reaches (scanned mixed_table) scan_init st /\ stuck_at (scanned mixed_table) (sc_i st) = true) /\
  exists out, var_detection true mixed_table = (Ret (Combined out), snd (columnwise true mixed_table)) /\
    concat (map var_vlist out) = map det_name (scanned mixed_table) /\
    sublist (map det_name (scanned mixed_table)) (col_names mixed_table).
Proof.
  assert (NoDup (col_names mixed_table)) as Hnd by (apply (bool_decide_unpack _); vm_compute; reflexivity).
  assert (columnwise true mixed_table = (Ret (scanned mixed_table), snd (columnwise true mixed_table))) as Hc
    by (vm_compute; reflexivity).
  assert (~ (exists st, reaches (scanned mixed_table) scan_init st /\
                        stuck_at (scanned mixed_table) (sc_i st) = true)) as Hno.
  { intros (st & Hr & Hs). pose proof (reaches_stuck_none _ _ _ Hr Hs 5) as H5.
    vm_compute in H5. discriminate. }
  split; [exact Hnd|]. split; [exact Hc|]. split; [exact Hno|].
  by apply var_detection_partition.
Defined.

(** [type_of_var(data, inplace=False)] converts the percent column of
    the caller's DataFrame. *)
Lemma type_of_var_spec_witness :
  NoDup (col_names pct_table) /\ snd (columnwise false pct_table) <> pct_table /\
  type_of_var false pct_table =
    (outcome_map var_types (fst (columnwise false pct_table)), snd (columnwise false pct_table)).
Proof.
  assert (NoDup (col_names pct_table)) as Hnd by (apply (bool_decide_unpack _); vm_compute; reflexivity).
  assert (snd (columnwise false pct_table) <> pct_table) as Hch by (vm_compute; discriminate).
  split; [exact Hnd|]. split; [exact Hch|]. exact (type_of_var_spec pct_table false Hnd).
Defined.

(** The [timedelta64] column is dropped (['unknown dtype!']), so it is
    in no entry of the result, and [item1], [item2], [item3] are grouped
    although another column stands between [item1] and [item2]. *)
Theorem unknown_dtype_column_dropped :
  match fst (var_detection true mixed_table) with
  | Ret (Combined out) =>
      map var_name out = ["item1-->item3"] /\ concat (map var_vlist out) = ["item1"; "item2"; "item3"]
  | _ => False
  end.
Proof. vm_compute. split; reflexivity. Qed.

(** The [ValueError] of the second column escapes [var_detection] after
    the first column of the caller's DataFrame has been rewritten to
    floats. *)
Theorem var_detection_partial_rewrite :
  var_detection true pct_table = (Exc ValueError, [pct_col'; str_col "d" ["50% off"; "20% off"]]) /\
  pct_col' <> pct_col.
Proof. split; [vm_compute; reflexivity|discriminate]. Qed.
