(* ===== verification/Distributions.v ===== *)
(** * Distributions: [_freedman_diaconis_bins] and [distributions]
    (lines 42-94 of [src/reportgen/analysis.py])

    The input array is a list of rationals: Python floats are taken as
    exact, with no NaN (numpy's [min]/[max] and [histogram] are then
    exact). Roots are never computed: the Freedman-Diaconis count
    [ceil(range / (2 iqr / n^(1/3)))] is the ceiling of the real cube
    root of the rational [range^3 n / (8 iqr^3)], that is the least
    integer whose cube is at least that rational ([ceil_cbrt]), and
    [int(np.sqrt(n))] is [Z.sqrt n].

    [utils.iqr] is not under [src/]: it is modelled from the spec as
    numpy's default (linear) percentile 75 minus percentile 25.
    [np.histogram] is modelled as numpy 1.x computes equal-width bins,
    its index corrections included; [scipy.stats.gaussian_kde] and
    [np.std] are parameters of the [kde] Section. *)

From S2P Require Import Prelude Cells.
From stdpp Require Import sorting.
Close Scope Q_scope.

(** ** Order on the array's values *)

#[export] Instance Qle_rel_dec : RelDecision Qle := fun x y =>
  match Qlt_le_dec y x with
  | left H => right (Qlt_not_le _ _ H)
  | right H => left H
  end.

#[export] Instance Qle_total : Total Qle.
Proof. intros x y. destruct (Qlt_le_dec x y); [left; lra|right; lra]. Qed.

Definition Qlt_bool (x y : Q) : bool := negb (Qle_bool y x).

Definition qmin (x y : Q) : Q := if Qle_bool x y then x else y.
Definition qmax (x y : Q) : Q := if Qle_bool x y then y else x.

(** [a.min()] and [a.max()]; numpy raises [ValueError] on an empty
    array. *)
Definition arr_min (a : list Q) : outcome Q :=
  match a with [] => Exc ValueError | x :: l => Ret (foldl qmin x l) end.
Definition arr_max (a : list Q) : outcome Q :=
  match a with [] => Exc ValueError | x :: l => Ret (foldl qmax x l) end.

Definition cube (x : Q) : Q := (x * x * x)%Q.

(** ** [utils.iqr] (from the spec): numpy's linear percentile *)

Definition sort_Q (a : list Q) : list Q := merge_sort Qle a.

(** Linear interpolation at the virtual index [pos] of a sorted array:
    its two neighbours [lo] and [hi] (the last value twice at the end)
    and [gamma], the fractional part of [pos]. *)
Definition interp (s : list Q) (pos : Q) : Q :=
  let i := Z.to_nat (Qfloor pos) in
  let gamma := (pos - inject_Z (Qfloor pos))%Q in
  let lo := default 0%Q (s !! i) in
  let hi := default lo (s !! S i) in
  (lo + gamma * (hi - lo))%Q.

(** [np.percentile(a, q)]: the virtual index [q/100 (n-1)] in the sorted
    array. *)
Definition percentile (a : list Q) (q : Q) : Q :=
  let s := sort_Q a in
  interp s (q / 100 * inject_Z (Z.of_nat (length s) - 1))%Q.

Definition iqr (a : list Q) : Q := (percentile a 75 - percentile a 25)%Q.

(** ** The ceiling of a cube root *)

(** The first [k] from [k0] on (at most [fuel] steps) for which [P]
    holds. *)
Fixpoint least_from (P : Z -> bool) (k : Z) (fuel : nat) : Z :=
  match fuel with
  | O => k
  | S f => if P k then k else least_from P (k + 1) f
  end.

(** [ceil(cbrt(X))]: the least integer [k] with [X <= k^3], searched in
    [[-B, B]] with [B = |ceil X| + 1], where the cube of [-B] is below
    [X] and that of [B] above it. *)
Definition ceil_cbrt (X : Q) : Z :=
  let B := (Z.abs (Qceiling X) + 1)%Z in
  least_from (fun k => Qle_bool X (inject_Z (k * k * k))) (- B) (Z.to_nat (2 * B)).

(** ** [_freedman_diaconis_bins] (lines 42-51) *)

(** [h = 2 iqr / n^(1/3)] is zero exactly when [iqr] is (the array is
    not empty), and then the count is [int(np.sqrt(a.size))], the floor
    of the square root. Otherwise [int(np.ceil((a.max() - a.min()) / h))]
    is the ceiling of the cube root of [range^3 n / (8 iqr^3)]. *)
Definition freedman_diaconis_bins (a : list Q) : outcome Z :=
  let n := length a in
  if Qeq_bool (iqr a) 0 && negb (Nat.eqb n 0) then Ret (Z.sqrt (Z.of_nat n))
  else
    match arr_max a, arr_min a with
    | Ret mx, Ret mn =>
        Ret (ceil_cbrt (cube (mx - mn) * inject_Z (Z.of_nat n) / (8 * cube (iqr a)))%Q)
    | Exc e, _ | _, Exc e => Exc e
    end.

(** ** [np.histogram(a, bins=k)] with equal-width bins *)

(** [np.linspace(start, stop, num)]: [start + i * step], the last point
    set to [stop]. *)
Definition linspace (start stop : Q) (num : nat) : list Q :=
  let step := ((stop - start) / inject_Z (Z.of_nat num - 1))%Q in
  map (fun i => if (1 <? num) && (i =? num - 1) then stop
                else (inject_Z (Z.of_nat i) * step + start)%Q) (seq 0 num).

(** [_get_outer_edges]: [(0, 1)] for an empty array, the array's range
    widened by [0.5] on each side when it is a single point. *)
Definition outer_edges (a : list Q) : outcome (Q * Q) :=
  match a with
  | [] => Ret (0%Q, 1%Q)
  | _ =>
      mn ← arr_min a; mx ← arr_max a;
      if Qeq_bool mn mx then Ret ((mn - (1 # 2))%Q, (mx + (1 # 2))%Q) else Ret (mn, mx)
  end.

(** [bin_edges[i]], a negative index counting from the end. *)
Definition edge_at (edges : list Q) (i : Z) : Q :=
  default 0%Q (edges !! Z.to_nat (if (i <? 0)%Z then Z.of_nat (length edges) + i else i)%Z).

(** numpy's index of [x] among [k] equal bins over [[lo, hi]]: the
    truncated scaled offset, the last edge moved into the last bin, then
    the two corrections for values rounded across an edge. *)
Definition bin_index (lo hi : Q) (k : nat) (edges : list Q) (x : Q) : Z :=
  let norm := (inject_Z (Z.of_nat k) / (hi - lo))%Q in
  let i0 := Qtrunc ((x - lo) * norm) in
  let i1 := if (i0 =? Z.of_nat k)%Z then (i0 - 1)%Z else i0 in
  let i2 := if Qlt_bool x (edge_at edges i1) then (i1 - 1)%Z else i1 in
  if Qle_bool (edge_at edges (i2 + 1)) x && negb (i2 =? Z.of_nat k - 1)%Z then (i2 + 1)%Z else i2.

Fixpoint incr_at (i : nat) (c : list nat) : list nat :=
  match c, i with
  | [], _ => []
  | x :: c', O => S x :: c'
  | x :: c', S j => x :: incr_at j c'
  end.

(** [np.bincount(idx, minlength=k)]: [ValueError] on a negative index,
    otherwise one counter per index up to [max(k, max idx + 1)]. *)
Definition bincount (k : nat) (idx : list Z) : outcome (list nat) :=
  if existsb (fun i => (i <? 0)%Z) idx then Exc ValueError
  else
    let len := foldl (fun m i => Nat.max m (S (Z.to_nat i))) k idx in
    Ret (foldl (fun c i => incr_at (Z.to_nat i) c) (replicate len 0) idx).

(** [np.histogram(a, bins)]: [ValueError] unless [bins] is positive;
    the values outside the edges are dropped ([keep]), the others
    binned. *)
Definition histogram (a : list Q) (bins : Z) : outcome (list nat * list Q) :=
  if (bins <? 1)%Z then Exc ValueError
  else
    '(lo, hi) ← outer_edges a;
    let k := Z.to_nat bins in
    let edges := linspace lo hi (S k) in
    let kept := List.filter (fun x => Qle_bool lo x && Qle_bool x hi) a in
    counts ← bincount k (map (bin_index lo hi k edges) kept);
    Ret (counts, edges).

(** [counts / counts.sum()]. *)
Definition normalize (counts : list nat) : list Q :=
  let total := inject_Z (Z.of_nat (sum_list counts)) in
  map (fun c => inject_Z (Z.of_nat c) / total)%Q counts.

(** ** [distributions] (lines 55-94) *)

(** The four shapes of the return value. *)
Inductive dist_result :=
| DHist (counts : list Q) (edges : list Q)          (** [counts, bins] *)
| DKde (grid : list Q) (y : list Q)                 (** [grid, y] *)
| DBoth (counts edges grid y : list Q)              (** [((counts, bins), (grid, y))] *)
| DNone.                                            (** [None] *)

(** The histogram half: the bin count from the rule, capped at 50, when
    [bins] is not given; the counts normalised when [norm_hist]. *)
Definition hist_part (a : list Q) (bins : option Z) (norm_hist : bool) : outcome (list Q * list Q) :=
  b ← match bins with
      | None => fd ← freedman_diaconis_bins a; Ret (Z.min fd 50)
      | Some b => Ret b
      end;
  '(counts, edges) ← histogram a b;
  Ret (if norm_hist then normalize counts else map (fun c => inject_Z (Z.of_nat c)) counts, edges).

(** The density half. scipy's [gaussian_kde] (fitted with a bandwidth
    method, or scipy's default when [None]), its evaluation, its Scott
    factor and [np.std] are parameters. *)
Section kde.
Context {K : Type}.
Variable gaussian_kde : option string -> list Q -> outcome K.
Variable kde_eval : K -> list Q -> list Q.
Variable scotts_factor : K -> Q.
Variable np_std : list Q -> Q.

(** [try: gaussian_kde(a, bw_method='scott') except TypeError:
    gaussian_kde(a)]: only a [TypeError] is retried. *)
Definition kde_fit (a : list Q) : outcome K :=
  match gaussian_kde (Some "scott") a with
  | Exc TypeError => gaussian_kde None a
  | o => o
  end.

(** [clip=None] is [(-inf, inf)]: [max(x, -inf) = x]. *)
Definition kde_part (a : list Q) (grid : option (list Q)) (gridsize : nat)
    (clip : option (Q * Q)) : outcome (list Q * list Q) :=
  km ← kde_fit a;
  let bw := (scotts_factor km * np_std a)%Q in
  g ← match grid with
      | Some g => Ret g
      | None =>
          mn ← arr_min a; mx ← arr_max a;
          let smin := (mn - bw * 3)%Q in
          let smax := (mx + bw * 3)%Q in
          match clip with
          | None => Ret (linspace smin smax gridsize)
          | Some (c0, c1) => Ret (linspace (qmax smin c0) (qmin smax c1) gridsize)
          end
      end;
  Ret (g, kde_eval km g).

Definition distributions (a : list Q) (hist : bool) (bins : option Z) (norm_hist kde : bool)
    (grid : option (list Q)) (gridsize : nat) (clip : option (Q * Q)) : outcome dist_result :=
  h ← (if hist then outcome_map Some (hist_part a bins norm_hist) else Ret None);
  d ← (if kde then outcome_map Some (kde_part a grid gridsize clip) else Ret None);
  Ret (match h, d with
       | Some (c, e), None => DHist c e
       | None, Some (g, y) => DKde g y
       | Some (c, e), Some (g, y) => DBoth c e g y
       | None, None => DNone
       end).
End kde.

(** ** The ceiling of a cube root *)

Section least_from.
Variable P : Z -> bool.

(** The search from [k] with [f] steps, when [P] holds at [k + f],
    returns the first point from [k] on where [P] holds. *)
Lemma least_from_spec k f :
  P (k + Z.of_nat f)%Z = true ->
  P (least_from P k f) = true /\ (k <= least_from P k f <= k + Z.of_nat f)%Z /\
  forall j, (k <= j < least_from P k f)%Z -> P j = false.
Proof.
  revert k. induction f as [|f IH]; intros k Hf; simpl.
  - rewrite Z.add_0_r in Hf. split; [done|]. split; [lia|]. intros; lia.
  - destruct (P k) eqn:Ek.
    + split; [done|]. split; [lia|]. intros; lia.
    + destruct (IH (k + 1)%Z) as (Hr & Hb & Hl); [by replace (k + 1 + Z.of_nat f)%Z with (k + Z.of_nat (S f))%Z by lia|].
      split; [done|]. split; [lia|]. intros j Hj.
      destruct (Z.eq_dec j k) as [->|]; [done|]. apply Hl. lia.
Qed.
End least_from.

Lemma cube_Z_mono (a b : Z) : (a <= b)%Z -> (a * a * a <= b * b * b)%Z.
Proof. intros H. assert (0 <= a * a + a * b + b * b)%Z by nia. nia. Qed.

Lemma Qle_bool_inject (X : Q) (z : Z) : Qle_bool X (inject_Z z) = true <-> (X <= inject_Z z)%Q.
Proof. apply Qle_bool_iff. Qed.

(** [ceil_cbrt X] is the ceiling of the real cube root of [X]: the
    least integer whose cube is at least [X]. *)
Lemma ceil_cbrt_spec (X : Q) :
  (X <= inject_Z (ceil_cbrt X * ceil_cbrt X * ceil_cbrt X))%Q /\
  (inject_Z ((ceil_cbrt X - 1) * (ceil_cbrt X - 1) * (ceil_cbrt X - 1)) < X)%Q.
Proof.
  unfold ceil_cbrt. set (B := (Z.abs (Qceiling X) + 1)%Z).
  set (P := fun k => Qle_bool X (inject_Z (k * k * k))).
  assert (1 <= B)%Z as HB by lia.
  assert (inject_Z (- B * - B * - B) < X)%Q as Hlow.
  { pose proof (Qceiling_lt X) as Hc. eapply Qle_lt_trans; [|exact Hc].
    rewrite <- Zle_Qle. nia. }
  assert (P B = true) as Hhigh.
  { apply Qle_bool_inject. eapply Qle_trans; [apply Qle_ceiling|]. rewrite <- Zle_Qle. nia. }
  destruct (least_from_spec P (- B)%Z (Z.to_nat (2 * B))) as (Hr & Hb & Hl).
  { by replace (- B + Z.of_nat (Z.to_nat (2 * B)))%Z with B by lia. }
  set (r := least_from P (- B)%Z (Z.to_nat (2 * B))) in *.
  split; [by apply Qle_bool_inject|].
  destruct (Z.eq_dec r (- B)%Z) as [Er|Er].
  - eapply Qle_lt_trans; [|exact Hlow]. rewrite <- Zle_Qle. apply cube_Z_mono. lia.
  - apply Qnot_le_lt. intros Hle. apply Qle_bool_inject in Hle.
    assert (P (r - 1)%Z = false) as Hf by (apply Hl; lia).
    unfold P in Hf. by rewrite Hle in Hf.
Qed.

(** ** Percentiles *)

#[export] Instance Qle_Transitive : Transitive Qle := Qle_trans.
#[export] Instance Qle_Reflexive : Reflexive Qle := Qle_refl.

Lemma sort_Q_sorted a : StronglySorted Qle (sort_Q a).
Proof. apply StronglySorted_merge_sort; apply _. Qed.

Lemma length_sort_Q a : length (sort_Q a) = length a.
Proof. apply Permutation_length, merge_sort_Permutation. Qed.

Lemma sort_Q_replicate n c : sort_Q (replicate n c) = replicate n c.
Proof. symmetry. apply replicate_Permutation. symmetry. apply merge_sort_Permutation. Qed.

Lemma sorted_lookup_le (s : list Q) i j x y :
  StronglySorted Qle s -> i <= j -> s !! i = Some x -> s !! j = Some y -> (x <= y)%Q.
Proof.
  revert i j. induction s as [|z s IH]; intros i j Hs Hij Hi Hj; [done|].
  apply StronglySorted_inv in Hs as [Hs Hall].
  destruct i as [|i], j as [|j]; simplify_eq/=; [apply Qle_refl|..|lia|].
  - by apply (Forall_lookup_1 _ _ _ _ Hall Hj).
  - apply (IH i j); auto with lia.
Qed.

Lemma lerp_bounds (lo hi g : Q) :
  (lo <= hi)%Q -> (0 <= g <= 1)%Q -> (lo <= lo + g * (hi - lo) <= hi)%Q.
Proof.
  intros Hlh [Hg0 Hg1]. assert (0 <= hi - lo)%Q as Hd by lra.
  pose proof (Qmult_le_0_compat _ _ Hg0 Hd).
  pose proof (Qmult_le_compat_r _ _ _ Hg1 Hd). lra.
Qed.

Lemma lerp_mono (lo hi g1 g2 : Q) :
  (lo <= hi)%Q -> (g1 <= g2)%Q -> (lo + g1 * (hi - lo) <= lo + g2 * (hi - lo))%Q.
Proof. intros Hlh Hg. pose proof (Qmult_le_compat_r g1 g2 (hi - lo) Hg ltac:(lra)). lra. Qed.

(** The virtual index of a percentile between 0 and 100 lies in
    [[0, n - 1]]: its floor indexes the array, and [gamma] is in
    [[0, 1)]. *)
Lemma pos_index (n : nat) (pos : Q) :
  1 <= n -> (0 <= pos <= inject_Z (Z.of_nat n - 1))%Q ->
  Z.to_nat (Qfloor pos) < n /\ (0 <= pos - inject_Z (Qfloor pos) <= 1)%Q /\
  Z.of_nat (Z.to_nat (Qfloor pos)) = Qfloor pos.
Proof.
  intros Hn [H0 H1].
  pose proof (Qfloor_resp_le _ _ H0) as F0. pose proof (Qfloor_resp_le _ _ H1) as F1.
  rewrite Qfloor_Z in F1. change (Qfloor 0) with 0%Z in F0.
  pose proof (Qfloor_le pos). pose proof (Qlt_floor pos) as Hlt.
  rewrite inject_Z_plus in Hlt. change (inject_Z 1) with 1%Q in Hlt.
  split; [lia|]. split; [lra|lia].
Qed.

Lemma percentile_pos (a : list Q) (q : Q) :
  a <> [] -> (0 <= q <= 100)%Q ->
  (0 <= q / 100 * inject_Z (Z.of_nat (length (sort_Q a)) - 1) <= inject_Z (Z.of_nat (length (sort_Q a)) - 1))%Q.
Proof.
  intros Ha Hq. rewrite length_sort_Q. destruct a as [|x a]; [done|].
  assert (0 <= inject_Z (Z.of_nat (length (x :: a)) - 1))%Q as Hn.
  { change 0%Q with (inject_Z 0). rewrite <- Zle_Qle. simpl. lia. }
  assert (0 <= q / 100 <= 1)%Q as Hq' by (unfold Qdiv; change (/ 100)%Q with (1 # 100)%Q; split; lra).
  split; [apply Qmult_le_0_compat; [apply Hq'|exact Hn]|].
  rewrite <- (Qmult_1_l (inject_Z _)) at 2. apply Qmult_le_compat_r; lra.
Qed.

Section interp.
Context (s : list Q) (Hs : StronglySorted Qle s) (Hn : 1 <= length s).

Lemma interp_neighbours pos :
  (0 <= pos <= inject_Z (Z.of_nat (length s) - 1))%Q ->
  exists lo, s !! Z.to_nat (Qfloor pos) = Some lo /\
    (lo <= default lo (s !! S (Z.to_nat (Qfloor pos))))%Q /\
    interp s pos = (lo + (pos - inject_Z (Qfloor pos)) * (default lo (s !! S (Z.to_nat (Qfloor pos))) - lo))%Q.
Proof.
  intros Hp. destruct (pos_index _ _ Hn Hp) as (Hi & _ & _).
  destruct (lookup_lt_is_Some_2 s _ Hi) as [lo Hlo]. exists lo. split; [done|].
  unfold interp. rewrite Hlo. split; [|done].
  destruct (s !! S _) as [hi|] eqn:Hhi; simpl; [|apply Qle_refl].
  eapply sorted_lookup_le; [exact Hs| |exact Hlo|exact Hhi]. lia.
Qed.

(** The interpolated value lies between two values of the array. *)
Lemma interp_between pos :
  (0 <= pos <= inject_Z (Z.of_nat (length s) - 1))%Q ->
  exists lo hi, lo ∈ s /\ hi ∈ s /\ (lo <= interp s pos <= hi)%Q.
Proof.
  intros Hp. destruct (pos_index _ _ Hn Hp) as (_ & Hg & _).
  destruct (interp_neighbours pos Hp) as (lo & Hlo & Hle & ->).
  exists lo, (default lo (s !! S (Z.to_nat (Qfloor pos)))).
  split; [by eapply list_elem_of_lookup_2|]. split.
  - destruct (s !! S _) eqn:E; simpl; [by eapply list_elem_of_lookup_2|by eapply list_elem_of_lookup_2].
  - by apply lerp_bounds.
Qed.

(** Linear interpolation in a sorted array is monotone in the
    virtual index. *)
Lemma interp_mono p1 p2 :
  (0 <= p1)%Q -> (p1 <= p2)%Q -> (p2 <= inject_Z (Z.of_nat (length s) - 1))%Q ->
  (interp s p1 <= interp s p2)%Q.
Proof.
  intros H0 H12 H2.
  assert (0 <= p1 <= inject_Z (Z.of_nat (length s) - 1))%Q as Hp1 by lra.
  assert (0 <= p2 <= inject_Z (Z.of_nat (length s) - 1))%Q as Hp2 by lra.
  destruct (pos_index _ _ Hn Hp1) as (Hi1 & Hg1 & Hz1), (pos_index _ _ Hn Hp2) as (Hi2 & Hg2 & Hz2).
  pose proof (Qfloor_resp_le _ _ H12) as Hf.
  destruct (interp_neighbours p1 Hp1) as (lo1 & Hlo1 & Hle1 & ->).
  destruct (interp_neighbours p2 Hp2) as (lo2 & Hlo2 & Hle2 & ->).
  destruct (Z.eq_dec (Qfloor p1) (Qfloor p2)) as [Ef|Ef].
  - rewrite <- Ef in Hlo2 |- *. rewrite Hlo1 in Hlo2. injection Hlo2 as <-.
    apply lerp_mono; [done|lra].
  - assert (S (Z.to_nat (Qfloor p1)) <= Z.to_nat (Qfloor p2)) as Hlt by lia.
    destruct (lookup_lt_is_Some_2 s (S (Z.to_nat (Qfloor p1)))) as [h1 Hh1]; [lia|].
    rewrite Hh1 in Hle1 |- *. simpl in Hle1 |- *.
    pose proof (sorted_lookup_le _ _ _ _ _ Hs Hlt Hh1 Hlo2).
    pose proof (lerp_bounds lo1 h1 _ Hle1 Hg1). pose proof (lerp_bounds lo2 _ _ Hle2 Hg2). lra.
Qed.
End interp.

(** ** Range and interquartile range *)

Lemma elem_of_sort_Q x a : x ∈ sort_Q a -> x ∈ a.
Proof. intros H. by rewrite <- (merge_sort_Permutation Qle a). Qed.

(** A fold that keeps one of its two arguments, below both in [R],
    ends below every element. *)
Lemma foldl_select_bound (R : relation Q) `{!Transitive R, !Reflexive R} (f : Q -> Q -> Q) :
  (forall x z, R (f x z) x /\ R (f x z) z) ->
  forall x l y, y ∈ x :: l -> R (foldl f x l) y.
Proof.
  intros Hf x l. revert x. induction l as [|z l IH]; intros x y Hy; simpl.
  - apply list_elem_of_singleton in Hy as ->. reflexivity.
  - destruct (Hf x z) as [Hx Hz].
    assert (R (foldl f (f x z) l) (f x z)) as Hm by (apply IH; left).
    apply elem_of_cons in Hy as [Hy|[Hy|Hy]%elem_of_cons]; [subst y; by etrans|subst y; by etrans|].
    apply IH. by right.
Qed.

Lemma arr_min_le a mn y : arr_min a = Ret mn -> y ∈ a -> (mn <= y)%Q.
Proof.
  destruct a as [|x l]; intros [= <-] Hy. apply (foldl_select_bound Qle); [|done].
  intros u v. unfold qmin. destruct (Qle_bool_reflect u v); split; lra.
Qed.

Lemma arr_max_ge a mx y : arr_max a = Ret mx -> y ∈ a -> (y <= mx)%Q.
Proof.
  destruct a as [|x l]; intros [= <-] Hy. apply (foldl_select_bound (flip Qle)); [|done].
  intros u v. unfold qmax, flip. destruct (Qle_bool_reflect u v); split; lra.
Qed.

(** A percentile between 0 and 100 lies between [a.min()] and
    [a.max()], and the 25th is at most the 75th. *)
Lemma percentile_range a q mn mx :
  arr_min a = Ret mn -> arr_max a = Ret mx -> (0 <= q <= 100)%Q ->
  (mn <= percentile a q <= mx)%Q.
Proof.
  intros Hmn Hmx Hq. assert (a <> []) as Ha by (by intros ->).
  assert (1 <= length (sort_Q a)) by (rewrite length_sort_Q; destruct a; [done|simpl; lia]).
  destruct (interp_between _ (sort_Q_sorted a) ltac:(done) _ (percentile_pos a q Ha Hq))
    as (lo & hi & Hlo & Hhi & Hb).
  apply elem_of_sort_Q in Hlo, Hhi.
  pose proof (arr_min_le _ _ _ Hmn Hlo). pose proof (arr_max_ge _ _ _ Hmx Hhi).
  unfold percentile. lra.
Qed.

(** Percentiles grow with [q]. *)
Lemma percentile_mono a q1 q2 :
  a <> [] -> (0 <= q1)%Q -> (q1 <= q2)%Q -> (q2 <= 100)%Q -> (percentile a q1 <= percentile a q2)%Q.
Proof.
  intros Ha H1 H12 H2. unfold percentile.
  assert (1 <= length (sort_Q a)) by (rewrite length_sort_Q; destruct a; [done|simpl; lia]).
  pose proof (percentile_pos a q1 Ha ltac:(lra)) as [Hp1 _].
  pose proof (percentile_pos a q2 Ha ltac:(lra)) as [_ Hp2].
  set (n := inject_Z (Z.of_nat (length (sort_Q a)) - 1)) in *.
  assert (q1 / 100 * n <= q2 / 100 * n)%Q.
  { apply Qmult_le_compat_r; [|unfold n; change 0%Q with (inject_Z 0); rewrite <- Zle_Qle; lia].
    unfold Qdiv. apply Qmult_le_compat_r; [done|apply Qle_bool_iff; reflexivity]. }
  by apply interp_mono; [apply sort_Q_sorted|done|done| |done].
Qed.

Lemma iqr_nonneg a : (0 <= iqr a)%Q.
Proof.
  unfold iqr. destruct a as [|x l]; [vm_compute; discriminate|].
  pose proof (percentile_mono (x :: l) 25 75 ltac:(done) ltac:(lra) ltac:(lra) ltac:(lra)). lra.
Qed.

Lemma iqr_le_range a mn mx :
  arr_min a = Ret mn -> arr_max a = Ret mx -> (iqr a <= mx - mn)%Q.
Proof.
  intros Hmn Hmx. unfold iqr.
  pose proof (percentile_range a 75 mn mx Hmn Hmx ltac:(lra)).
  pose proof (percentile_range a 25 mn mx Hmn Hmx ltac:(lra)). lra.
Qed.

(** Every percentile of a constant array is the constant. *)
Lemma percentile_replicate n c q :
  1 <= n -> (0 <= q <= 100)%Q -> (percentile (replicate n c) q == c)%Q.
Proof.
  intros Hn Hq. assert (replicate n c <> []) as Ha by (destruct n; [lia|done]).
  assert (1 <= length (sort_Q (replicate n c))) by (by rewrite length_sort_Q, length_replicate).
  destruct (interp_between _ (sort_Q_sorted _) ltac:(done) _ (percentile_pos _ q Ha Hq))
    as (lo & hi & Hlo & Hhi & Hb).
  rewrite sort_Q_replicate in Hlo, Hhi.
  apply elem_of_replicate in Hlo as [-> _], Hhi as [-> _]. unfold percentile. lra.
Qed.

Lemma iqr_replicate n c : 1 <= n -> (iqr (replicate n c) == 0)%Q.
Proof.
  intros Hn. unfold iqr.
  rewrite (percentile_replicate n c 75), (percentile_replicate n c 25) by (done || lra). ring.
Qed.


(** ** The Freedman-Diaconis count *)

Lemma arr_min_max_ok a : a <> [] -> exists mn mx, arr_min a = Ret mn /\ arr_max a = Ret mx.
Proof. destruct a; [done|]. intros _. by do 2 eexists. Qed.

Lemma cube_scale (q : Q) (z : Z) :
  (cube (2 * q * inject_Z z) == 8 * cube q * inject_Z (z * z * z))%Q.
Proof. unfold cube. rewrite !inject_Z_mult. ring. Qed.

Lemma cube_pos (q : Q) : (0 < q)%Q -> (0 < cube q)%Q.
Proof. intros H. unfold cube. repeat apply Qmult_lt_0_compat; done. Qed.

Lemma Qdiv_le_iff (a b c : Q) : (0 < c)%Q -> (a / c <= b)%Q <-> (a <= b * c)%Q.
Proof.
  intros Hc. assert (~ c == 0)%Q as Hc0 by (intros E; rewrite E in Hc; exact (Qlt_irrefl 0 Hc)).
  split; intros H.
  - apply (Qmult_le_compat_r _ _ c) in H; [|lra]. by rewrite (Qmult_comm (a / c) c), Qmult_div_r in H.
  - by apply Qle_shift_div_r.
Qed.

Lemma Qdiv_lt_iff (a b c : Q) : (0 < c)%Q -> (b < a / c)%Q <-> (b * c < a)%Q.
Proof.
  intros Hc. assert (~ c == 0)%Q as Hc0 by (intros E; rewrite E in Hc; exact (Qlt_irrefl 0 Hc)).
  split; intros H.
  - apply (Qmult_lt_compat_r _ _ c) in H; [|done]. by rewrite (Qmult_comm (a / c) c), Qmult_div_r in H.
  - by apply Qlt_shift_div_l.
Qed.

Lemma iqr_pos a : ~ (iqr a == 0)%Q -> (0 < iqr a)%Q.
Proof. pose proof (iqr_nonneg a) as Hn. intros Hq. apply Qle_lteq in Hn as [|Hn]; [done|]. by destruct Hq. Qed.

(** The rule's count when the interquartile range is not zero, from
    [ceil_cbrt_spec]. *)
Lemma fd_bins_cbrt a mn mx :
  arr_min a = Ret mn -> arr_max a = Ret mx -> ~ (iqr a == 0)%Q ->
  freedman_diaconis_bins a =
    Ret (ceil_cbrt (cube (mx - mn) * inject_Z (Z.of_nat (length a)) / (8 * cube (iqr a)))%Q).
Proof.
  intros Hmn Hmx Hq. unfold freedman_diaconis_bins. rewrite Hmn, Hmx.
  by destruct (Qeq_bool_reflect (iqr a) 0).
Qed.

(** Every non-empty array gets at least one bin. *)
Lemma fd_bins_pos a : a <> [] -> exists k, freedman_diaconis_bins a = Ret k /\ (1 <= k)%Z.
Proof.
  intros Ha. destruct (arr_min_max_ok a Ha) as (mn & mx & Hmn & Hmx).
  assert (1 <= length a) by (destruct a; [done|simpl; lia]).
  destruct (Qeq_bool_reflect (iqr a) 0) as [Hq|Hq].
  - exists (Z.sqrt (Z.of_nat (length a))). unfold freedman_diaconis_bins.
    destruct (Qeq_bool_reflect (iqr a) 0); [|done]. destruct (length a) as [|n]; [lia|].
    split; [done|]. change 1%Z with (Z.sqrt 1). apply Z.sqrt_le_mono. lia.
  - rewrite (fd_bins_cbrt a mn mx Hmn Hmx Hq). eexists; split; [done|].
    set (k := ceil_cbrt _). pose proof (proj1 (ceil_cbrt_spec (cube (mx - mn) * inject_Z (Z.of_nat (length a)) / (8 * cube (iqr a)))%Q)) as Hk.
    fold k in Hk. apply iqr_pos in Hq. pose proof (iqr_le_range a mn mx Hmn Hmx).
    assert (0 < cube (mx - mn) * inject_Z (Z.of_nat (length a)) / (8 * cube (iqr a)))%Q as Hx.
    { apply Qlt_shift_div_l; [pose proof (cube_pos _ Hq); lra|]. rewrite Qmult_0_l.
      apply Qmult_lt_0_compat; [apply cube_pos; lra|]. change 0%Q with (inject_Z 0). rewrite <- Zlt_Qlt. lia. }
    assert (0 < k * k * k)%Z as Hk3 by (rewrite Zlt_Qlt; change (inject_Z 0) with 0%Q; lra).
    nia.
Qed.

(** ** Equal-width bins *)

(** The [j]-th edge of [k] equal bins over [[lo, hi]]. *)
Definition edge (lo hi : Q) (k j : nat) : Q :=
  (lo + inject_Z (Z.of_nat j) * ((hi - lo) / inject_Z (Z.of_nat k)))%Q.

(** The spec's binning: [x] is in bin [j] when it is between the [j]-th
    and the next edge, the last bin closed on the right. *)
Definition in_bin (lo hi : Q) (k j : nat) (x : Q) : bool :=
  Qle_bool (edge lo hi k j) x &&
  (Qlt_bool x (edge lo hi k (S j)) || (Nat.eqb j (k - 1) && Qle_bool x hi)).

Lemma Qtrunc_floor (q : Q) : (0 <= q)%Q -> Qtrunc q = Qfloor q.
Proof.
  destruct q as [n d]. unfold Qtrunc, Qle. simpl. intros Hn. rewrite Z.mul_1_r in Hn.
  by apply Z.quot_div_nonneg.
Qed.

Lemma length_linspace lo hi num : length (linspace lo hi num) = num.
Proof. unfold linspace. by rewrite length_map, length_seq. Qed.

Lemma inject_Z_nat_pos (k : nat) : 1 <= k -> (0 < inject_Z (Z.of_nat k))%Q.
Proof. intros Hk. change 0%Q with (inject_Z 0). rewrite <- Zlt_Qlt. lia. Qed.

(** The points of [linspace lo hi (k + 1)] are the [k + 1] edges. *)
Lemma linspace_lookup lo hi k j :
  1 <= k -> j <= k ->
  exists e, linspace lo hi (S k) !! j = Some e /\ (e == edge lo hi k j)%Q.
Proof.
  intros Hk Hj. unfold linspace. rewrite list_lookup_fmap, lookup_seq_lt by lia.
  eexists; split; [reflexivity|]. unfold edge. rewrite Nat.add_0_l.
  pose proof (inject_Z_nat_pos k Hk) as Hk'.
  replace (S k - 1) with k by lia. replace (Z.of_nat (S k) - 1)%Z with (Z.of_nat k) by lia.
  destruct (Nat.ltb_spec 1 (S k)); [|lia]. destruct (Nat.eqb_spec j k) as [->|Hne]; simpl.
  - field. lra.
  - ring.
Qed.

Lemma edge_at_linspace lo hi k (i : Z) :
  1 <= k -> (0 <= i <= Z.of_nat k)%Z ->
  (edge_at (linspace lo hi (S k)) i == edge lo hi k (Z.to_nat i))%Q.
Proof.
  intros Hk Hi. unfold edge_at. destruct (Z.ltb_spec i 0); [lia|].
  destruct (linspace_lookup lo hi k (Z.to_nat i) Hk ltac:(lia)) as (e & -> & He). exact He.
Qed.

Lemma floor_ge_iff (z : Z) (f : Q) : (z <= Qfloor f)%Z <-> (inject_Z z <= f)%Q.
Proof.
  split; intros H.
  - eapply Qle_trans; [|apply Qfloor_le]. by rewrite <- Zle_Qle.
  - rewrite <- (Qfloor_Z z). by apply Qfloor_resp_le.
Qed.

Lemma floor_lt_iff (z : Z) (f : Q) : (Qfloor f < z)%Z <-> (f < inject_Z z)%Q.
Proof.
  split; intros H.
  - apply Qnot_le_lt. intros Hle. apply floor_ge_iff in Hle. lia.
  - destruct (Z.lt_ge_cases (Qfloor f) z) as [|Hge]; [done|]. apply floor_ge_iff in Hge. lra.
Qed.

Section bins.
Context (lo hi : Q) (k : nat) (Hlh : (lo < hi)%Q) (Hk : 1 <= k).

(** [norm = n_equal_bins / (last_edge - first_edge)]. *)
Let m : Q := (inject_Z (Z.of_nat k) / (hi - lo))%Q.

Lemma norm_pos : (0 < m)%Q.
Proof. apply Qlt_shift_div_l; [lra|]. rewrite Qmult_0_l. by apply inject_Z_nat_pos. Qed.

(** Below the [j]-th edge exactly when the scaled offset is below [j]. *)
Lemma edge_le_iff j x :
  (edge lo hi k j <= x)%Q <-> (inject_Z (Z.of_nat j) <= (x - lo) * m)%Q.
Proof.
  pose proof (inject_Z_nat_pos k Hk). pose proof norm_pos.
  assert (inject_Z (Z.of_nat j) * ((hi - lo) / inject_Z (Z.of_nat k)) * m == inject_Z (Z.of_nat j))%Q as Hc.
  { unfold m. field. split; intros E; lra. }
  unfold edge. transitivity (inject_Z (Z.of_nat j) * ((hi - lo) / inject_Z (Z.of_nat k)) <= x - lo)%Q;
    [split; intros; lra|].
  rewrite <- (Qmult_le_r _ _ m) by done. by rewrite Hc.
Qed.

Lemma edge_lt_iff j x :
  (x < edge lo hi k j)%Q <-> ((x - lo) * m < inject_Z (Z.of_nat j))%Q.
Proof.
  split; intros H; apply Qnot_le_lt; intros Hle.
  - apply edge_le_iff in Hle. lra.
  - apply edge_le_iff in Hle. lra.
Qed.

Lemma scaled_range x : (lo <= x <= hi)%Q -> (0 <= (x - lo) * m <= inject_Z (Z.of_nat k))%Q.
Proof.
  intros Hx. pose proof norm_pos.
  assert ((hi - lo) * m == inject_Z (Z.of_nat k))%Q as Hhm.
  { unfold m. field. intros E. lra. }
  split; [apply Qmult_le_0_compat; lra|]. rewrite <- Hhm.
  apply Qmult_le_compat_r; lra.
Qed.
(** numpy's index, corrections included, is the floor of the scaled
    offset, the right end moved into the last bin: the corrections
    never fire when the arithmetic is exact. *)
Lemma bin_index_eq x : (lo <= x <= hi)%Q ->
  bin_index lo hi k (linspace lo hi (S k)) x = Z.min (Qfloor ((x - lo) * m)) (Z.of_nat k - 1).
Proof.
  intros Hx. destruct (scaled_range x Hx) as [F0 Fk].
  unfold bin_index. cbv zeta. change (inject_Z (Z.of_nat k) / (hi - lo))%Q with m.
  rewrite Qtrunc_floor by lra. set (f := ((x - lo) * m)%Q) in *.
  assert (0 <= Qfloor f)%Z as I0 by (apply floor_ge_iff; done).
  assert (Qfloor f <= Z.of_nat k)%Z as Ik.
  { apply Z.lt_succ_r, floor_lt_iff. rewrite <- Z.add_1_r, inject_Z_plus. change (inject_Z 1) with 1%Q. lra. }
  set (i1 := if (Qfloor f =? Z.of_nat k)%Z then (Qfloor f - 1)%Z else Qfloor f).
  assert (i1 = Z.min (Qfloor f) (Z.of_nat k - 1)) as Ei1 by (unfold i1; destruct (Z.eqb_spec (Qfloor f) (Z.of_nat k)); lia).
  assert (Qlt_bool x (edge_at (linspace lo hi (S k)) i1) = false) as ->.
  { unfold Qlt_bool. apply negb_false_iff, Qle_bool_iff. rewrite edge_at_linspace by lia.
    apply edge_le_iff. rewrite Z2Nat.id by lia. apply floor_ge_iff. fold f. lia. }
  destruct (Z.eqb_spec i1 (Z.of_nat k - 1)) as [E|E]; [by rewrite andb_false_r|].
  assert (Qle_bool (edge_at (linspace lo hi (S k)) (i1 + 1)) x = false) as ->; [|done].
  apply not_true_iff_false. rewrite Qle_bool_iff, edge_at_linspace by lia.
  rewrite edge_le_iff, Z2Nat.id by lia. intros Hle. apply floor_ge_iff in Hle. fold f in Hle. lia.
Qed.

(** Hence numpy puts [x] in bin [j] exactly when the spec's binning
    does. *)
Lemma bin_index_in_bin x j : (lo <= x <= hi)%Q -> j < k ->
  bin_index lo hi k (linspace lo hi (S k)) x = Z.of_nat j <-> in_bin lo hi k j x = true.
Proof.
  intros Hx Hj. rewrite bin_index_eq by done.
  unfold in_bin, Qlt_bool. rewrite andb_true_iff, orb_true_iff, andb_true_iff, negb_true_iff, Nat.eqb_eq.
  assert (Qle_bool x hi = true) as -> by (apply Qle_bool_iff; lra).
  rewrite <- not_true_iff_false, !Qle_bool_iff, !edge_le_iff, <- !floor_ge_iff. lia.
Qed.
Lemma bin_index_range x : (lo <= x <= hi)%Q ->
  (0 <= bin_index lo hi k (linspace lo hi (S k)) x < Z.of_nat k)%Z.
Proof.
  intros Hx. rewrite bin_index_eq by done. destruct (scaled_range x Hx) as [F0 _].
  assert (0 <= Qfloor ((x - lo) * m))%Z by (apply floor_ge_iff; done). lia.
Qed.
End bins.

(** ** [np.bincount] *)

(** How many of the indices are [j]. *)
Definition occurrences (j : nat) (idx : list Z) : nat :=
  length (List.filter (fun i => (i =? Z.of_nat j)%Z) idx).

Lemma length_incr_at i c : length (incr_at i c) = length c.
Proof. revert i. induction c as [|x c IH]; intros [|i]; simpl; auto. Qed.

Lemma lookup_incr_at i c j :
  incr_at i c !! j = if decide (i = j) then S <$> c !! j else c !! j.
Proof.
  revert i j. induction c as [|x c IH]; intros [|i] [|j]; simpl; repeat case_decide; try done; try lia.
  all: rewrite IH; case_decide; (done || lia).
Qed.

Lemma sum_incr_at i c : i < length c -> sum_list (incr_at i c) = S (sum_list c).
Proof.
  revert i. induction c as [|x c IH]; intros i Hi; simpl in Hi; [lia|].
  destruct i as [|i]; simpl; [lia|]. rewrite IH; lia.
Qed.

Section bincount.
Context (k : nat) (idx : list Z) (Hidx : Forall (fun i => 0 <= i < Z.of_nat k)%Z idx).

Let step := fun (c : list nat) (i : Z) => incr_at (Z.to_nat i) c.

Lemma foldl_incr_length c : length (foldl step c idx) = length c.
Proof.
  clear Hidx. revert c. induction idx as [|i l IH]; intros c; simpl; [done|].
  rewrite IH. apply length_incr_at.
Qed.

Lemma foldl_incr_lookup c j :
  length c = k -> foldl step c idx !! j = (fun v => v + occurrences j idx) <$> c !! j.
Proof.
  revert c. induction Hidx as [|i l Hi Hl IH]; intros c Hc; simpl.
  - unfold occurrences. simpl. destruct (c !! j); simpl; [f_equal; lia|done].
  - rewrite IH by (try done; cbv beta delta [step]; by rewrite length_incr_at). cbv beta delta [step]. rewrite lookup_incr_at.
    unfold occurrences. simpl.
    destruct (Z.eqb_spec i (Z.of_nat j)) as [->|Hne]; simpl.
    + rewrite decide_True by lia. destruct (c !! j); simpl; f_equal; lia.
    + rewrite decide_False by lia. done.
Qed.

Lemma foldl_incr_sum c :
  length c = k -> sum_list (foldl step c idx) = sum_list c + length idx.
Proof.
  revert c. induction Hidx as [|i l Hi Hl IH]; intros c Hc; simpl; [lia|].
  rewrite IH by (try done; cbv beta delta [step]; by rewrite length_incr_at). cbv beta delta [step]. rewrite sum_incr_at by lia. lia.
Qed.

Lemma bincount_len m : k <= m -> foldl (fun m i => Nat.max m (S (Z.to_nat i))) m idx = m.
Proof.
  revert m. induction Hidx as [|i l Hi Hl IH]; intros m Hm; simpl; [done|].
  rewrite Nat.max_l by lia. by apply IH.
Qed.

(** [np.bincount(idx, minlength=k)] on indices in [[0, k)]: one
    counter per bin, each the number of indices equal to it. *)
Lemma bincount_spec :
  exists counts, bincount k idx = Ret counts /\ length counts = k /\
    sum_list counts = length idx /\
    forall j, j < k -> counts !! j = Some (occurrences j idx).
Proof.
  unfold bincount.
  assert (existsb (fun i => (i <? 0)%Z) idx = false) as ->.
  { apply not_true_iff_false. rewrite existsb_exists. intros (i & Hin & Hneg).
    apply Z.ltb_lt in Hneg. rewrite List.Forall_forall in Hidx. specialize (Hidx i Hin). lia. }
  rewrite bincount_len by done. eexists; split; [reflexivity|]. split; [|split].
  - by rewrite foldl_incr_length, length_replicate.
  - rewrite foldl_incr_sum by (by rewrite length_replicate). rewrite sum_list_replicate. lia.
  - intros j Hj. rewrite foldl_incr_lookup by (by rewrite length_replicate).
    by rewrite lookup_replicate_2 by lia.
Qed.
End bincount.

(** ** The histogram *)

(** The outer edges of a non-empty array are its minimum and maximum,
    widened to a unit interval around a single value. *)
Lemma outer_edges_spec a :
  a <> [] ->
  exists lo hi, outer_edges a = Ret (lo, hi) /\ (lo < hi)%Q /\ Forall (fun x => lo <= x <= hi)%Q a.
Proof.
  intros Ha. destruct (arr_min_max_ok a Ha) as (mn & mx & Hmn & Hmx).
  assert (Forall (fun x => mn <= x <= mx)%Q a) as Hall.
  { apply List.Forall_forall. intros x Hx%list_elem_of_In.
    split; [by eapply arr_min_le|by eapply arr_max_ge]. }
  assert (mn <= mx)%Q as Hle.
  { destruct a as [|x l]; [done|]. inversion Hall as [|? ? [] _]; lra. }
  unfold outer_edges. destruct a as [|x l]; [done|]. rewrite Hmn. cbn [mbind outcome_bind].
  rewrite Hmx. cbn [mbind outcome_bind]. destruct (Qeq_bool_reflect mn mx) as [E|E].
  - do 2 eexists; split; [reflexivity|]. split; [lra|].
    eapply List.Forall_impl; [|exact Hall]. simpl. intros y Hy. lra.
  - do 2 eexists; split; [reflexivity|]. split; [|done].
    apply Qle_lteq in Hle as [|]; [done|]. by destruct E.
Qed.

(** [np.histogram(a, bins=b)] on a non-empty array with [b >= 1], in
    terms of its outer edges. *)
Lemma histogram_counts a b :
  a <> [] -> (1 <= b)%Z ->
  exists lo hi counts, outer_edges a = Ret (lo, hi) /\ (lo < hi)%Q /\
    histogram a b = Ret (counts, linspace lo hi (S (Z.to_nat b))) /\
    length counts = Z.to_nat b /\ sum_list counts = length a /\
    forall j, j < Z.to_nat b ->
      counts !! j = Some (length (List.filter (in_bin lo hi (Z.to_nat b) j) a)).
Proof.
  intros Ha Hb. destruct (outer_edges_spec a Ha) as (lo & hi & Hout & Hlt & Hall).
  set (k := Z.to_nat b). assert (1 <= k) as Hk by lia.
  set (g := bin_index lo hi k (linspace lo hi (S k))).
  assert (Forall (fun i => 0 <= i < Z.of_nat k)%Z (map g a)) as Hidx.
  { apply List.Forall_map. eapply List.Forall_impl; [|exact Hall]. intros x Hx. by apply bin_index_range. }
  destruct (bincount_spec k (map g a) Hidx) as (counts & Hbc & Hlen & Hsum & Hlk).
  exists lo, hi, counts. split; [done|]. split; [done|]. split.
  { unfold histogram. destruct (Z.ltb_spec b 1); [lia|]. rewrite Hout. cbn [mbind outcome_bind]. cbv zeta.
    unfold g, k in Hbc. rewrite forallb_filter_id; [by rewrite Hbc|].
    apply forallb_forall. intros x Hx. rewrite List.Forall_forall in Hall.
    destruct (Hall x Hx). apply andb_true_iff. split; by apply Qle_bool_iff. }
  split; [done|]. split; [by rewrite Hsum, length_map|].
  intros j Hj. rewrite Hlk by done. f_equal. unfold occurrences.
  rewrite filter_map_swap, length_map. f_equal. apply filter_ext_in.
  intros x Hx. rewrite List.Forall_forall in Hall. apply eq_true_iff_eq.
  rewrite Z.eqb_eq. apply (bin_index_in_bin lo hi k Hlt Hk x j); [by apply Hall|lia].
Qed.

Lemma outer_edges_minmax a mn mx :
  arr_min a = Ret mn -> arr_max a = Ret mx ->
  outer_edges a = Ret (if Qeq_bool mn mx then ((mn - (1 # 2))%Q, (mx + (1 # 2))%Q) else (mn, mx)).
Proof.
  intros Hmn Hmx. unfold outer_edges. destruct a as [|x l]; [done|].
  rewrite Hmn. cbn [mbind outcome_bind]. rewrite Hmx. cbn [mbind outcome_bind]. by destruct (Qeq_bool mn mx).
Qed.

(** C9. [np.histogram(a, bins=b)] with [b >= 1], whose outer edges are
    [a.min()] and [a.max()] (widened by [0.5] on each side when they are
    equal): the edges are the [b + 1] points of [linspace] between them,
    there is one count per bin, the counts add up to the array's length
    (every value is counted once), and the count of bin [j] is the number
    of values in the spec's equal-width bin [j] (closed on the left, the
    last bin closed on the right too), so numpy's index arithmetic and
    its corrections implement the spec's binning. *)
Theorem histogram_spec a b mn mx :
  arr_min a = Ret mn -> arr_max a = Ret mx -> (1 <= b)%Z ->
  let '(lo, hi) := if Qeq_bool mn mx then ((mn - (1 # 2))%Q, (mx + (1 # 2))%Q) else (mn, mx) in
  exists counts, histogram a b = Ret (counts, linspace lo hi (S (Z.to_nat b))) /\
    length counts = Z.to_nat b /\ sum_list counts = length a /\
    forall j, j < Z.to_nat b ->
      counts !! j = Some (length (List.filter (in_bin lo hi (Z.to_nat b) j) a)).
Proof.
  intros Hmn Hmx Hb. assert (a <> []) as Ha by (by intros ->).
  destruct (histogram_counts a b Ha Hb) as (lo & hi & counts & Hout & _ & Hh & Hrest).
  rewrite (outer_edges_minmax a mn mx Hmn Hmx) in Hout. injection Hout as Hout. rewrite Hout. by exists counts.
Qed.

(** [counts / counts.sum()] adds up to one when some value was
    counted. *)
Lemma normalize_sum (counts : list nat) :
  0 < sum_list counts -> (foldr Qplus 0 (normalize counts) == 1)%Q.
Proof.
  intros Hpos. unfold normalize. set (T := inject_Z (Z.of_nat (sum_list counts))).
  assert (0 < T)%Q as HT by (apply inject_Z_nat_pos; lia).
  assert (forall l : list nat, foldr Qplus 0 (map (fun c => inject_Z (Z.of_nat c) / T) l)
            == inject_Z (Z.of_nat (sum_list l)) / T)%Q as Hgen.
  { induction l as [|c l IH]; simpl; [unfold Qdiv; ring|].
    rewrite IH, Nat2Z.inj_add, inject_Z_plus. unfold Qdiv. ring. }
  rewrite Hgen. fold T. field. intros E. lra.
Qed.

(** C11. The Freedman-Diaconis count when the interquartile range is not
    zero: [k = ceil((max - min) / h)] with [h = 2 iqr / n^(1/3)], stated
    without roots: [k] is the least integer with
    [(max - min)^3 n <= (2 iqr k)^3]. *)
Theorem freedman_diaconis_ceiling a mn mx :
  arr_min a = Ret mn -> arr_max a = Ret mx -> ~ (iqr a == 0)%Q ->
  exists k, freedman_diaconis_bins a = Ret k /\
    (cube (mx - mn) * inject_Z (Z.of_nat (length a)) <= cube (2 * iqr a * inject_Z k))%Q /\
    (cube (2 * iqr a * inject_Z (k - 1)) < cube (mx - mn) * inject_Z (Z.of_nat (length a)))%Q.
Proof.
  intros Hmn Hmx Hq. rewrite (fd_bins_cbrt a mn mx Hmn Hmx Hq). eexists; split; [reflexivity|].
  apply iqr_pos in Hq. pose proof (cube_pos _ Hq) as Hc.
  assert (0 < 8 * cube (iqr a))%Q as HD by lra.
  destruct (ceil_cbrt_spec (cube (mx - mn) * inject_Z (Z.of_nat (length a)) / (8 * cube (iqr a)))%Q)
    as [Hup Hlow].
  rewrite !cube_scale, (Qmult_comm (8 * cube (iqr a))), (Qmult_comm (8 * cube (iqr a))).
  split; [by apply Qdiv_le_iff|by apply Qdiv_lt_iff].
Qed.

(** C23. The fallback for a constant array of [n >= 1] values is
    [int(np.sqrt(n))], the floor of the square root. *)
Theorem freedman_diaconis_constant n c :
  1 <= n -> freedman_diaconis_bins (replicate n c) = Ret (Z.sqrt (Z.of_nat n)).
Proof.
  intros Hn. unfold freedman_diaconis_bins. rewrite length_replicate.
  destruct (Qeq_bool_reflect (iqr (replicate n c)) 0) as [_|E]; [|by destruct E; apply iqr_replicate].
  by destruct n; [lia|].
Qed.

(** C10. [distributions(a, kde=False)] with the default [bins=None] and
    [norm_hist=True] on a non-empty array returns [(counts, bins)]: the
    bin count is the rule's count capped at 50 and at least 1, there is
    one count per bin and one edge more, and the normalised counts add
    up to one. *)
Theorem distributions_hist_default {K} (gk : option string -> list Q -> outcome K) ke sf sd
    a grid gridsize clip :
  a <> [] ->
  exists fd counts edges,
    freedman_diaconis_bins a = Ret fd /\ (1 <= Z.min fd 50 <= 50)%Z /\
    distributions gk ke sf sd a true None true false grid gridsize clip = Ret (DHist (normalize counts) edges) /\
    length counts = Z.to_nat (Z.min fd 50) /\ length edges = S (Z.to_nat (Z.min fd 50)) /\
    (foldr Qplus 0 (normalize counts) == 1)%Q.
Proof.
  intros Ha. destruct (fd_bins_pos a Ha) as (fd & Hfd & Hpos).
  destruct (histogram_counts a (Z.min fd 50) Ha ltac:(lia))
    as (lo & hi & counts & _ & _ & Hh & Hlen & Hsum & _).
  exists fd, counts, (linspace lo hi (S (Z.to_nat (Z.min fd 50)))).
  split; [done|]. split; [lia|]. split.
  { unfold distributions, hist_part. rewrite Hfd. cbn [mbind outcome_bind]. by rewrite Hh. }
  split; [done|]. split; [apply length_linspace|].
  apply normalize_sum. rewrite Hsum. destruct a; [done|simpl; lia].
Qed.

(** C24. Only a [TypeError] of the first [gaussian_kde] fit is retried:
    when the fit with [bw_method='scott'] raises [LinAlgError] (singular
    data), [distributions] raises it, whatever the fit with scipy's
    default bandwidth would give. *)
Theorem distributions_kde_linalg_error {K} (gk : option string -> list Q -> outcome K) ke sf sd
    a bins norm_hist grid gridsize clip :
  gk (Some "scott") a = Exc LinAlgError ->
  distributions gk ke sf sd a false bins norm_hist true grid gridsize clip = Exc LinAlgError.
Proof. intros H. unfold distributions, kde_part, kde_fit. by rewrite H. Qed.

(** ** Concrete runs *)

Definition sample : list Q := [1; 2; 2; 3; 10]%Q.
Definition sample9 : list Q := [1; 2; 2; 3; 10; 4; 5; 6; 7]%Q.

(** A density model that fits every array, and one for which the fit
    with Scott's factor raises [LinAlgError] (singular covariance). *)
Definition kde_ok : option string -> list Q -> outcome unit := fun _ _ => Ret tt.
Definition kde_singular : option string -> list Q -> outcome unit :=
  fun m _ => match m with Some _ => Exc LinAlgError | None => Ret tt end.
Definition kde_eval_id : unit -> list Q -> list Q := fun _ g => g.
Definition factor_one : unit -> Q := fun _ => 1%Q.
Definition std_one : list Q -> Q := fun _ => 1%Q.

Lemma histogram_spec_witness :
  arr_min sample = Ret 1%Q /\ arr_max sample = Ret 10%Q /\ (1 <= 3)%Z /\
  let '(lo, hi) := if Qeq_bool 1 10 then ((1 - (1 # 2))%Q, (10 + (1 # 2))%Q) else (1%Q, 10%Q) in
  exists counts, histogram sample 3 = Ret (counts, linspace lo hi (S (Z.to_nat 3))) /\
    length counts = Z.to_nat 3 /\ sum_list counts = length sample /\
    forall j, j < Z.to_nat 3 ->
      counts !! j = Some (length (List.filter (in_bin lo hi (Z.to_nat 3) j) sample)).
Proof.
  split; [reflexivity|]. split; [reflexivity|]. split; [lia|].
  apply histogram_spec; [reflexivity|reflexivity|lia].
Defined.

Lemma freedman_diaconis_ceiling_witness :
  arr_min sample9 = Ret 1%Q /\ arr_max sample9 = Ret 10%Q /\ ~ (iqr sample9 == 0)%Q /\
  exists k, freedman_diaconis_bins sample9 = Ret k /\
    (cube (10 - 1) * inject_Z (Z.of_nat (length sample9)) <= cube (2 * iqr sample9 * inject_Z k))%Q /\
    (cube (2 * iqr sample9 * inject_Z (k - 1)) < cube (10 - 1) * inject_Z (Z.of_nat (length sample9)))%Q.
Proof.
  assert (~ (iqr sample9 == 0)%Q) as Hq by (intros E; vm_compute in E; discriminate).
  split; [reflexivity|]. split; [reflexivity|]. split; [exact Hq|].
  by apply freedman_diaconis_ceiling.
Defined.

Lemma freedman_diaconis_constant_witness :
  1 <= 5 /\ freedman_diaconis_bins (replicate 5 0%Q) = Ret (Z.sqrt (Z.of_nat 5)).
Proof. split; [lia|]. apply freedman_diaconis_constant. lia. Defined.

Lemma distributions_hist_default_witness :
  sample <> [] /\
  exists fd counts edges,
    freedman_diaconis_bins sample = Ret fd /\ (1 <= Z.min fd 50 <= 50)%Z /\
    distributions kde_ok kde_eval_id factor_one std_one sample true None true false None 100 None =
      Ret (DHist (normalize counts) edges) /\
    length counts = Z.to_nat (Z.min fd 50) /\ length edges = S (Z.to_nat (Z.min fd 50)) /\
    (foldr Qplus 0 (normalize counts) == 1)%Q.
Proof. split; [discriminate|]. apply distributions_hist_default. discriminate. Defined.

Lemma distributions_kde_linalg_error_witness :
  kde_singular (Some "scott") sample = Exc LinAlgError /\
  distributions kde_singular kde_eval_id factor_one std_one sample false None true true None 100 None =
    Exc LinAlgError.
Proof. split; [reflexivity|]. apply distributions_kde_linalg_error. reflexivity. Defined.

(** A constant array of five values gets [int(sqrt(5)) = 2] bins, where
    the spec's fallback asks for [ceil(sqrt(5)) = 3]. *)
Theorem constant_five_values_two_bins :
  freedman_diaconis_bins (replicate 5 0%Q) = Ret 2%Z /\ (2 * 2 < 5 <= 3 * 3)%Z.
Proof. split; [vm_compute; reflexivity|lia]. Qed.

(** The default path on [[1, 2, 2, 3, 10]]: the interquartile range is
    1, so [h = 2 / 5^(1/3)] and [ceil(9 / h) = 8] bins of width [9/8];
    [10] is in the last (closed) bin. *)
Theorem sample_default_histogram :
  exists c e, distributions kde_ok kde_eval_id factor_one std_one sample true None false false None 100 None =
    Ret (DHist c e) /\ Forall2 Qeq c [3; 1; 0; 0; 0; 0; 0; 1]%Q /\ length e = 9.
Proof.
  eexists _, _. split; [vm_compute; reflexivity|].
  split; [|reflexivity]. repeat (constructor; [vm_compute; reflexivity|]). constructor.
Qed.
