(* ===== verification/Describe.v ===== *)
(** * Describe: [describe] (lines 315-324), the summary statistics

    [describe(data)] loops over [data.columns] and concatenates
    [data[[c]].describe()] to the right of the result
    ([pd.concat([result, ...], axis=1)]). pandas 1.x describes one column
    in one of two ways ([describe_1d]): a numeric column by count, mean,
    std, min, the 25/50/75% quantiles (linear interpolation, as
    [np.percentile]) and max ([describe_numeric_1d]); any other column by
    count, unique, top and freq, a datetime column also by first and last
    ([describe_categorical_1d]). The concatenation is an outer join on the
    statistic names: the row index grows by the names not yet present, in
    order of first appearance, and a column has NaN at a name it does not
    describe.

    Statistics are exact rationals; [std] is kept as the square root of
    the exact sample variance ([SSqrt]). The columns of the DataFrame are
    assumed to have distinct names ([data[[c]]] selects one column). *)

From S2P Require Import Prelude Cells Frame Distributions.
From stdpp Require Import sorting.
Close Scope Q_scope.

(** A cell of the summary table. *)
Inductive stat :=
| SCount (n : nat)   (** count, unique, freq *)
| SNum (q : Q)       (** mean, min, quantiles, max *)
| SSqrt (q : Q)      (** std: the square root of [q] *)
| SCell (c : cell)   (** top, first, last *)
| SNaN.

(** ** Numeric columns: [describe_numeric_1d] *)

Definition num_values (cells : list cell) : list Q := omap num_value cells.

Definition sumQ (a : list Q) : Q := foldr Qplus 0%Q a.

Definition mean (a : list Q) : Q := (sumQ a / inject_Z (Z.of_nat (length a)))%Q.

(** The sample variance ([ddof=1]); [Series.std()] is its square root. *)
Definition sample_var (a : list Q) : Q :=
  (sumQ (map (fun x => (x - mean a) * (x - mean a)) a) / inject_Z (Z.of_nat (length a) - 1))%Q.

(** pandas skips missing values; with no value the mean, min, quantiles
    and max are NaN, with fewer than two values the std is NaN. *)
Definition mean_stat (a : list Q) : stat :=
  match a with [] => SNaN | _ => SNum (mean a) end.

Definition std_stat (a : list Q) : stat :=
  if length a <? 2 then SNaN else SSqrt (sample_var a).

Definition outcome_stat (o : outcome Q) : stat :=
  match o with Ret q => SNum q | Exc _ => SNaN end.

Definition quantile_stat (a : list Q) (q : Q) : stat :=
  match a with [] => SNaN | _ => SNum (percentile a q) end.

Definition describe_numeric (cells : list cell) : list (string * stat) :=
  let a := num_values cells in
  [("count", SCount (count cells)); ("mean", mean_stat a); ("std", std_stat a);
   ("min", outcome_stat (arr_min a)); ("25%", quantile_stat a 25); ("50%", quantile_stat a 50);
   ("75%", quantile_stat a 75); ("max", outcome_stat (arr_max a))].

(** ** Other columns: [describe_categorical_1d] *)

(** [Series.value_counts()] sorts the counts, larger first. Values with
    equal counts keep their order of first appearance (the order of
    pandas' hash table, which is not specified; the theorems below do not
    depend on it). *)
Fixpoint insert_count (p : cell * nat) (l : list (cell * nat)) : list (cell * nat) :=
  match l with
  | [] => [p]
  | q :: t => if snd q <=? snd p then p :: q :: t else q :: insert_count p t
  end.

Fixpoint sort_counts (l : list (cell * nat)) : list (cell * nat) :=
  match l with
  | [] => []
  | p :: t => insert_count p (sort_counts t)
  end.

Definition count_of (cells : list cell) (u : cell) : nat :=
  length (List.filter (cell_eqb u) (dropna cells)).

(** A categorical column counts every category, those with no value
    included; any other column counts its distinct values. *)
Definition raw_counts (col : column) : list (cell * nat) :=
  match col_dtype col with
  | DCategory cats _ => map (fun u => (u, count_of (col_cells col) u)) cats
  | _ => value_counts (col_cells col)
  end.

Definition value_counts_sorted (col : column) : list (cell * nat) := sort_counts (raw_counts col).

Definition timestamps (cells : list cell) : list Z :=
  omap (fun c => match c with CTime t => Some t | _ => None end) cells.

Definition zmin_list (l : list Z) : Z := match l with [] => 0%Z | x :: t => foldl Z.min x t end.
Definition zmax_list (l : list Z) : Z := match l with [] => 0%Z | x :: t => foldl Z.max x t end.

Definition describe_categorical (col : column) : list (string * stat) :=
  let objcounts := value_counts_sorted col in
  let count_unique := length (List.filter (fun p => negb (snd p =? 0)) objcounts) in
  [("count", SCount (count (col_cells col))); ("unique", SCount count_unique)] ++
  match objcounts with
  | (top, freq) :: _ =>
      if 0 <? count_unique then
        if is_datetime_dtype (col_dtype col) then
          let ts := timestamps (col_cells col) in
          [("top", SCell top); ("freq", SCount freq);
           ("first", SCell (CTime (zmin_list ts))); ("last", SCell (CTime (zmax_list ts)))]
        else [("top", SCell top); ("freq", SCount freq)]
      else [("top", SNaN); ("freq", SNaN)]
  | [] => [("top", SNaN); ("freq", SNaN)]
  end.

(** [data[[c]].describe()]: a one-column DataFrame is described as its
    column is ([describe_1d]). *)
Definition describe_col (col : column) : list (string * stat) :=
  if is_numeric_dtype (col_dtype col) then describe_numeric (col_cells col)
  else describe_categorical col.

(** ** The concatenation *)

Record summary_table := mkSummary {
  sum_index : list string;
  sum_cols : list (string * list stat)
}.

Definition lookup_stat (k : string) (d : list (string * stat)) : stat :=
  match List.find (fun p => String.eqb (fst p) k) d with Some (_, x) => x | None => SNaN end.

Definition add_name (idx : list string) (k : string) : list string :=
  if existsb (String.eqb k) idx then idx else idx ++ [k].

Definition union_index (idx names : list string) : list string := foldl add_name idx names.

(** [pd.concat([result, d], axis=1)]: the index becomes the union, the
    columns already there get NaN at the new names, and [d] is reindexed
    on the union. *)
Definition concat_col (res : summary_table) (c : string) (d : list (string * stat)) : summary_table :=
  let idx := union_index (sum_index res) (map fst d) in
  mkSummary idx
    (map (fun p => (fst p, snd p ++ replicate (length idx - length (sum_index res)) SNaN)) (sum_cols res)
     ++ [(c, map (fun k => lookup_stat k d) idx)]).

Definition describe (t : table) : summary_table :=
  foldl (fun res col => concat_col res (col_name col) (describe_col col)) (mkSummary [] []) t.

(** ** The concatenation is an outer join *)

Section outer_join.

Lemma elem_of_add_name idx k j : j ∈ add_name idx k <-> j ∈ idx \/ j = k.
Proof.
  unfold add_name. destruct (existsb (String.eqb k) idx) eqn:E.
  - apply existsb_exists in E as (k' & Hk' & ->%String.eqb_eq).
    rewrite list_elem_of_In. naive_solver.
  - rewrite elem_of_app, list_elem_of_singleton. naive_solver.
Qed.

Lemma elem_of_union_index idx names j : j ∈ union_index idx names <-> j ∈ idx \/ j ∈ names.
Proof.
  unfold union_index. revert idx. induction names as [|k t IH]; intros idx; simpl.
  - rewrite elem_of_nil. naive_solver.
  - rewrite IH, elem_of_add_name, elem_of_cons. naive_solver.
Qed.

(** The union only appends names that were not in the index. *)
Lemma union_index_ext idx names :
  exists ext, union_index idx names = idx ++ ext /\ Forall (fun k => k ∉ idx) ext.
Proof.
  unfold union_index. revert idx. induction names as [|k t IH]; intros idx; simpl.
  - exists []. by rewrite app_nil_r.
  - destruct (IH (add_name idx k)) as (ext & -> & Hext). unfold add_name in *.
    destruct (existsb (String.eqb k) idx) eqn:E; [by exists ext|].
    exists (k :: ext). rewrite <- app_assoc. split; [done|]. constructor.
    + intros Hk%list_elem_of_In. assert (existsb (String.eqb k) idx = true) as E'
        by (apply existsb_exists; exists k; by rewrite String.eqb_refl). congruence.
    + eapply Forall_impl; [exact Hext|]. intros j Hj ?. apply Hj, elem_of_app. by left.
Qed.

Lemma lookup_stat_notin k d : k ∉ map fst d -> lookup_stat k d = SNaN.
Proof.
  intros Hk. unfold lookup_stat. destruct (List.find _ d) as [[k' x]|] eqn:E; [|done].
  apply find_some in E as [Hin Hk']. apply String.eqb_eq in Hk'. simpl in Hk'. subst k'.
  exfalso. apply Hk, list_elem_of_In, in_map_iff. by exists (k, x).
Qed.

(** The rows of a summary whose columns are the descriptions [ds], on the
    index [idx]. *)
Definition aligned (idx : list string) (ds : list (string * list (string * stat))) :
    list (string * list stat) :=
  map (fun p => (fst p, map (fun k => lookup_stat k (snd p)) idx)) ds.

Definition described (t : table) : list (string * list (string * stat)) :=
  map (fun col => (col_name col, describe_col col)) t.

Definition described_index (t : table) : list string :=
  foldl (fun idx col => union_index idx (map fst (describe_col col))) [] t.

Lemma concat_col_aligned idx ds c d :
  Forall (fun p => forall k, k ∈ map fst (snd p) -> k ∈ idx) ds ->
  concat_col (mkSummary idx (aligned idx ds)) c d =
    mkSummary (union_index idx (map fst d)) (aligned (union_index idx (map fst d)) (ds ++ [(c, d)])).
Proof.
  intros Hds. unfold concat_col. cbn [sum_index sum_cols]. f_equal.
  destruct (union_index_ext idx (map fst d)) as (ext & Hu & Hext). rewrite Hu.
  unfold aligned. rewrite (map_app _ ds [(c, d)]), map_map. apply (f_equal2 app); [|cbn; by rewrite map_app].
  apply map_ext_in. intros [n row] Hin%list_elem_of_In. cbn [fst snd]. f_equal.
  rewrite map_app, length_app. replace (length idx + length ext - length idx) with (length ext) by lia.
  f_equal.
  rewrite Forall_forall in Hds. specialize (Hds _ Hin). cbn [snd] in Hds. clear Hu.
  induction ext as [|k ext IH]; [done|]. inversion Hext as [|? ? Hk Hext']; subst.
  cbn [map replicate length Nat.add]. rewrite IH by done. f_equal.
  symmetry. apply lookup_stat_notin. intros Hr. by apply Hk, Hds.
Qed.

Lemma describe_fold idx ds t :
  Forall (fun p => forall k, k ∈ map fst (snd p) -> k ∈ idx) ds ->
  foldl (fun res col => concat_col res (col_name col) (describe_col col)) (mkSummary idx (aligned idx ds)) t =
    let idx' := foldl (fun idx col => union_index idx (map fst (describe_col col))) idx t in
    mkSummary idx' (aligned idx' (ds ++ described t)).
Proof.
  revert idx ds. induction t as [|col t IH]; intros idx ds Hds.
  - simpl. by rewrite app_nil_r.
  - cbn [foldl]. rewrite concat_col_aligned by done. rewrite IH.
    + cbn zeta. by rewrite <- app_assoc.
    + apply Forall_app. split.
      * eapply Forall_impl; [exact Hds|]. intros p Hp k Hk. apply elem_of_union_index. left. by apply Hp.
      * constructor; [|constructor]. intros k Hk. apply elem_of_union_index. by right.
Qed.

End outer_join.

(** ** Numeric columns *)

Section numeric.

Lemma sumQ_lower (a : list Q) (m : Q) :
  (forall y, y ∈ a -> m <= y)%Q -> (inject_Z (Z.of_nat (length a)) * m <= sumQ a)%Q.
Proof.
  induction a as [|x a IH]; intros Hy; [change (0 * m <= 0)%Q; lra|].
  cbn [length]. rewrite Nat2Z.inj_succ, <- Z.add_1_l, inject_Z_plus. cbn [sumQ foldr].
  change (foldr Qplus 0%Q a) with (sumQ a).
  pose proof (Hy x ltac:(left)). pose proof (IH (fun y H => Hy y (list_elem_of_further _ _ _ H))).
  change (inject_Z 1) with 1%Q. set (n := inject_Z _) in *. nra.
Qed.

Lemma sumQ_upper (a : list Q) (m : Q) :
  (forall y, y ∈ a -> y <= m)%Q -> (sumQ a <= inject_Z (Z.of_nat (length a)) * m)%Q.
Proof.
  induction a as [|x a IH]; intros Hy; [change (0 * m <= 0)%Q; lra|].
  cbn [length]. rewrite Nat2Z.inj_succ, <- Z.add_1_l, inject_Z_plus. cbn [sumQ foldr].
  change (foldr Qplus 0%Q a) with (sumQ a).
  pose proof (Hy x ltac:(left)). pose proof (IH (fun y H => Hy y (list_elem_of_further _ _ _ H))).
  change (inject_Z 1) with 1%Q. set (n := inject_Z _) in *. nra.
Qed.

Lemma Qsquare_nonneg_aux (q : Q) : (0 <= q * q)%Q.
Proof. nra. Qed.

Lemma sumQ_squares_nonneg (f : Q -> Q) (a : list Q) : (0 <= sumQ (map (fun x => f x * f x) a))%Q.
Proof.
  induction a as [|x a IH]; simpl; [lra|]. change (foldr Qplus 0%Q _) with (sumQ (map (fun x => f x * f x) a)).
  pose proof (Qsquare_nonneg_aux (f x)). nra.
Qed.

Lemma length_pos_Q (a : list Q) : a <> [] -> (0 < inject_Z (Z.of_nat (length a)))%Q.
Proof. intros Ha. destruct a; [done|]. change 0%Q with (inject_Z 0). rewrite <- Zlt_Qlt. simpl. lia. Qed.

(** The mean lies between the minimum and the maximum. *)
Lemma mean_between a mn mx :
  arr_min a = Ret mn -> arr_max a = Ret mx -> (mn <= mean a <= mx)%Q.
Proof.
  intros Hmn Hmx. assert (a <> []) as Ha by (by intros ->).
  pose proof (length_pos_Q a Ha) as Hn. unfold mean. split.
  - apply Qle_shift_div_l; [done|]. rewrite Qmult_comm.
    apply sumQ_lower. intros y Hy. by eapply arr_min_le.
  - apply Qdiv_le_iff; [done|]. rewrite Qmult_comm.
    apply sumQ_upper. intros y Hy. by eapply arr_max_ge.
Qed.

Lemma sample_var_nonneg a : 2 <= length a -> (0 <= sample_var a)%Q.
Proof.
  intros Hl. unfold sample_var. apply Qle_shift_div_l.
  - change 0%Q with (inject_Z 0). rewrite <- Zlt_Qlt. lia.
  - rewrite Qmult_0_l. apply (sumQ_squares_nonneg (fun x => x - mean a)%Q).
Qed.

Lemma std_stat_nonneg a s : std_stat a = SSqrt s -> (0 <= s)%Q.
Proof.
  unfold std_stat. destruct (Nat.ltb_spec (length a) 2); [discriminate|].
  intros [= <-]. by apply sample_var_nonneg.
Qed.

End numeric.

(** ** [value_counts]: the sorted counts *)

Section counts.

Definition count_ge (p q : cell * nat) : Prop := snd q <= snd p.

Lemma Forall_perm {A} (P : A -> Prop) l l' : Permutation l l' -> Forall P l -> Forall P l'.
Proof. intros Hp. by apply Permutation_Forall. Qed.

Lemma length_filter_perm {A} (f : A -> bool) l l' :
  Permutation l l' -> length (List.filter f l) = length (List.filter f l').
Proof. induction 1; simpl; repeat case_match; simpl; lia. Qed.

Lemma insert_count_perm p l : Permutation (insert_count p l) (p :: l).
Proof.
  induction l as [|q t IH]; simpl; [done|]. case_match; [done|].
  rewrite IH. apply perm_swap.
Qed.

Lemma sort_counts_perm l : Permutation (sort_counts l) l.
Proof. induction l as [|p t IH]; simpl; [done|]. by rewrite insert_count_perm, IH. Qed.

Lemma insert_count_sorted p l : StronglySorted count_ge l -> StronglySorted count_ge (insert_count p l).
Proof.
  induction 1 as [|q t Ht IH Hq]; simpl; [repeat constructor|].
  unfold count_ge in *. destruct (Nat.leb_spec (snd q) (snd p)).
  - constructor; [by constructor|]. constructor; [done|].
    eapply Forall_impl; [exact Hq|]. simpl. lia.
  - constructor; [done|]. apply (Forall_perm _ (p :: t)); [symmetry; apply insert_count_perm|].
    constructor; [simpl; lia|done].
Qed.

Lemma sort_counts_sorted l : StronglySorted count_ge (sort_counts l).
Proof. induction l as [|p t IH]; simpl; [constructor|]. by apply insert_count_sorted. Qed.

(** The first of the sorted counts is a largest count of the list. *)
Lemma sort_counts_head l top freq rest :
  sort_counts l = (top, freq) :: rest ->
  In (top, freq) l /\ Forall (fun q => snd q <= freq) l.
Proof.
  intros E. pose proof (sort_counts_perm l) as Hp. pose proof (sort_counts_sorted l) as Hs.
  rewrite E in Hp, Hs. split; [apply (Permutation_in _ Hp); by left|].
  apply (Forall_perm _ _ _ Hp). apply StronglySorted_inv in Hs as [_ Hs].
  constructor; [simpl; lia|exact Hs].
Qed.

Lemma raw_counts_count_of col : Forall (fun p => snd p = count_of (col_cells col) (fst p)) (raw_counts col).
Proof.
  unfold raw_counts, value_counts. case_match; apply Forall_map, Forall_forall; intros; done.
Qed.

End counts.

Lemma elem_of_described_index_aux idx t k :
  k ∈ foldl (fun idx col => union_index idx (map fst (describe_col col))) idx t <->
  k ∈ idx \/ exists col, col ∈ t /\ k ∈ map fst (describe_col col).
Proof.
  revert idx. induction t as [|col t IH]; intros idx; simpl.
  - split; [by left|]. intros [?|(? & []%elem_of_nil & _)]; done.
  - rewrite IH, elem_of_union_index. setoid_rewrite elem_of_cons. naive_solver.
Qed.

(** ** Theorems *)

(** C27. [describe] is the outer join of the per-column descriptions: the
    loop of [pd.concat]s gives the table whose columns are the columns of
    the DataFrame in order, whose index holds exactly the statistic names
    some column has, and whose cell at a name a column does not describe
    is NaN. *)
Theorem describe_outer_join (t : table) :
  describe t = mkSummary (described_index t) (aligned (described_index t) (described t)) /\
  (forall k, k ∈ described_index t <-> exists col, col ∈ t /\ k ∈ map fst (describe_col col)).
Proof.
  split.
  - unfold describe. change (mkSummary [] []) with (mkSummary [] (aligned [] [])).
    by rewrite (describe_fold [] [] t) by constructor.
  - intros k. unfold described_index. rewrite elem_of_described_index_aux, elem_of_nil. naive_solver.
Qed.

(** C28. The numeric summary is ordered: for a numeric column with at
    least one value, [describe] gives numbers with min <= 25% <= 50% <=
    75% <= max, a mean between min and max, and a std that is the square
    root of a non-negative variance (or NaN). *)
Theorem describe_numeric_bounds (col : column) :
  is_numeric_dtype (col_dtype col) = true -> num_values (col_cells col) <> [] ->
  exists m v mn q1 q2 q3 mx,
    describe_col col =
      [("count", SCount (count (col_cells col))); ("mean", SNum m); ("std", v); ("min", SNum mn);
       ("25%", SNum q1); ("50%", SNum q2); ("75%", SNum q3); ("max", SNum mx)] /\
    (mn <= q1 <= q2)%Q /\ (q2 <= q3 <= mx)%Q /\ (mn <= m <= mx)%Q /\
    (forall s, v = SSqrt s -> (0 <= s)%Q).
Proof.
  intros Hnum Ha. set (a := num_values (col_cells col)) in *.
  destruct (arr_min_max_ok a Ha) as (mn & mx & Hmn & Hmx).
  exists (mean a), (std_stat a), mn, (percentile a 25), (percentile a 50), (percentile a 75), mx.
  split.
  - unfold describe_col. rewrite Hnum. unfold describe_numeric. fold a. rewrite Hmn, Hmx.
    by destruct a.
  - pose proof (percentile_range a 25 mn mx Hmn Hmx ltac:(lra)).
    pose proof (percentile_range a 75 mn mx Hmn Hmx ltac:(lra)).
    pose proof (percentile_mono a 25 50 Ha ltac:(lra) ltac:(lra) ltac:(lra)).
    pose proof (percentile_mono a 50 75 Ha ltac:(lra) ltac:(lra) ltac:(lra)).
    pose proof (mean_between a mn mx Hmn Hmx).
    split; [lra|]. split; [lra|]. split; [lra|]. apply std_stat_nonneg.
Qed.

Lemma filter_nonzero_nil (l : list (cell * nat)) :
  Exists (fun p => snd p <> 0) l -> 0 < length (List.filter (fun p => negb (snd p =? 0)) l).
Proof.
  induction 1 as [p t Hp|p t _ IH]; simpl.
  - destruct (Nat.eqb_spec (snd p) 0); [done|]. simpl. lia.
  - case_match; simpl; lia.
Qed.

(** C29. The summary of a non-numeric column with some value: [count],
    the number of values with a non-zero count as [unique], then [top], a
    value (a category of a categorical column) occurring [freq] times
    among the non-missing values, as often as any other, and for a
    datetime column the first and last timestamps. *)
Theorem describe_categorical_mode (col : column) :
  is_numeric_dtype (col_dtype col) = false ->
  Exists (fun p => snd p <> 0) (raw_counts col) ->
  exists top freq,
    describe_col col =
      [("count", SCount (count (col_cells col)));
       ("unique", SCount (length (List.filter (fun p => negb (snd p =? 0)) (raw_counts col))));
       ("top", SCell top); ("freq", SCount freq)] ++
      (if is_datetime_dtype (col_dtype col)
       then [("first", SCell (CTime (zmin_list (timestamps (col_cells col)))));
             ("last", SCell (CTime (zmax_list (timestamps (col_cells col)))))]
       else []) /\
    In (top, freq) (raw_counts col) /\ freq = count_of (col_cells col) top /\ 0 < freq /\
    Forall (fun p => snd p <= freq) (raw_counts col).
Proof.
  intros Hnum Hex. unfold describe_col, describe_categorical, value_counts_sorted. rewrite Hnum.
  rewrite <- (length_filter_perm _ _ _ (Permutation_sym (sort_counts_perm (raw_counts col)))).
  pose proof (filter_nonzero_nil _ Hex) as Hpos.
  destruct (Nat.ltb_spec 0 (length (List.filter (fun p => negb (snd p =? 0)) (raw_counts col)))); [|lia].
  destruct (sort_counts (raw_counts col)) as [|[top freq] rest] eqn:E.
  { pose proof (sort_counts_perm (raw_counts col)) as Hp. rewrite E in Hp.
    apply Permutation_nil in Hp. rewrite Hp in Hpos. simpl in Hpos. lia. }
  destruct (sort_counts_head _ _ _ _ E) as [Hin Hall]. exists top, freq.
  pose proof (raw_counts_count_of col) as Hc. rewrite Forall_forall in Hc.
  specialize (Hc (top, freq) (proj2 (list_elem_of_In _ _) Hin)).
  split; [destruct (is_datetime_dtype _); done|]. split; [done|]. split; [done|]. split; [|done].
  apply Exists_exists in Hex as ([u n] & Hu & Hn). apply Forall_forall with (x := (u, n)) in Hall.
  - simpl in *. lia.
  - done.
Qed.

(** ** Concrete summaries *)

Definition num_col : column := mkColumn "a" DFloat64 [CFloat 1; CFloat 2; CNaN; CFloat 4].
Definition obj_col : column := mkColumn "b" DObject [CStr "x"; CStr "y"; CStr "y"; CNone].
Definition time_col : column := mkColumn "d" DDatetime [CTime 5; CTime 3; CTime 5].

(** The outer join of a numeric, an object and a datetime column. *)
Theorem describe_mixed_table :
  describe [num_col; obj_col; time_col] =
    mkSummary ["count"; "mean"; "std"; "min"; "25%"; "50%"; "75%"; "max"; "unique"; "top"; "freq"; "first"; "last"]
      [("a", [SCount 3; SNum (7 # 3); SSqrt (3402 # 1458); SNum 1; SNum (150 # 100); SNum (200 # 100);
              SNum (300 # 100); SNum 4; SNaN; SNaN; SNaN; SNaN; SNaN]);
       ("b", [SCount 3; SNaN; SNaN; SNaN; SNaN; SNaN; SNaN; SNaN; SCount 2; SCell (CStr "y"); SCount 2; SNaN; SNaN]);
       ("d", [SCount 3; SNaN; SNaN; SNaN; SNaN; SNaN; SNaN; SNaN; SCount 2; SCell (CTime 5); SCount 2;
              SCell (CTime 3); SCell (CTime 5)])].
Proof. vm_compute. reflexivity. Qed.

Lemma describe_numeric_bounds_witness :
  is_numeric_dtype (col_dtype num_col) = true /\ num_values (col_cells num_col) <> [] /\
  exists m v mn q1 q2 q3 mx,
    describe_col num_col =
      [("count", SCount (count (col_cells num_col))); ("mean", SNum m); ("std", v); ("min", SNum mn);
       ("25%", SNum q1); ("50%", SNum q2); ("75%", SNum q3); ("max", SNum mx)] /\
    (mn <= q1 <= q2)%Q /\ (q2 <= q3 <= mx)%Q /\ (mn <= m <= mx)%Q /\
    (forall s, v = SSqrt s -> (0 <= s)%Q).
Proof.
  split; [reflexivity|]. split; [vm_compute; discriminate|].
  apply describe_numeric_bounds; [reflexivity|vm_compute; discriminate].
Defined.

Lemma describe_categorical_mode_witness :
  is_numeric_dtype (col_dtype time_col) = false /\ Exists (fun p => snd p <> 0) (raw_counts time_col) /\
  exists top freq,
    describe_col time_col =
      [("count", SCount (count (col_cells time_col)));
       ("unique", SCount (length (List.filter (fun p => negb (snd p =? 0)) (raw_counts time_col))));
       ("top", SCell top); ("freq", SCount freq)] ++
      (if is_datetime_dtype (col_dtype time_col)
       then [("first", SCell (CTime (zmin_list (timestamps (col_cells time_col)))));
             ("last", SCell (CTime (zmax_list (timestamps (col_cells time_col)))))]
       else []) /\
    In (top, freq) (raw_counts time_col) /\ freq = count_of (col_cells time_col) top /\ 0 < freq /\
    Forall (fun p => snd p <= freq) (raw_counts time_col).
Proof.
  assert (Exists (fun p => snd p <> 0) (raw_counts time_col)) as Hex
    by (vm_compute; left; discriminate).
  split; [reflexivity|]. split; [exact Hex|].
  apply describe_categorical_mode; [reflexivity|exact Hex].
Defined.
