(* ===== verification/Report.v ===== *)
(** * Report: the module setup (lines 13, 33-40), [plot] (lines 327-390)
    and [AnalysisReport] (lines 394-495)

    [import_analysis] is what importing the module does: the import of
    [collections.Iterable] and the font configuration, which binds
    [myfont] only when [config.font_path] is truthy. [plot] is the
    sequence of its calls on the figure and the axes ([draw]).

    [AnalysisReport(data, filename, var_list)] is the orchestration: with
    no [var_list] it runs [var_detection(data)] (which rewrites the
    caller's DataFrame), opens a report ([_rpt.Report], or the one passed
    as [filename]), adds a title slide and the [describe] table, then one
    slide per variable according to its [vtype], saves the deck and
    returns the list [slides_data] of the per-variable slides.

    The report builder, matplotlib/seaborn and the word-cloud generator
    are external. The model records what the code asks of them:
    - the calls on the report object [p] ([add_cover], [add_slide],
      [save]) as the list [r_deck], in order;
    - the files of the working directory ([savefig], [img.save],
      [os.remove]) as the set [r_files];
    - what is printed, as [r_out];
    - the local list [slides_data], as [r_slides].
    The drawing calls, the legend handles, the word cloud, [config] and
    the font file go through the [Backend] class, which says which
    exception, if any, each call raises; saving a figure
    and the calls on [p] are taken to succeed. *)

From S2P Require Import Prelude Cells Frame Classifier Grouping Scanner Distributions Describe.
From stdpp Require Import sorting.
Close Scope Q_scope.

(** ** [plot] *)

(** The calls of [plot] on the figure and the axes. *)
Inductive draw :=
| DSubplots                                    (** [fig, ax = plt.subplots()] *)
| DKde (name : string) (values : list cell)    (** [sns.kdeplot(data[c].dropna(), shade=True, ax=ax)] *)
| DDist (name : string) (values : list cell)   (** [sns.distplot(data[c].dropna(), ax=ax)] *)
| DTicksNone (axis : string)                   (** [ax.xaxis.set_ticks_position('none')], and [yaxis] *)
| DAxhline                                     (** [ax.axhline(y=0, ...)] *)
| DAxvline                                     (** [ax.axvline(x=0, ...)] *)
| DScatter (x y : list cell) (color label : string)
| DAnnotate (row : nat) (x y : cell) (color : string) (font : option string)
| DLegend                                      (** [ax.legend()] *)
| DAxis (mode : string).                       (** [ax.axis('auto')], [ax.axis('equal')] *)

(** What matplotlib, seaborn, the word-cloud generator and the [config]
    module provide: the exception a call raises, if any; whether the axes
    have labelled artists after the given calls
    ([len(ax.get_legend_handles_labels()[0]) > 0]); [config.font_path];
    and [FontProperties(fname=p).get_name()], which reads the font file. *)
Class Backend := {
  draw_exc : draw -> option pyexc;
  has_legend_handles : list draw -> bool;
  wordcloud_exc : string -> option pyexc;
  config_font_path : option string;
  font_name : string -> outcome string
}.

Record chart := mkChart {
  chart_type : string;        (** [chart['type']] *)
  chart_has_fig : bool;       (** [chart['fig']] is set *)
  chart_draws : list draw
}.

Definition is_one_of (s : string) (l : list string) : bool := existsb (String.eqb s) l.

Definition colors : list string := ["blue"; "red"; "green"; "dark"].

(** [for _, row in dd.iterrows()]: the rows of the DataFrame, labelled by
    their position. *)
Definition row_cells (t : table) (i : nat) : list cell := omap (fun c => col_cells c !! i) t.

Definition nrows (t : table) : nat := match t with [] => 0 | c :: _ => length (col_cells c) end.

(** The arguments of a call are evaluated before it is made:
    [fontproperties=myfont] raises [NameError] when the module never
    bound [myfont] (the [None] font). *)
Definition arg_exc (d : draw) : option pyexc :=
  match d with DAnnotate _ _ _ _ None => Some NameError | _ => None end.

(** [ax.annotate(row.name, (row.iloc[0], row.iloc[1]), color=color[0],
    fontproperties=myfont, fontsize=10)] for row [i]. *)
Definition scatter_annotate (dd : table) (font : option string) (i : nat) : draw :=
  DAnnotate i (default CNaN (row_cells dd i !! 0)) (default CNaN (row_cells dd i !! 1)) "blue" font.

Section backend.
Context `{Backend}.

(** Lines 35-37: [font_path = config.font_path]; [myfont] is bound only
    when [font_path] is truthy (neither [None] nor empty). The font
    object is identified by its file. *)
Definition myfont : option string :=
  match config_font_path with
  | Some p => if String.eqb p "" then None else Some p
  | None => None
  end.

(** The calls in order; the first that raises stops [plot]. *)
Fixpoint run_draws (ds : list draw) : outcome unit :=
  match ds with
  | [] => Ret tt
  | d :: rest =>
      match arg_exc d with
      | Some e => Exc e
      | None => match draw_exc d with Some e => Exc e | None => run_draws rest end
      end
  end.

(** [legend_label = ax.get_legend_handles_labels()] is a pair, so
    [len(legend_label) > 0] holds: [ax.legend()] is called exactly when
    there are labelled artists. *)
Definition legend_calls (ds : list draw) : list draw :=
  if has_legend_handles ds then [DLegend] else [].

(** The ['hist']/['kde'] and ['dist'] branches: one call per column,
    the legend when there are handles, then [ax.axis('auto')]. *)
Definition density_draws (ds : list draw) : outcome (list draw) :=
  let ds' := ds ++ legend_calls ds ++ [DAxis "auto"] in
  run_draws ds';; Ret ds'.

(** The scatter branch: the ticks and the two zero lines are drawn first;
    [data] is wrapped in a list, the only frame gets [color[0]];
    [dd.iloc[:,0]] and [dd.iloc[:,1]] raise [IndexError] on a frame with
    fewer than two columns. The test ['%s'%dd.iloc[:,0] != 'nan']
    compares the text of a whole Series with ['nan'] and holds. Each row
    is annotated with [myfont]; then [ax.axis('equal')] and the legend. *)
Definition scatter_draws (font : option string) (dd : table) : outcome (list draw) :=
  let pre := [DTicksNone "x"; DTicksNone "y"; DAxhline; DAxvline] in
  run_draws pre;;
  match dd with
  | c0 :: c1 :: _ =>
      let body := DScatter (col_cells c0) (col_cells c1) "blue" (col_name c1) ::
                  map (scatter_annotate dd font) (seq 0 (nrows dd)) ++ [DAxis "equal"] in
      let post := legend_calls (pre ++ body) in
      run_draws (body ++ post);; Ret (pre ++ body ++ post)
  | _ => Exc IndexError
  end.

(** [plot(data, figure_type, chart_type, ax)]: only the figure types
    ['mpl'] and ['matplotlib'] give a chart; any other falls off the end
    of the function, which returns [None]. [plt.subplots()] is called
    when no [ax] is given. A chart type other than the four drawn ones
    gives a chart with nothing drawn on the axes. [fig] exists only when
    [ax] was not given (the bare [except] around [chart['fig']=fig]
    catches the [NameError]). *)
Definition plot (data : table) (figure_type chart_type : string) (ax_given : bool) : outcome (option chart) :=
  if is_one_of figure_type ["mpl"; "matplotlib"] then
    let fig := if ax_given then [] else [DSubplots] in
    run_draws fig;;
    ds ← (if is_one_of chart_type ["hist"; "kde"] then
            density_draws (map (fun c => DKde (col_name c) (dropna (col_cells c))) data)
          else if is_one_of chart_type ["dist"] then
            density_draws (map (fun c => DDist (col_name c) (dropna (col_cells c))) data)
          else if is_one_of chart_type ["scatter"] then scatter_draws myfont data
          else Ret []);
    Ret (Some (mkChart "mpl" (negb ax_given) (fig ++ ds)))
  else Ret None.

(** The interpreter's version, for [from collections import Iterable]. *)
Record py_version := mkVersion { py_major : nat; py_minor : nat }.

(** [collections.Iterable], the alias of [collections.abc.Iterable],
    exists before Python 3.10 and was removed in 3.10. *)
Definition has_collections_Iterable (v : py_version) : bool :=
  Nat.ltb (py_major v) 3 || (Nat.eqb (py_major v) 3 && Nat.ltb (py_minor v) 10).

(** The globals the module setup binds: [font_path], [myfont] when it is
    bound, and the font family given to [sns.set]. *)
Record module_globals := mkGlobals {
  g_font_path : option string;
  g_myfont : option string;
  g_sns_font : option string
}.

(** Lines 8-40, importing the module: the imports other than
    [collections.Iterable] are taken to succeed; when [font_path] is
    truthy, [sns.set(font=myfont.get_name())] reads the font file. *)
Definition import_analysis (v : py_version) : outcome module_globals :=
  if has_collections_Iterable v then
    match myfont with
    | Some f => name ← font_name f; Ret (mkGlobals config_font_path (Some f) (Some name))
    | None => Ret (mkGlobals config_font_path None None)
    end
  else Exc ImportError.
End backend.

(** ** The report, the working directory and the output *)

(** The title of a slide: ['数据字段描述'] (the field descriptions),
    [name + ' 的分析'] (the analysis of a variable) and
    [name + ' 的词云分析'] (its word cloud). *)
Inductive slide_title :=
| TFields
| TAnalysis (name : string)
| TWordcloud (name : string).

(** One slide-description record: [{'data': ..., 'slide_type': ...}]. *)
Inductive slide_item :=
| ITable (s : summary_table)                        (** ['table'] *)
| IPicture (file : string)                          (** ['picture'] *)
| IChart (kind : string) (d : list (cell * option Q)). (** ['chart'], [type] *)

(** [add_slide(data=...)] takes one record or a list of them. *)
Inductive slide_data :=
| SOne (i : slide_item)
| SMany (l : list slide_item).

(** The summary line of a slide: mean, std and max of a number, or the
    position and value of the largest share of a chart. *)
Inductive slide_summary :=
| SumNumber (mean std max : stat)
| SumShare (argmax : Z) (max : stat).

Inductive deck_call :=
| Cover (title : string)
| AddSlide (d : slide_data) (title : slide_title) (summary : option slide_summary) (footnote : option stat)
| SaveAs (path : string).

(** What [AnalysisReport] prints. The datetime message is printed
    without [.format], so it shows a literal ['{}']. The message of the
    final [else] ([unknown type]) is not among them: a [vtype] is one of
    the six the classifier and the grouping produce. *)
Inductive message :=
| MBadFilename
| MDatetimeSkip
| MCannotUnderstand (name : string)
| MTextSt (name : string).

Record rstate := mkRState {
  r_deck : list deck_call;
  r_files : gset string;
  r_out : list message;
  r_slides : list slide_data
}.

Definition add_call (c : deck_call) : PyM rstate unit :=
  fun r => (Ret tt, mkRState (r_deck r ++ [c]) (r_files r) (r_out r) (r_slides r)).

Definition print (m : message) : PyM rstate unit :=
  fun r => (Ret tt, mkRState (r_deck r) (r_files r) (r_out r ++ [m]) (r_slides r)).

(** [slides_data.append(slide_data)]. *)
Definition push_slide (d : slide_data) : PyM rstate unit :=
  fun r => (Ret tt, mkRState (r_deck r) (r_files r) (r_out r) (r_slides r ++ [d])).

(** [savefig(f)] and [img.save(f)] create or overwrite [f]. *)
Definition write_file (f : string) : PyM rstate unit :=
  fun r => (Ret tt, mkRState (r_deck r) ({[f]} ∪ r_files r) (r_out r) (r_slides r)).

(** [os.remove(f)]: [FileNotFoundError] when [f] does not exist. *)
Definition remove_file (f : string) : PyM rstate unit :=
  fun r => if decide (f ∈ r_files r)
           then (Ret tt, mkRState (r_deck r) (r_files r ∖ {[f]}) (r_out r) (r_slides r))
           else (Exc OSError, r).

(** [p.add_slide(data=d, title=..., summary=..., footnote=...)]. *)
Definition add_slide (d : slide_data) (title : slide_title) (summary : option slide_summary)
    (footnote : option stat) : PyM rstate unit :=
  add_call (AddSlide d title summary footnote).

(** [p.add_slide(data=d, ...)] followed by [slides_data.append(d)], as
    every per-variable branch does. *)
Definition publish (d : slide_data) (title : slide_title) (summary : option slide_summary)
    (footnote : option stat) : PyM rstate unit :=
  add_slide d title summary footnote;; push_slide d.

(** [try: ... except: ...]: a bare [except] catches every exception; the
    effects made before it stay. *)
Definition py_try {S A} (m : PyM S A) (handler : pyexc -> PyM S A) : PyM S A :=
  fun s => match m s with
           | (Exc e, s') => handler e s'
           | r => r
           end.

(** ** The pandas operations of the slides *)

(** [data[name]]: [KeyError] for a missing column. *)
Definition series (data : table) (name : string) : outcome column :=
  match lookup_col data name with Some c => Ret c | None => Exc KeyError end.

(** [data.loc[:, vlist]]: [KeyError] when a name is missing. *)
Definition loc_cols (data : table) (names : list string) : outcome (list column) :=
  mapM (series data) names.

(** The values [.mean()], [.std()] and [.max()] reduce: numbers only
    ([TypeError] on anything else, e.g. a string). *)
Definition series_values (cells : list cell) : outcome (list Q) :=
  if forallb (fun c => bool_decide (is_Some (num_value c))) (dropna cells)
  then Ret (num_values cells) else Exc TypeError.

(** [tmp * 100 / tmp.sum()]: each count as a percentage of the total;
    [0 * 100 / 0] is NaN ([None]). *)
Definition percentages (vc : list (cell * nat)) : list (cell * option Q) :=
  let total := sum_list_with snd vc in
  map (fun p => (fst p, if total =? 0 then None
                        else Some (inject_Z (Z.of_nat (snd p)) * 100 / inject_Z (Z.of_nat total))%Q)) vc.

(** [pd.DataFrame(tmp, index=categories)]: the rows of the categories,
    NaN for a category with no row. *)
Definition reindex (tmp : list (cell * option Q)) (labels : list cell) : list (cell * option Q) :=
  map (fun c => (c, match List.find (fun p => cell_eqb (fst p) c) tmp with
                    | Some (_, x) => x
                    | None => None
                    end)) labels.

Fixpoint insert_by_label (p : cell * option Q) (l : list (cell * option Q)) : list (cell * option Q) :=
  match l with
  | [] => [p]
  | q :: t => if cell_leb (fst p) (fst q) then p :: q :: t else q :: insert_by_label p t
  end.

(** [tmp.sort_index()]. *)
Fixpoint sort_index (l : list (cell * option Q)) : list (cell * option Q) :=
  match l with
  | [] => []
  | p :: t => insert_by_label p (sort_index t)
  end.

(** The position and value of the first largest non-NaN value, scanning
    from position [i]. *)
Fixpoint argmax_from (l : list (option Q)) (i : Z) (best : option (Z * Q)) : option (Z * Q) :=
  match l with
  | [] => best
  | None :: t => argmax_from t (i + 1) best
  | Some x :: t =>
      match best with
      | Some (_, b) => if Qlt_bool b x then argmax_from t (i + 1) (Some (i, x)) else argmax_from t (i + 1) best
      | None => argmax_from t (i + 1) (Some (i, x))
      end
  end.

(** [Series.argmax()] (pandas 1.x, [skipna]): [ValueError] on an empty
    Series, [-1] when every value is NaN. *)
Definition py_argmax (l : list (option Q)) : outcome Z :=
  match l with
  | [] => Exc ValueError
  | _ => Ret (match argmax_from l 0 None with Some (i, _) => i | None => (-1)%Z end)
  end.

(** [Series.max()]: NaN when there is no value. *)
Definition series_max (l : list (option Q)) : stat :=
  match argmax_from l 0 None with Some (_, x) => SNum x | None => SNaN end.

(** ['{}占比最大为: {:.2f}%'.format(tmp.iloc[:,0].argmax(), tmp.iloc[:,0].max())]. *)
Definition share_summary (tmp : list (cell * option Q)) : outcome slide_summary :=
  i ← py_argmax (map snd tmp); Ret (SumShare i (series_max (map snd tmp))).

(** [','.join(values)]: [TypeError] unless every value is a string. *)
Definition join_strings (cells : list cell) : outcome string :=
  strs ← mapM (fun c => match c with CStr s => Ret s | _ => Exc TypeError end) cells;
  Ret (match strs with [] => "" | s :: t => foldl (fun acc x => acc +:+ "," +:+ x) s t end).

(** [.max()] of the counts of the columns: NaN with no column. *)
Definition max_count (l : list nat) : stat :=
  match l with [] => SNaN | n :: t => SCount (foldl Nat.max n t) end.

(** [os.path.splitext(p)[0]] (posixpath): the path without its last
    extension. The extension starts at the last ['.'] after the last
    ['/'], unless every character before it in the last component is a
    ['.'] (['.bashrc'] has none). *)
Fixpoint rfind_from (a : ascii) (l : list ascii) (i : nat) (found : option nat) : option nat :=
  match l with
  | [] => found
  | b :: t => rfind_from a t (S i) (if Ascii.eqb a b then Some i else found)
  end.

Definition splitext_root (p : string) : string :=
  let l := list_ascii_of_string p in
  let start := match rfind_from "/"%char l 0 None with Some i => S i | None => 0 end in
  match rfind_from "."%char l 0 None with
  | Some d =>
      if (start <=? d) && existsb (fun c => negb (Ascii.eqb c "."%char)) (drop start (take d l))
      then string_of_list_ascii (take d l) else p
  | None => p
  end.

(** ** [AnalysisReport] *)

(** [filename]: [None], a string, a [Report] (its calls so far), or
    anything else. *)
Inductive fname :=
| FNone
| FStr (s : string)
| FRpt (deck : list deck_call)
| FOther.

Section report.
Context `{Backend}.

(** [time.strftime('_%Y%m%d%H%M', time.localtime())]. *)
Variable stamp : string.

(** The chart slides of the [category], [datetime] and [group_number]
    branches: [{'data': tmp, 'slide_type': 'chart', 'type':
    'COLUMN_CLUSTERED'}] with the largest share as summary. *)
Definition chart_slide (name : string) (tmp : list (cell * option Q)) (footnote : stat) : PyM rstate unit :=
  summary ← py_lift (share_summary tmp);
  let d := SOne (IChart "COLUMN_CLUSTERED" tmp) in
  publish d (TAnalysis name) (Some summary) (Some footnote).

(** [chart = plot(data[name], figure_type='mpl', chart_type=kind);
    chart['fig'].savefig(file)]: subscripting a [None] chart would raise
    [TypeError]. *)
Definition save_plot (col : column) (kind file : string) : PyM rstate unit :=
  ch ← py_lift (plot [col] "mpl" kind false);
  match ch with
  | Some c => if chart_has_fig c then write_file file else py_raise KeyError
  | None => py_raise TypeError
  end.

Definition number_branch (data : table) (name : string) : PyM rstate unit :=
  col ← py_lift (series data name);
  save_plot col "kde" "kdeplot1.png";;
  save_plot col "dist" "kdeplot2.png";;
  a ← py_lift (series_values (col_cells col));
  let summary := SumNumber (mean_stat a) (std_stat a) (outcome_stat (arr_max a)) in
  let d := SMany [IPicture "kdeplot1.png"; IPicture "kdeplot2.png"] in
  publish d (TAnalysis name) (Some summary) (Some (SCount (count (col_cells col))));;
  remove_file "kdeplot1.png";;
  remove_file "kdeplot2.png".

Definition category_branch (data : table) (v : var) : PyM rstate unit :=
  col ← py_lift (series data (var_name v));
  let tmp := percentages (value_counts_sorted col) in
  let tmp := if var_ordered v then reindex tmp (var_categories v) else tmp in
  chart_slide (var_name v) tmp (SCount (count (col_cells col))).

(** [data[name].value_counts().max() == 1]: every timestamp occurs once
    (false for no timestamp: the max is NaN). *)
Definition all_distinct (vc : list (cell * nat)) : bool :=
  match vc with [] => false | _ => foldr Nat.max 0 (map snd vc) =? 1 end.

Definition datetime_branch (data : table) (v : var) : PyM rstate unit :=
  col ← py_lift (series data (var_name v));
  if all_distinct (value_counts_sorted col) then print MDatetimeSkip
  else
    let tmp := sort_index (percentages (value_counts_sorted (with_data col DObject (col_cells col)))) in
    let tmp := if var_ordered v then reindex tmp (var_categories v) else tmp in
    chart_slide (var_name v) tmp (SCount (count (col_cells col))).

(** The [text] branch, all of it inside [try: ... except: print(...)]. *)
Definition text_branch (data : table) (name : string) : PyM rstate unit :=
  py_try
    (col ← py_lift (series data name);
     s ← py_lift (join_strings (dropna (col_cells col)));
     if 1 <? String.length s then
       match wordcloud_exc s with
       | Some e => py_raise e
       | None =>
           write_file "tmp.png";;
           let d := SOne (IPicture "tmp.png") in
           publish d (TWordcloud name) None (Some (SCount (count (col_cells col))));;
           remove_file "tmp.png"
       end
     else mret tt)
    (fun _ => print (MCannotUnderstand name)).

(** [data.loc[:, vlist].mean()] keeps the numeric columns (pandas 1.x
    drops the others as nuisance columns); the index is the columns'
    names. *)
Definition column_means (cols : list column) : list (cell * option Q) :=
  omap (fun c => if is_numeric_dtype (col_dtype c)
                 then Some (CStr (col_name c), match num_values (col_cells c) with
                                               | [] => None
                                               | a => Some (mean a)
                                               end)
                 else None) cols.

Definition group_branch (data : table) (v : var) : PyM rstate unit :=
  cols ← py_lift (loc_cols data (var_vlist v));
  chart_slide (var_name v) (column_means cols) (max_count (map (fun c => count (col_cells c)) cols)).

(** One iteration of [for v in var_list]. *)
Definition report_var (data : table) (v : var) : PyM rstate unit :=
  match var_vtype v with
  | VNumber => number_branch data (var_name v)
  | VCategory => category_branch data v
  | VDatetime => datetime_branch data v
  | VText => text_branch data (var_name v)
  | VGroupNumber => group_branch data v
  | VTextSt => print (MTextSt (var_name v))
  end.

Fixpoint report_vars (data : table) (vl : list var) : PyM rstate unit :=
  match vl with
  | [] => mret tt
  | v :: rest => report_var data v;; report_vars data rest
  end.

(** The report [p] and the [filename]: a new report with a cover titled
    after the file name, or the report passed in (its calls so far) and
    the default file name; [None] for anything else. *)
Definition open_report (fn : fname) : option (list deck_call * string) :=
  match fn with
  | FNone => let f := ("AnalysisReport" ++ stamp)%string in Some ([Cover (splitext_root f)], f)
  | FStr s => Some ([Cover (splitext_root s)], s)
  | FRpt d => Some (d, ("AnalysisReport" ++ stamp)%string)
  | FOther => None
  end.

Definition set_deck (d : list deck_call) : PyM rstate unit :=
  fun r => (Ret tt, mkRState d (r_files r) (r_out r) (r_slides r)).

Definition clear_slides : PyM rstate unit :=
  fun r => (Ret tt, mkRState (r_deck r) (r_files r) (r_out r) []).

Definition get_slides : PyM rstate (list slide_data) := fun r => (Ret (r_slides r), r).

(** [AnalysisReport] once [var_list] is known. *)
Definition run_report (data : table) (vl : list var) (fn : fname) : PyM rstate (option (list slide_data)) :=
  clear_slides;;
  match open_report fn with
  | None => print MBadFilename;; mret None
  | Some (deck, filename) =>
      set_deck deck;;
      add_slide (SOne (ITable (describe data))) TFields None None;;
      report_vars data vl;;
      add_call (SaveAs (splitext_root filename ++ ".pptx"));;
      slides ← get_slides;
      mret (Some slides)
  end.

(** The result of the call: the returned value, or no return at all when
    [var_detection]'s loop runs forever. *)
Inductive report_result :=
| Returned (r : option (list slide_data))
| Diverged.

(** [AnalysisReport(data, filename, var_list)] on the caller's DataFrame
    and the report world. [var_detection(data)] has [combine=True]: its
    result is the emitted list or no result. *)
Definition AnalysisReport (fn : fname) (var_list : option (list var)) (s : table * rstate)
    : outcome report_result * (table * rstate) :=
  let '(data, r) := s in
  match var_list with
  | Some vl => let '(o, r') := run_report data vl fn r in (outcome_map Returned o, (data, r'))
  | None =>
      match var_detection true data with
      | (Exc e, data') => (Exc e, (data', r))
      | (Ret (Combined vl), data') =>
          let '(o, r') := run_report data' vl fn r in (outcome_map Returned o, (data', r'))
      | (Ret _, data') => (Ret Diverged, (data', r))
      end
  end.
End report.

(** ** A weakest-precondition calculus for the report monad

    [wp m Q E r]: run from [r], [m] returns [a] in a state satisfying
    [Q a], or raises [e] in a state satisfying [E e]. One rule per
    primitive, applied backwards by [wp_step], so that a branch is
    verified by walking through its code. *)

Definition wp {A} (m : PyM rstate A) (Q : A -> rstate -> Prop) (E : pyexc -> rstate -> Prop)
    (r : rstate) : Prop :=
  match m r with (Ret a, r') => Q a r' | (Exc e, r') => E e r' end.

Section wp_rules.
Context {A B : Type}.
Implicit Types (Q : A -> rstate -> Prop) (E : pyexc -> rstate -> Prop) (r : rstate).

Lemma wp_ret (a : A) Q E r : Q a r -> wp (mret a) Q E r.
Proof. done. Qed.

Lemma wp_bind (m : PyM rstate B) (f : B -> PyM rstate A) Q E r :
  wp m (fun b r' => wp (f b) Q E r') E r -> wp (m ≫= f) Q E r.
Proof. unfold wp. rewrite py_bind_run. by destruct (m r) as [[b|e] r']. Qed.

Lemma wp_raise e Q E r : E e r -> wp (A:=A) (py_raise e) Q E r.
Proof. done. Qed.

Lemma wp_lift (o : outcome A) Q E r :
  match o with Ret a => Q a r | Exc e => E e r end -> wp (py_lift o) Q E r.
Proof. done. Qed.

Lemma wp_try (m : PyM rstate A) (h : pyexc -> PyM rstate A) Q E r :
  wp m Q (fun e r' => wp (h e) Q E r') r -> wp (py_try m h) Q E r.
Proof. unfold wp, py_try. by destruct (m r) as [[a|e] r']. Qed.

Lemma wp_mono (m : PyM rstate A) Q Q' E E' r :
  (forall a r', Q a r' -> Q' a r') -> (forall e r', E e r' -> E' e r') -> wp m Q E r -> wp m Q' E' r.
Proof. unfold wp. destruct (m r) as [[a|e] r']; auto. Qed.
End wp_rules.

Section wp_prims.
Implicit Types (Q : unit -> rstate -> Prop) (E : pyexc -> rstate -> Prop) (r : rstate).

Lemma wp_add_call c Q E r : Q tt (mkRState (r_deck r ++ [c]) (r_files r) (r_out r) (r_slides r)) -> wp (add_call c) Q E r.
Proof. done. Qed.

Lemma wp_publish d t s f Q E r :
  Q tt (mkRState (r_deck r ++ [AddSlide d t s f]) (r_files r) (r_out r) (r_slides r ++ [d])) ->
  wp (publish d t s f) Q E r.
Proof. done. Qed.

Lemma wp_print m Q E r : Q tt (mkRState (r_deck r) (r_files r) (r_out r ++ [m]) (r_slides r)) -> wp (print m) Q E r.
Proof. done. Qed.

Lemma wp_write f Q E r : Q tt (mkRState (r_deck r) ({[f]} ∪ r_files r) (r_out r) (r_slides r)) -> wp (write_file f) Q E r.
Proof. done. Qed.

Lemma wp_remove f Q E r :
  (if decide (f ∈ r_files r) then Q tt (mkRState (r_deck r) (r_files r ∖ {[f]}) (r_out r) (r_slides r))
   else E OSError r) -> wp (remove_file f) Q E r.
Proof. unfold wp, remove_file. by case_decide. Qed.

Lemma wp_set_deck d Q E r : Q tt (mkRState d (r_files r) (r_out r) (r_slides r)) -> wp (set_deck d) Q E r.
Proof. done. Qed.

Lemma wp_clear_slides Q E r : Q tt (mkRState (r_deck r) (r_files r) (r_out r) []) -> wp clear_slides Q E r.
Proof. done. Qed.

Lemma wp_get_slides (Q : list slide_data -> rstate -> Prop) E r : Q (r_slides r) r -> wp get_slides Q E r.
Proof. done. Qed.
End wp_prims.

Create HintDb wp.
#[export] Hint Resolve wp_ret wp_raise wp_add_call wp_publish wp_print wp_write wp_set_deck
  wp_clear_slides wp_get_slides : wp.

(** One backward step through the code. *)
Ltac wp_step :=
  lazymatch goal with
  | |- wp (mbind _ _) _ _ _ => apply wp_bind
  | |- wp (py_try _ _) _ _ _ => apply wp_try
  | |- wp (py_lift _) _ _ _ => apply wp_lift
  | |- wp (remove_file _) _ _ _ => apply wp_remove
  | |- wp (match ?x with _ => _ end) _ _ _ => destruct x eqn:?
  | |- wp (if ?b then _ else _) _ _ _ => destruct b eqn:?
  | |- match ?o with Ret _ => _ | Exc _ => _ end => destruct o eqn:?
  | |- wp (mret _) _ _ _ => apply wp_ret
  | |- wp (py_raise _) _ _ _ => apply wp_raise
  | |- wp (add_call _) _ _ _ => apply wp_add_call
  | |- wp (publish _ _ _ _) _ _ _ => apply wp_publish
  | |- wp (print _) _ _ _ => apply wp_print
  | |- wp (write_file _) _ _ _ => apply wp_write
  | |- wp (set_deck _) _ _ _ => apply wp_set_deck
  | |- wp clear_slides _ _ _ => apply wp_clear_slides
  | |- wp get_slides _ _ _ => apply wp_get_slides
  | |- wp (save_plot _ _ _) _ _ _ => unfold save_plot
  | |- wp (chart_slide _ _ _) _ _ _ => unfold chart_slide
  | |- if decide _ then _ else _ => case_decide
  end; cbv beta; cbn [r_deck r_files r_out r_slides].

Ltac wp_run := repeat wp_step.

(** A relation between the state before and after, kept by each half of
    a sequence, is kept by the sequence. *)
Lemma wp_seq_rel {A B} (R : rstate -> rstate -> Prop) `{!Transitive R}
    (m : PyM rstate B) (f : B -> PyM rstate A) :
  (forall r, wp m (fun _ => R r) (fun _ => R r) r) ->
  (forall b r, wp (f b) (fun _ => R r) (fun _ => R r) r) ->
  forall r, wp (m ≫= f) (fun _ => R r) (fun _ => R r) r.
Proof.
  intros Hm Hf r. apply wp_bind. apply (wp_mono m (fun _ => R r) _ (fun _ => R r)); [|by intros|apply Hm].
  intros b r' Hr. apply (wp_mono (f b) (fun _ => R r') _ (fun _ => R r')); [| |apply Hf]; intros; by etrans.
Qed.

(** ** The slides added and the slides returned *)

Definition added_slides (calls : list deck_call) : list slide_data :=
  omap (fun c => match c with AddSlide d _ _ _ => Some d | _ => None end) calls.

Definition is_add (c : deck_call) : Prop := match c with AddSlide _ _ _ _ => True | _ => False end.

(** The deck grows by slides only, and [slides_data] by the data of those
    slides, in the same order. *)
Definition deck_step (r r' : rstate) : Prop :=
  exists calls, Forall is_add calls /\ r_deck r' = r_deck r ++ calls /\
                r_slides r' = r_slides r ++ added_slides calls.

#[export] Instance deck_step_preorder : PreOrder deck_step.
Proof.
  split.
  - intros r. exists []. by rewrite !app_nil_r.
  - intros r1 r2 r3 (c1 & Hc1 & Hd1 & Hs1) (c2 & Hc2 & Hd2 & Hs2). exists (c1 ++ c2).
    split; [by apply Forall_app|]. rewrite Hd2, Hd1, Hs2, Hs1, <- !app_assoc.
    split; [done|]. unfold added_slides. by rewrite omap_app.
Qed.

Lemma deck_step_same r r' : r_deck r' = r_deck r -> r_slides r' = r_slides r -> deck_step r r'.
Proof. intros Hd Hs. exists []. by rewrite !app_nil_r. Qed.

Lemma deck_step_one r r' d t s f :
  r_deck r' = r_deck r ++ [AddSlide d t s f] -> r_slides r' = r_slides r ++ [d] -> deck_step r r'.
Proof. intros Hd Hs. exists [AddSlide d t s f]. by repeat constructor. Qed.

Ltac deck_leaf :=
  cbn [r_deck r_slides r_files r_out];
  first [apply deck_step_same; reflexivity | eapply deck_step_one; reflexivity | done].

Section deck.
Context `{Backend}.

(** Every branch adds slides only through [publish]: the deck grows by
    slides whose data are appended to [slides_data], also when the branch
    raises. *)
Lemma report_var_deck data v r :
  wp (report_var data v) (fun _ => deck_step r) (fun _ => deck_step r) r.
Proof.
  unfold report_var, number_branch, category_branch, datetime_branch, text_branch, group_branch.
  destruct (var_vtype v); wp_run; deck_leaf.
Qed.

Lemma report_vars_deck data vl r :
  wp (report_vars data vl) (fun _ => deck_step r) (fun _ => deck_step r) r.
Proof.
  revert r. induction vl as [|v vl IH]; intros r; [by apply wp_ret|].
  apply wp_seq_rel; [apply _|apply report_var_deck|intros; apply IH].
Qed.

Variable stamp : string.

(** The state once the report is open and the [describe] table added. *)
Definition opened_state (deck : list deck_call) (data : table) (r : rstate) : rstate :=
  mkRState (deck ++ [AddSlide (SOne (ITable (describe data))) TFields None None]) (r_files r) (r_out r) [].

Lemma run_report_eq data vl fn r :
  run_report stamp data vl fn r =
    match open_report stamp fn with
    | None => (Ret None, mkRState (r_deck r) (r_files r) (r_out r ++ [MBadFilename]) [])
    | Some (deck, filename) =>
        match report_vars data vl (opened_state deck data r) with
        | (Ret _, r2) =>
            (Ret (Some (r_slides r2)),
             mkRState (r_deck r2 ++ [SaveAs (splitext_root filename ++ ".pptx")]) (r_files r2) (r_out r2) (r_slides r2))
        | (Exc e, r2) => (Exc e, r2)
        end
    end.
Proof.
  unfold run_report, add_slide, opened_state. rewrite py_bind_run. cbn [clear_slides].
  destruct (open_report stamp fn) as [[deck filename]|]; [|done].
  rewrite py_bind_run. cbn [set_deck r_deck r_files r_out r_slides].
  rewrite py_bind_run. cbn [add_call r_deck r_files r_out r_slides].
  rewrite py_bind_run.
  destruct (report_vars data vl _) as [[[]|e] r2]; done.
Qed.

(** C30. The slides [AnalysisReport] returns are the slides it adds: for a
    file name it understands, the report receives the calls of [p] so far
    (a cover, or the calls of the report passed in), the [describe]
    table, then slides only, and on return the [save] call with the file
    name's root and [.pptx]; the returned [slides_data] are the data of
    exactly those slides, in order. When a branch raises, the deck keeps
    the slides added before it, unsaved. For any other [filename] only
    the message is printed and [None] returned. *)
Theorem run_report_slides data vl fn r :
  match open_report stamp fn with
  | None => run_report stamp data vl fn r =
              (Ret None, mkRState (r_deck r) (r_files r) (r_out r ++ [MBadFilename]) [])
  | Some (deck, filename) =>
      exists calls, Forall is_add calls /\
        r_slides (snd (run_report stamp data vl fn r)) = added_slides calls /\
        ((fst (run_report stamp data vl fn r) = Ret (Some (added_slides calls)) /\
          r_deck (snd (run_report stamp data vl fn r)) =
            deck ++ [AddSlide (SOne (ITable (describe data))) TFields None None] ++ calls ++
            [SaveAs (splitext_root filename ++ ".pptx")]) \/
         ((exists e, fst (run_report stamp data vl fn r) = Exc e) /\
          r_deck (snd (run_report stamp data vl fn r)) =
            deck ++ [AddSlide (SOne (ITable (describe data))) TFields None None] ++ calls))
  end.
Proof.
  rewrite run_report_eq. destruct (open_report stamp fn) as [[deck filename]|]; [|done].
  pose proof (report_vars_deck data vl (opened_state deck data r)) as Hv. unfold wp in Hv.
  destruct (report_vars data vl _) as [[[]|e] r2]; cbn;
    destruct Hv as (calls & Hc & Hd & Hs); exists calls; cbn in *; split_and!; try done.
  - left. split; [by rewrite Hs|]. by rewrite Hd, <- !app_assoc.
  - right. split; [by eexists|]. by rewrite Hd, <- app_assoc.
Qed.
End deck.

(** ** The exceptions of a branch *)

Lemma lookup_col_None (t : table) c : lookup_col t c = None <-> c ∉ col_names t.
Proof.
  unfold lookup_col, col_names. induction t as [|col t IH]; simpl.
  - split; [intros _; apply not_elem_of_nil|done].
  - rewrite elem_of_cons. destruct (String.eqb_spec (col_name col) c); [naive_solver|].
    rewrite IH. naive_solver.
Qed.

Lemma series_exc data n e : series data n = Exc e -> e = KeyError /\ n ∉ col_names data.
Proof.
  unfold series. destruct (lookup_col data n) eqn:E; [done|]. intros [= <-].
  split; [done|]. by apply lookup_col_None.
Qed.

Lemma series_ret data n : n ∈ col_names data -> exists c, series data n = Ret c.
Proof.
  unfold series. destruct (lookup_col data n) eqn:E; [eauto|]. intros Hn. by apply lookup_col_None in E.
Qed.

Lemma loc_cols_exc data ns e :
  loc_cols data ns = Exc e -> e = KeyError /\ ~ Forall (fun n => n ∈ col_names data) ns.
Proof.
  unfold loc_cols. induction ns as [|n ns IH]; [done|]. cbn.
  destruct (series data n) as [c|e'] eqn:E; cbn.
  - destruct (mapM (series data) ns) eqn:E'; [done|]. intros [= <-].
    destruct (IH eq_refl) as [-> Hn]. split; [done|]. by intros [_ ?]%Forall_cons.
  - intros [= <-]. apply series_exc in E as [-> Hn]. split; [done|]. by intros [? _]%Forall_cons.
Qed.

Lemma run_draws_exc `{Backend} ds e :
  run_draws ds = Exc e -> exists d, d ∈ ds /\ (arg_exc d = Some e \/ draw_exc d = Some e).
Proof.
  induction ds as [|d ds IH]; [done|]. cbn.
  destruct (arg_exc d) eqn:A; [intros [= <-]; exists d; split; [left|]; auto|].
  destruct (draw_exc d) eqn:E; [intros [= <-]; exists d; split; [left|]; auto|].
  intros (d' & ? & ?)%IH. exists d'. split; [by right|done].
Qed.

(** A sequence of calls without an unbound argument raises only what a
    call raises. *)
Lemma run_draws_noarg_exc `{Backend} ds e :
  Forall (fun d => arg_exc d = None) ds -> run_draws ds = Exc e -> exists d, draw_exc d = Some e.
Proof.
  intros Hf (d & Hd & [Ha|Hd'])%run_draws_exc; [|eauto].
  rewrite Forall_forall in Hf. by rewrite Hf in Ha.
Qed.

Lemma legend_calls_noarg `{Backend} ds : Forall (fun d => arg_exc d = None) (legend_calls ds).
Proof. unfold legend_calls. case_match; repeat constructor. Qed.

Lemma density_draws_exc `{Backend} ds e :
  Forall (fun d => arg_exc d = None) ds -> density_draws ds = Exc e -> exists d, draw_exc d = Some e.
Proof.
  intros Hf. unfold density_draws, mbind, outcome_bind.
  destruct (run_draws _) eqn:E; [done|]. intros [= <-].
  eapply run_draws_noarg_exc, E. apply Forall_app; split; [done|].
  apply Forall_app; split; [apply legend_calls_noarg|by repeat constructor].
Qed.

Lemma map_noarg {A} (f : A -> draw) l :
  (forall a, arg_exc (f a) = None) -> Forall (fun d => arg_exc d = None) (map f l).
Proof. intros Hf. apply Forall_forall. intros d (a & <- & _)%list_elem_of_In%in_map_iff. apply Hf. Qed.

(** [plot(..., figure_type='mpl', chart_type='kde' or 'dist')] raises only
    what a drawing call raises, and otherwise returns a chart with a
    figure. *)
Lemma plot_mpl_exc `{Backend} t kind e :
  is_one_of kind ["scatter"] = false ->
  plot t "mpl" kind false = Exc e -> exists d, draw_exc d = Some e.
Proof.
  intros Hk. unfold plot, mbind, outcome_bind. cbn in *.
  repeat case_match; cbn; try discriminate; intros; simplify_eq; eauto;
    (eapply density_draws_exc; [|eassumption]); apply map_noarg; intros; reflexivity.
Qed.

Lemma plot_mpl_ret `{Backend} t kind o :
  plot t "mpl" kind false = Ret o -> exists c, o = Some c /\ chart_has_fig c = true.
Proof.
  unfold plot, mbind, outcome_bind. cbn.
  repeat case_match; cbn; try discriminate; intros; simplify_eq; eauto.
Qed.

Lemma share_summary_exc tmp e : share_summary tmp = Exc e -> e = ValueError /\ tmp = [].
Proof. unfold share_summary, py_argmax. by destruct tmp; cbn; intros [= <-]. Qed.

Lemma series_values_exc cells e : series_values cells = Exc e -> e = TypeError.
Proof. unfold series_values. case_match; by intros [= <-]. Qed.

(** The columns a branch reads: the variable's own column, or the
    columns of [vlist] for a [group_number]. *)
Definition names_ok (data : table) (v : var) : Prop :=
  match var_vtype v with
  | VGroupNumber => Forall (fun n => n ∈ col_names data) (var_vlist v)
  | _ => var_name v ∈ col_names data
  end.

(** The exceptions a branch can raise. *)
Definition report_exc `{Backend} (data : table) (v : var) (e : pyexc) : Prop :=
  (e = KeyError /\ ~ names_ok data v) \/
  (e = ValueError /\ var_vtype v ∈ [VCategory; VDatetime; VGroupNumber]) \/
  (e = TypeError /\ var_vtype v = VNumber) \/
  (var_vtype v = VNumber /\ exists d, draw_exc d = Some e).

Ltac exc_leaf Hv :=
  repeat match goal with
  | H : series _ _ = Exc _ |- _ => apply series_exc in H as [-> ?]
  | H : loc_cols _ _ = Exc _ |- _ => apply loc_cols_exc in H as [-> ?]
  | H : share_summary _ = Exc _ |- _ => apply share_summary_exc in H as [-> ?]
  | H : series_values _ = Exc _ |- _ => apply series_values_exc in H as ->
  | H : plot _ "mpl" _ false = Exc _ |- _ => apply plot_mpl_exc in H; [|reflexivity]
  | H : plot _ "mpl" _ false = Ret _ |- _ => apply plot_mpl_ret in H as (? & ? & ?); simplify_eq
  end;
  unfold report_exc, names_ok; rewrite ?Hv; first [done | congruence | set_solver | naive_solver].

Section exceptions.
Context `{Backend}.

(** The exceptions of one iteration of the loop over [var_list]: a
    [KeyError] only when a column the branch reads is missing, a
    [ValueError] only in the chart branches (an empty chart), a
    [TypeError] only for a [number] whose values are not numbers, and for
    a [number] whatever a drawing call raises. The [text] and [text_st]
    branches never raise: every exception of the word cloud is caught. *)
Lemma report_var_exc data v r :
  wp (report_var data v) (fun _ _ => True) (fun e _ => report_exc data v e) r.
Proof.
  unfold report_var, number_branch, category_branch, datetime_branch, text_branch, group_branch.
  destruct (var_vtype v) eqn:Hv; wp_run; exc_leaf Hv.
Qed.

Lemma report_vars_exc data vl r :
  wp (report_vars data vl) (fun _ _ => True) (fun e _ => exists v, v ∈ vl /\ report_exc data v e) r.
Proof.
  revert r. induction vl as [|v vl IH]; intros r; [by apply wp_ret|]. cbn [report_vars].
  apply wp_bind. apply (wp_mono _ (fun _ _ => True) _ (fun e _ => report_exc data v e)); [| |apply report_var_exc].
  - intros _ r' _. apply (wp_mono _ (fun _ _ => True) _ (fun e _ => exists w, w ∈ vl /\ report_exc data w e));
      [done| |apply IH].
    intros e r'' (w & Hw & He). exists w. split; [by right|done].
  - intros e r' He. exists v. split; [left|done].
Qed.

Variable stamp : string.

Lemma run_report_exc data vl fn r e r' :
  run_report stamp data vl fn r = (Exc e, r') -> exists v, v ∈ vl /\ report_exc data v e.
Proof.
  rewrite run_report_eq. destruct (open_report stamp fn) as [[deck filename]|]; [|done].
  pose proof (report_vars_exc data vl (opened_state deck data r)) as Hv. unfold wp in Hv.
  destruct (report_vars data vl _) as [[[]|e'] r2]; [done|]. by intros [= <- _].
Qed.

(** C31. With a [var_list] given, [AnalysisReport] leaves the DataFrame
    as it is and raises only what a branch raises: a [KeyError] for a
    variable whose column is missing, a [ValueError] for an empty chart,
    a [TypeError] for a non-numeric [number], or a drawing call's
    exception. *)
Theorem analysis_report_exceptions fn vl (t : table) r e s' :
  AnalysisReport stamp fn (Some vl) (t, r) = (Exc e, s') ->
  fst s' = t /\ exists v, v ∈ vl /\ report_exc t v e.
Proof.
  cbn. destruct (run_report stamp t vl fn r) as [[o|e'] r'] eqn:E; [done|].
  intros [= <- <-]. split; [done|]. by eapply run_report_exc.
Qed.

Lemma names_ok_of_wf data v :
  var_wf v -> (forall n, n ∈ var_vlist v -> n ∈ col_names data) -> names_ok data v.
Proof.
  unfold names_ok. intros [Hs|(Hg & _)] Hn.
  - rewrite Hs in Hn. specialize (Hn (var_name v) ltac:(left)).
    case_match; try done. rewrite Hs. by repeat constructor.
  - rewrite Hg. by apply Forall_forall.
Qed.

(** C32. [AnalysisReport(data)] with no [var_list], on a DataFrame with
    distinct column names, never raises [KeyError] (unless a drawing call
    does): every column a slide reads is one [var_detection] classified,
    so every [data[name]] and [data.loc[:, vlist]] succeeds. *)
Theorem analysis_report_no_keyerror fn (t : table) r :
  (forall d, draw_exc d <> Some KeyError) -> NoDup (col_names t) ->
  fst (AnalysisReport stamp fn None (t, r)) <> Exc KeyError.
Proof.
  intros Hd Hnd. cbn. destruct (var_detection true t) as [[res|e] t'] eqn:Hv.
  - destruct res as [|out|]; cbn; try done.
    destruct (run_report stamp t' out fn r) as [[o|e] r'] eqn:E; cbn; [done|].
    intros [= ->]. apply run_report_exc in E as (v & Hin & He).
    destruct (var_detection_columns _ _ _ Hnd Hv) as [Hwf Hcols].
    rewrite Forall_forall in Hwf.
    destruct He as [[_ Hno]|[[? _]|[[? _]|(_ & d & Hdk)]]]; try done; [|by apply (Hd d)].
    apply Hno, names_ok_of_wf; [by apply Hwf|]. intros n Hn. apply Hcols.
    apply list_elem_of_In, in_concat. exists (var_vlist v). split; [|by apply list_elem_of_In].
    apply in_map, list_elem_of_In, Hin.
  - cbn. intros [= ->]. apply var_detection_exc in Hv; [|done]. unfold classifier_exc in Hv. naive_solver.
Qed.
End exceptions.

(** ** Percentages, empty charts and file names *)

Section shares.

Lemma sumQ_percent (l : list (cell * nat)) (T : Q) :
  (sumQ (map (fun p => inject_Z (Z.of_nat (snd p)) * 100 / T) l) ==
   inject_Z (Z.of_nat (sum_list_with snd l)) * 100 / T)%Q.
Proof.
  induction l as [|p l IH]; cbn [map sumQ foldr sum_list_with].
  - unfold Qdiv. change (inject_Z (Z.of_nat 0)) with 0%Q. ring.
  - change (foldr Qplus 0%Q ?x) with (sumQ x).
    rewrite IH, Nat2Z.inj_add, inject_Z_plus. unfold Qdiv. ring.
Qed.

Lemma omap_snd_some {A B C} (f : A -> B) (g : A -> C) (l : list A) :
  omap snd (map (fun p => (f p, Some (g p))) l) = map g l.
Proof. induction l as [|x l IH]; cbn; [done|]. by rewrite IH. Qed.

Lemma le_sum_list_with (l : list (cell * nat)) p : p ∈ l -> snd p <= sum_list_with snd l.
Proof. induction 1; cbn; lia. Qed.

(** C33. The shares of a chart are percentages: when some value is
    counted, [tmp * 100 / tmp.sum()] gives every label a share between 0
    and 100, and the shares add up to 100. *)
Theorem percentages_bounds (vc : list (cell * nat)) :
  0 < sum_list_with snd vc ->
  Forall (fun p => exists q, snd p = Some q /\ (0 <= q <= 100)%Q) (percentages vc) /\
  (sumQ (omap snd (percentages vc)) == 100)%Q.
Proof.
  intros Hpos. unfold percentages. set (T := sum_list_with snd vc) in *.
  destruct (Nat.eqb_spec T 0) as [|_]; [lia|].
  assert (0 < inject_Z (Z.of_nat T))%Q as HT by (change 0%Q with (inject_Z 0); rewrite <- Zlt_Qlt; lia).
  split.
  - apply Forall_map, Forall_forall. intros p Hp. eexists. split; [done|].
    pose proof (le_sum_list_with vc p Hp) as Hle. fold T in Hle. split.
    + apply Qle_shift_div_l; [done|]. rewrite Qmult_0_l. apply Qmult_le_0_compat; [|lra].
      change 0%Q with (inject_Z 0). rewrite <- Zle_Qle. lia.
    + apply Qdiv_le_iff; [done|].
      assert (inject_Z (Z.of_nat (snd p)) <= inject_Z (Z.of_nat T))%Q by (rewrite <- Zle_Qle; lia). nra.
  - rewrite omap_snd_some. rewrite sumQ_percent. fold T.
    field. intros E. rewrite E in HT. exact (Qlt_irrefl 0 HT).
Qed.
End shares.

Section report_errors.
Context `{Backend}.
Variable stamp : string.

Lemma value_counts_sorted_empty col :
  is_categorical_dtype (col_dtype col) = false -> dropna (col_cells col) = [] -> value_counts_sorted col = [].
Proof.
  intros Hc Hd. unfold value_counts_sorted, raw_counts, value_counts, unique_values.
  destruct (col_dtype col); try done; by rewrite Hd.
Qed.

(** C34. A datetime column without a timestamp (all NaT) makes the
    datetime branch raise [ValueError]: [value_counts().max()] is NaN, so
    the column is not skipped, and [argmax] of the empty share table
    raises. *)
Theorem datetime_all_nat_value_error data v col r :
  var_vtype v = VDatetime -> var_ordered v = false ->
  series data (var_name v) = Ret col -> col_dtype col = DDatetime -> dropna (col_cells col) = [] ->
  fst (report_var data v r) = Exc ValueError.
Proof.
  intros Hv Ho Hs Hd Hn. unfold report_var. rewrite Hv. unfold datetime_branch.
  rewrite py_bind_run. cbn [py_lift]. rewrite Hs.
  rewrite value_counts_sorted_empty by (by rewrite ?Hd). cbn [all_distinct].
  rewrite (value_counts_sorted_empty (with_data col DObject (col_cells col))) by done.
  rewrite Ho. done.
Qed.

(** C35. A [filename] that is neither [None], a string nor a [Report]
    makes [AnalysisReport(data)] print a message and return [None], no
    report being built, but only after [var_detection] has rewritten the
    caller's DataFrame. *)
Theorem analysis_report_bad_filename (t t' : table) out r :
  var_detection true t = (Ret (Combined out), t') ->
  AnalysisReport stamp FOther None (t, r) =
    (Ret (Returned None), (t', mkRState (r_deck r) (r_files r) (r_out r ++ [MBadFilename]) [])).
Proof. intros Hv. cbn. rewrite Hv. by rewrite run_report_eq. Qed.

End report_errors.

Section plots.
Context `{Backend}.

(** C37. A [number] slide removes its pictures: when the branch returns,
    [kdeplot1.png] and [kdeplot2.png] are gone from the working directory
    (a file of that name that was there before is overwritten, then
    deleted), and the one slide added shows those two files. *)
Theorem number_branch_removes_plots data name r r' :
  number_branch data name r = (Ret tt, r') ->
  r_files r' = r_files r ∖ {["kdeplot1.png"; "kdeplot2.png"]} /\
  exists s f, r_deck r' = r_deck r ++ [AddSlide (SMany [IPicture "kdeplot1.png"; IPicture "kdeplot2.png"])
                                               (TAnalysis name) s f].
Proof.
  intros Hr.
  assert (wp (number_branch data name)
            (fun _ r' => r_files r' = r_files r ∖ {["kdeplot1.png"; "kdeplot2.png"]} /\
               exists s f, r_deck r' = r_deck r ++ [AddSlide (SMany [IPicture "kdeplot1.png"; IPicture "kdeplot2.png"])
                                                            (TAnalysis name) s f])
            (fun _ _ => True) r) as Hwp.
  { unfold number_branch. wp_run; try done.
    split; [apply set_eq; intros x; set_solver|eauto]. }
  unfold wp in Hwp. by rewrite Hr in Hwp.
Qed.
End plots.

Section dispatch.
Context `{Backend}.
Variable stamp : string.

Lemma run_draws_ok ds :
  (forall d, draw_exc d = None) -> Forall (fun d => arg_exc d = None) ds -> run_draws ds = Ret tt.
Proof. intros Hd. induction 1 as [|d ds Ha _ IH]; cbn; [done|]. by rewrite Ha, Hd. Qed.

(** C36. The [text] branch never raises: every exception inside its
    [try] is caught and reported. It adds the word-cloud slide, and
    returns it in [slides_data], exactly when the column exists, its
    non-missing values are all strings, they join into more than one
    character and the word cloud is made; [tmp.png] is then gone from the
    working directory and nothing is printed. A joined text of at most
    one character changes nothing; any failure prints ['cannot
    understand'] and changes nothing else. *)
Theorem text_branch_spec (data : table) (name : string) (r : rstate) :
  (exists col s, series data name = Ret col /\ join_strings (dropna (col_cells col)) = Ret s /\
     1 < String.length s /\ wordcloud_exc s = None /\
     text_branch data name r =
       (Ret tt, mkRState (r_deck r ++ [AddSlide (SOne (IPicture "tmp.png")) (TWordcloud name) None
                                                 (Some (SCount (count (col_cells col))))])
                         (r_files r ∖ {[ "tmp.png" ]}) (r_out r)
                         (r_slides r ++ [SOne (IPicture "tmp.png")]))) \/
  (exists col s, series data name = Ret col /\ join_strings (dropna (col_cells col)) = Ret s /\
     String.length s <= 1 /\ text_branch data name r = (Ret tt, r)) \/
  (((exists e, series data name = Exc e) \/
    (exists col e, series data name = Ret col /\ join_strings (dropna (col_cells col)) = Exc e) \/
    (exists col s e, series data name = Ret col /\ join_strings (dropna (col_cells col)) = Ret s /\
       1 < String.length s /\ wordcloud_exc s = Some e)) /\
   text_branch data name r =
     (Ret tt, mkRState (r_deck r) (r_files r) (r_out r ++ [MCannotUnderstand name]) (r_slides r))).
Proof.
  unfold text_branch, py_try, mbind, PyM_bind, py_lift, mret, PyM_ret.
  destruct (series data name) as [col|e] eqn:Hs; [|right; right; split; [left; eauto|done]].
  destruct (join_strings (dropna (col_cells col))) as [s|e] eqn:Hj;
    [|right; right; split; [right; left; eauto|done]].
  destruct (1 <? String.length s) eqn:Hl;
    [apply Nat.ltb_lt in Hl|apply Nat.ltb_ge in Hl; right; left; exists col, s; by split_and!].
  destruct (wordcloud_exc s) as [e|] eqn:Hw; [right; right; split; [right; right; eauto 10|done]|].
  left. exists col, s. split_and!; try done.
  unfold publish, add_slide, add_call, push_slide, remove_file, write_file, mbind, PyM_bind. cbn.
  rewrite decide_True by (apply elem_of_union_l, elem_of_singleton; done).
  do 2 f_equal. apply set_eq. intros x. set_solver.
Qed.

Lemma myfont_None : myfont = None <-> config_font_path = None \/ config_font_path = Some "".
Proof.
  unfold myfont. destruct config_font_path as [q|]; [|naive_solver].
  destruct (String.eqb_spec q ""); subst; naive_solver.
Qed.

Lemma myfont_Some p : myfont = Some p <-> config_font_path = Some p /\ p <> "".
Proof.
  unfold myfont. destruct config_font_path as [q|]; [|naive_solver].
  destruct (String.eqb_spec q ""); subst; naive_solver.
Qed.

(** What a successful import binds, through [myfont]. *)
Lemma import_analysis_ret v g :
  import_analysis v = Ret g ->
  g_font_path g = config_font_path /\ g_myfont g = myfont /\
  forall name, g_sns_font g = Some name <-> exists p, myfont = Some p /\ font_name p = Ret name.
Proof.
  unfold import_analysis. case_match; [|done].
  destruct myfont as [f|]; [destruct (font_name f) eqn:E|]; cbn; intros; simplify_eq; cbn;
    split_and!; try done; intros name; split.
  - intros [= <-]. eauto.
  - intros (p & [= <-] & Hp). congruence.
  - done.
  - by intros (? & ? & _).
Qed.

Lemma plot_scatter_cases (data : table) c0 c1 rest ax_given :
  data = c0 :: c1 :: rest -> (forall d, draw_exc d = None) ->
  (myfont = None -> 0 < nrows data -> plot data "mpl" "scatter" ax_given = Exc NameError) /\
  (myfont <> None -> exists c, plot data "mpl" "scatter" ax_given = Ret (Some c) /\
     Forall (fun i => scatter_annotate data myfont i ∈ chart_draws c) (seq 0 (nrows data))).
Proof.
  intros -> Hd. unfold plot, scatter_draws. cbn -[run_draws nrows].
  rewrite (run_draws_ok (if ax_given then [] else [DSubplots])) by (done || by destruct ax_given; repeat constructor).
  rewrite (run_draws_ok [DTicksNone "x"; DTicksNone "y"; DAxhline; DAxvline]) by (done || by repeat constructor).
  cbn -[run_draws nrows seq legend_calls]. split.
  - intros -> Hn. destruct (nrows _) as [|n]; [lia|]. cbn. by rewrite Hd.
  - destruct myfont as [f|]; [intros _|done].
    rewrite run_draws_ok; [|done|].
    + eexists; split; [reflexivity|]. apply Forall_forall. intros i Hi. cbn [chart_draws].
      assert (scatter_annotate (c0 :: c1 :: rest) (Some f) i
                ∈ map (scatter_annotate (c0 :: c1 :: rest) (Some f)) (seq 0 (nrows (c0 :: c1 :: rest))))
        by by apply list_elem_of_In, in_map, list_elem_of_In.
      set_solver.
    + constructor; [done|]. apply Forall_app; split; [|apply legend_calls_noarg].
      apply Forall_app; split; [by apply map_noarg|by repeat constructor].
Qed.

(** C18. The scatter branch annotates every row with [myfont], which the
    module binds only when [config.font_path] is truthy: with the font
    unset, a scatter plot of a frame with a row raises [NameError] at the
    first [ax.annotate], after the points are drawn; with it set, the
    chart annotates each row. *)
Theorem plot_scatter_font (data : table) c0 c1 rest ax_given :
  data = c0 :: c1 :: rest -> (forall d, draw_exc d = None) ->
  (myfont = None -> 0 < nrows data -> plot data "mpl" "scatter" ax_given = Exc NameError) /\
  (myfont <> None -> exists c, plot data "mpl" "scatter" ax_given = Ret (Some c) /\
     Forall (fun i => scatter_annotate data myfont i ∈ chart_draws c) (seq 0 (nrows data))).
Proof. apply plot_scatter_cases. Qed.

(** Importing the module fails with [ImportError] on Python 3.10 and
    later, where [collections.Iterable] no longer exists; on an earlier
    version it fails only when reading the font file does. *)
Lemma import_analysis_version (v : py_version) :
  ((3 < py_major v \/ (py_major v = 3 /\ 10 <= py_minor v)) -> import_analysis v = Exc ImportError) /\
  ((py_major v < 3 \/ (py_major v = 3 /\ py_minor v < 10)) ->
   forall e, import_analysis v = Exc e -> exists f, myfont = Some f /\ font_name f = Exc e).
Proof.
  unfold import_analysis, has_collections_Iterable.
  destruct (Nat.ltb_spec (py_major v) 3), (Nat.eqb_spec (py_major v) 3), (Nat.ltb_spec (py_minor v) 10);
    cbn; split; intros Hv; try (exfalso; lia); try done;
    destruct myfont as [f|]; try destruct (font_name f) eqn:E; cbn; naive_solver.
Qed.

(** C22. The module setup and a scatter plot, read from
    [config.font_path]: after a successful import, [font_path] is
    [config.font_path]; [myfont] is bound, to that file, exactly when
    [config.font_path] is neither [None] nor the empty string; seaborn's
    font is then the family read from that file; and a scatter plot of a
    frame with a row raises [NameError] exactly when [config.font_path]
    is [None] or empty. *)
Theorem import_then_scatter (v : py_version) g (data : table) c0 c1 rest :
  import_analysis v = Ret g ->
  data = c0 :: c1 :: rest -> 0 < nrows data -> (forall d, draw_exc d = None) ->
  g_font_path g = config_font_path /\
  (forall p, g_myfont g = Some p <-> config_font_path = Some p /\ p <> "") /\
  (forall name, g_sns_font g = Some name <->
     exists p, config_font_path = Some p /\ p <> "" /\ font_name p = Ret name) /\
  (plot data "mpl" "scatter" false = Exc NameError <-> config_font_path = None \/ config_font_path = Some "").
Proof.
  intros Hi Hdata Hn Hd. destruct (import_analysis_ret v g Hi) as (Hfp & Hmf & Hsns).
  destruct (plot_scatter_cases data c0 c1 rest false Hdata Hd) as [Hnone Hsome].
  split_and!; [done| | |].
  - intros p. rewrite Hmf. apply myfont_Some.
  - intros name. rewrite Hsns. setoid_rewrite myfont_Some. naive_solver.
  - rewrite <- myfont_None. split; [|by intros Hf; apply Hnone].
    intros Hexc. destruct myfont as [f|] eqn:Hf; [|done].
    destruct Hsome as (c & Hc & _); [done|]. congruence.
Qed.

(** C39. [AnalysisReport(data)] with no [var_list] returns exactly when
    [var_detection]'s grouping loop ends: on distinct column names whose
    column scan succeeds, the call runs forever exactly when the scan
    reaches an index whose run it rejects. *)
Theorem analysis_report_diverges_iff fn (t : table) r vl t' :
  NoDup (col_names t) -> columnwise true t = (Ret vl, t') ->
  fst (AnalysisReport stamp fn None (t, r)) = Ret Diverged <->
  exists st, reaches vl scan_init st /\ stuck_at vl (sc_i st) = true.
Proof.
  intros Hnd Ht. rewrite <- (var_detection_stuck t vl t' Hnd Ht). cbn.
  assert (snd (var_detection true t) = t') as Hsnd.
  { rewrite var_detection_run, Ht by done. cbn -[scan_loop emit_all]. by destruct (scan_loop _ _ _). }
  destruct (var_detection true t) as [[[l|out|]|e] t''] eqn:Hv; cbn in Hsnd; subst t''; split; try done.
  - intros _. by apply var_detection_no_varlist in Hv.
  - match goal with |- context [run_report _ _ ?o _ _] => destruct (run_report stamp t' o fn r) as [[o'|e] r'] end;
      cbn; congruence.
Qed.
End dispatch.

Section category.
Context `{Backend}.

Lemma argmax_from_keep (l : list (option Q)) i j b :
  Forall (fun o => forall x, o = Some x -> (x <= b)%Q) l -> argmax_from l i (Some (j, b)) = Some (j, b).
Proof.
  revert i. induction l as [|[x|] l IH]; intros i Hl; cbn; [done| |].
  - apply Forall_cons in Hl as [Hx Hl]. specialize (Hx x eq_refl).
    unfold Qlt_bool. destruct (Qle_bool_reflect x b) as [|Hn]; [by apply IH|lra].
  - apply Forall_cons in Hl as [_ Hl]. by apply IH.
Qed.

Lemma percentage_mono (T a b : nat) :
  0 < T -> b <= a -> (inject_Z (Z.of_nat b) * 100 / inject_Z (Z.of_nat T) <= inject_Z (Z.of_nat a) * 100 / inject_Z (Z.of_nat T))%Q.
Proof.
  intros HT Hab. assert (0 < inject_Z (Z.of_nat T))%Q as HT' by (change 0%Q with (inject_Z 0); rewrite <- Zlt_Qlt; lia).
  apply Qmult_le_compat_r; [|apply Qlt_le_weak, Qinv_lt_0_compat, HT'].
  assert (inject_Z (Z.of_nat b) <= inject_Z (Z.of_nat a))%Q by (rewrite <- Zle_Qle; lia). lra.
Qed.

(** C40. The slide of an unordered [category] variable: its chart shows
    [value_counts()] as percentages, larger first, and its summary names
    position 0 with the largest share, the share of the most frequent
    value; the slide is added and returned. *)
Theorem category_slide_top data v col r :
  var_vtype v = VCategory -> var_ordered v = false -> series data (var_name v) = Ret col ->
  0 < sum_list_with snd (value_counts_sorted col) ->
  exists top n rest,
    value_counts_sorted col = (top, n) :: rest /\
    report_var data v r =
      (Ret tt, mkRState (r_deck r ++ [AddSlide (SOne (IChart "COLUMN_CLUSTERED" (percentages (value_counts_sorted col))))
                                        (TAnalysis (var_name v))
                                        (Some (SumShare 0 (SNum (inject_Z (Z.of_nat n) * 100 /
                                                                 inject_Z (Z.of_nat (sum_list_with snd (value_counts_sorted col))))%Q)))
                                        (Some (SCount (count (col_cells col))))])
                        (r_files r) (r_out r)
                        (r_slides r ++ [SOne (IChart "COLUMN_CLUSTERED" (percentages (value_counts_sorted col)))])).
Proof.
  intros Hv Ho Hs Hpos. pose proof (sort_counts_sorted (raw_counts col)) as Hsorted.
  fold (value_counts_sorted col) in Hsorted.
  destruct (value_counts_sorted col) as [|[top n] rest] eqn:E; [cbn in Hpos; lia|].
  exists top, n, rest. split; [done|].
  unfold report_var. rewrite Hv. unfold category_branch, chart_slide. rewrite !py_bind_run. cbn [py_lift]. rewrite Hs.
  rewrite E, Ho. cbv iota. set (T := sum_list_with snd ((top, n) :: rest)) in *.
  assert (share_summary (percentages ((top, n) :: rest)) =
          Ret (SumShare 0 (SNum (inject_Z (Z.of_nat n) * 100 / inject_Z (Z.of_nat T))%Q))) as ->.
  { unfold share_summary, py_argmax, series_max, percentages. fold T.
    destruct (Nat.eqb_spec T 0) as [|_]; [lia|]. cbn [map snd argmax_from].
    apply StronglySorted_inv in Hsorted as [_ Hall].
    rewrite argmax_from_keep; [done|]. rewrite !Forall_map. eapply Forall_impl; [exact Hall|].
    intros [u m] Hm x [= <-]. apply percentage_mono; [lia|exact Hm]. }
  done.
Qed.
End category.

(** ** Concrete runs

    A backend whose calls all succeed, and a DataFrame with a numeric
    column and a datetime column without any timestamp. *)

#[local] Instance ok_backend : Backend := {|
  draw_exc := fun _ => None; has_legend_handles := fun _ => false; wordcloud_exc := fun _ => None;
  config_font_path := None; font_name := fun p => Ret p |}.

Definition stamp0 : string := "_202601011200".
Definition r0 : rstate := mkRState [] ∅ [] [].
Definition nat_col : column := mkColumn "when" DDatetime [CNaN; CNaN].
Definition nat_table : table := [float_col "x" [1; 2; 3]%Q; nat_col].
Definition when_var : var := singleton_var (mkDetection "when" VDatetime false []).
Definition missing_var : var := mkVar "zz" VNumber false [] ["zz"].
Definition pct_only : table := [pct_col].
Definition vc0 : list (cell * nat) := [(CStr "a", 3); (CStr "b", 1)].

(** The whole report on [nat_table]: the number slide is made, then the
    all-NaT column raises [ValueError]. *)
Theorem analysis_report_all_nat :
  fst (AnalysisReport stamp0 FNone None (nat_table, r0)) = Exc ValueError.
Proof. vm_compute. reflexivity. Qed.

(** The file name is checked after the DataFrame was rewritten: the
    percent column of [pct_only] is converted although no report is
    made. *)
Theorem bad_filename_rewrites_data :
  fst (snd (AnalysisReport stamp0 FOther None (pct_only, r0))) = [pct_col'] /\ pct_col' <> pct_col.
Proof. split; [vm_compute; reflexivity|discriminate]. Qed.

Lemma analysis_report_exceptions_witness :
  AnalysisReport stamp0 FNone (Some [missing_var]) (nat_table, r0) =
    (Exc KeyError, snd (AnalysisReport stamp0 FNone (Some [missing_var]) (nat_table, r0))) /\
  fst (snd (AnalysisReport stamp0 FNone (Some [missing_var]) (nat_table, r0))) = nat_table /\
  exists v, v ∈ [missing_var] /\ report_exc nat_table v KeyError.
Proof.
  assert (AnalysisReport stamp0 FNone (Some [missing_var]) (nat_table, r0) =
    (Exc KeyError, snd (AnalysisReport stamp0 FNone (Some [missing_var]) (nat_table, r0)))) as E
    by (vm_compute; reflexivity).
  split; [exact E|]. exact (analysis_report_exceptions stamp0 FNone [missing_var] nat_table r0 _ _ E).
Defined.

Lemma analysis_report_no_keyerror_witness :
  (forall d, draw_exc d <> Some KeyError) /\ NoDup (col_names nat_table) /\
  fst (AnalysisReport stamp0 FNone None (nat_table, r0)) <> Exc KeyError.
Proof.
  assert (forall d, draw_exc d <> Some KeyError) as Hd by (intros d; discriminate).
  assert (NoDup (col_names nat_table)) as Hnd by (apply (bool_decide_unpack _); vm_compute; reflexivity).
  split; [exact Hd|]. split; [exact Hnd|]. exact (analysis_report_no_keyerror stamp0 FNone nat_table r0 Hd Hnd).
Defined.

Lemma percentages_bounds_witness :
  0 < sum_list_with snd vc0 /\
  Forall (fun p => exists q, snd p = Some q /\ (0 <= q <= 100)%Q) (percentages vc0) /\
  (sumQ (omap snd (percentages vc0)) == 100)%Q.
Proof.
  assert (0 < sum_list_with snd vc0) as H by (cbn; lia).
  split; [exact H|]. exact (percentages_bounds _ H).
Defined.

Lemma datetime_all_nat_value_error_witness :
  var_vtype when_var = VDatetime /\ var_ordered when_var = false /\
  series nat_table (var_name when_var) = Ret nat_col /\ col_dtype nat_col = DDatetime /\
  dropna (col_cells nat_col) = [] /\
  fst (report_var nat_table when_var r0) = Exc ValueError.
Proof.
  refine (conj eq_refl (conj eq_refl (conj eq_refl (conj eq_refl (conj eq_refl _))))).
  apply (datetime_all_nat_value_error nat_table when_var nat_col r0); reflexivity.
Defined.

Lemma analysis_report_bad_filename_witness :
  var_detection true pct_only = (Ret (Combined (detected pct_only)), snd (var_detection true pct_only)) /\
  AnalysisReport stamp0 FOther None (pct_only, r0) =
    (Ret (Returned None), (snd (var_detection true pct_only), mkRState [] ∅ [MBadFilename] [])).
Proof.
  assert (var_detection true pct_only = (Ret (Combined (detected pct_only)), snd (var_detection true pct_only)))
    as Hv by (vm_compute; reflexivity).
  split; [exact Hv|]. exact (analysis_report_bad_filename stamp0 _ _ _ r0 Hv).
Defined.

Lemma number_branch_removes_plots_witness :
  number_branch nat_table "x" r0 = (Ret tt, snd (number_branch nat_table "x" r0)) /\
  r_files (snd (number_branch nat_table "x" r0)) = r_files r0 ∖ {["kdeplot1.png"; "kdeplot2.png"]} /\
  exists s f, r_deck (snd (number_branch nat_table "x" r0)) =
    r_deck r0 ++ [AddSlide (SMany [IPicture "kdeplot1.png"; IPicture "kdeplot2.png"]) (TAnalysis "x") s f].
Proof.
  assert (number_branch nat_table "x" r0 = (Ret tt, snd (number_branch nat_table "x" r0))) as E
    by (vm_compute; reflexivity).
  split; [exact E|]. exact (number_branch_removes_plots nat_table "x" r0 _ E).
Defined.

Lemma analysis_report_diverges_iff_witness :
  NoDup (col_names q1_table) /\
  columnwise true q1_table = (Ret (scanned q1_table), snd (columnwise true q1_table)) /\
  (fst (AnalysisReport stamp0 FNone None (q1_table, r0)) = Ret Diverged <->
   exists st, reaches (scanned q1_table) scan_init st /\ stuck_at (scanned q1_table) (sc_i st) = true).
Proof.
  assert (NoDup (col_names q1_table)) as Hnd by (apply (bool_decide_unpack _); vm_compute; reflexivity).
  assert (columnwise true q1_table = (Ret (scanned q1_table), snd (columnwise true q1_table))) as Hc
    by (vm_compute; reflexivity).
  split; [exact Hnd|]. split; [exact Hc|]. exact (analysis_report_diverges_iff stamp0 FNone q1_table r0 _ _ Hnd Hc).
Defined.

Definition cat_col : column := mkColumn "c" (DCategory [CStr "a"; CStr "b"] false) [CStr "a"; CStr "b"; CStr "a"; CNone].
Definition cat_var : var := singleton_var (mkDetection "c" VCategory false [CStr "a"; CStr "b"]).

Lemma category_slide_top_witness :
  var_vtype cat_var = VCategory /\ var_ordered cat_var = false /\
  series [cat_col] (var_name cat_var) = Ret cat_col /\ 0 < sum_list_with snd (value_counts_sorted cat_col) /\
  exists top n rest,
    value_counts_sorted cat_col = (top, n) :: rest /\
    report_var [cat_col] cat_var r0 =
      (Ret tt, mkRState (r_deck r0 ++ [AddSlide (SOne (IChart "COLUMN_CLUSTERED" (percentages (value_counts_sorted cat_col))))
                                        (TAnalysis (var_name cat_var))
                                        (Some (SumShare 0 (SNum (inject_Z (Z.of_nat n) * 100 /
                                                                 inject_Z (Z.of_nat (sum_list_with snd (value_counts_sorted cat_col))))%Q)))
                                        (Some (SCount (count (col_cells cat_col))))])
                        (r_files r0) (r_out r0)
                        (r_slides r0 ++ [SOne (IChart "COLUMN_CLUSTERED" (percentages (value_counts_sorted cat_col)))])).
Proof.
  assert (0 < sum_list_with snd (value_counts_sorted cat_col)) as Hp by (vm_compute; lia).
  refine (conj eq_refl (conj eq_refl (conj eq_refl (conj Hp _)))).
  apply (category_slide_top [cat_col] cat_var cat_col r0); [reflexivity|reflexivity|reflexivity|exact Hp].
Defined.

Definition scatter_table : table := [float_col "x" [1]%Q; float_col "y" [2]%Q].

Lemma plot_scatter_font_witness :
  myfont = None /\ 0 < nrows scatter_table /\ plot scatter_table "mpl" "scatter" false = Exc NameError.
Proof.
  assert (myfont = None) as Hf by reflexivity.
  assert (0 < nrows scatter_table) as Hn by (vm_compute; lia).
  split; [exact Hf|]. split; [exact Hn|].
  exact (proj1 (plot_scatter_font scatter_table (float_col "x" [1]%Q) (float_col "y" [2]%Q) [] false
                  eq_refl (fun _ => eq_refl)) Hf Hn).
Defined.

(** The figure types ['pptx'] and ['html'] that [plot]'s docstring lists
    give [None], and with an [ax] passed in the chart has no [fig]. *)
Example plot_docstring_figure_types :
  plot scatter_table "pptx" "kde" false = Ret None /\ plot scatter_table "html" "kde" false = Ret None /\
  (exists c, plot scatter_table "mpl" "kde" true = Ret (Some c) /\ chart_type c = "mpl" /\ chart_has_fig c = false).
Proof. split_and!; [reflexivity|reflexivity|eexists; split_and!; reflexivity]. Qed.

(** On Python 3.12 the import stops at [from collections import Iterable]. *)
Example import_fails_on_python_312 : import_analysis (mkVersion 3 12) = Exc ImportError.
Proof. apply (proj1 (import_analysis_version (mkVersion 3 12))). cbn; lia. Qed.

(** With a font configured, the same scatter plot annotates its row with
    that font, and the import on Python 3.9 sets seaborn's font to the
    family read from the file. *)
#[local] Instance font_backend : Backend := {|
  draw_exc := fun _ => None; has_legend_handles := fun _ => true; wordcloud_exc := fun _ => None;
  config_font_path := Some "simhei.ttf"; font_name := fun _ => Ret "SimHei" |}.

Example plot_scatter_with_font :
  plot scatter_table "mpl" "scatter" false =
    Ret (Some (mkChart "mpl" true
      [DSubplots; DTicksNone "x"; DTicksNone "y"; DAxhline; DAxvline;
       DScatter [CFloat 1] [CFloat 2] "blue" "y"; DAnnotate 0 (CFloat 1) (CFloat 2) "blue" (Some "simhei.ttf");
       DAxis "equal"; DLegend])) /\
  import_analysis (mkVersion 3 9) = Ret (mkGlobals (Some "simhei.ttf") (Some "simhei.ttf") (Some "SimHei")).
Proof. split; reflexivity. Qed.

(** [config.font_path = ''], the unset default: the import binds no
    [myfont] and the scatter plot raises [NameError]. *)
#[local] Instance empty_font_backend : Backend := {|
  draw_exc := fun _ => None; has_legend_handles := fun _ => true; wordcloud_exc := fun _ => None;
  config_font_path := Some ""; font_name := fun _ => Ret "SimHei" |}.

Lemma import_then_scatter_witness :
  import_analysis (mkVersion 3 9) = Ret (mkGlobals (Some "") None None) /\
  plot scatter_table "mpl" "scatter" false = Exc NameError.
Proof.
  assert (import_analysis (mkVersion 3 9) = Ret (mkGlobals (Some "") None None)) as Hi by reflexivity.
  assert (0 < nrows scatter_table) as Hn by (vm_compute; lia).
  split; [exact Hi|].
  apply (proj2 (proj2 (proj2 (import_then_scatter _ _ scatter_table (float_col "x" [1]%Q) (float_col "y" [2]%Q) []
                                 Hi eq_refl Hn (fun _ => eq_refl))))).
  by right.
Defined.
